(** * Face attendance system: recognition pipeline and attendance gate

    A shallow embedding of
      - [src/modules/face_recognition_module.py] (class FaceRecognitionModule),
      - [src/database/db_manager.py] (the student and attendance operations),
      - [src/modules/attendance_manager.py] (AttendanceManager.mark_attendance),
      - [src/gui/attendance_tab.py] (the cooldown gate and the camera
        loop),
    followed by the properties of the specification that concern them.

    Conventions.
      - Python floats are modelled by exact rationals ([Q]); the literals
        0.3, 0.6, 1.0 are the rationals they denote.
      - A Python call either returns a value or raises: [outcome].
      - The calls into cv2, face_recognition, numpy and the widgets are
        not code of this repository.  The operations on images and on the
        display are Section variables that may raise; the vectorised numpy
        operations are written out over lists from the distance of one
        pair of embeddings. *)

From Stdlib Require Import ZArith QArith Qabs List String Bool Lia Lqa.
From Stdlib Require Import DecimalString Permutation Sorted Qround.
Import ListNotations.

Local Open Scope string_scope.
Local Open Scope list_scope.

(** ** Python values and exceptions *)

Inductive exn : Type :=
| ZeroDivisionError
| ValueError
| IndexError
| LibraryError (msg : string).

Inductive outcome (A : Type) : Type :=
| Return (a : A)
| Raise (e : exn).

Arguments Return {A} a.
Arguments Raise {A} e.

Definition bind {A B : Type} (c : outcome A) (k : A -> outcome B) : outcome B :=
  match c with
  | Return a => k a
  | Raise e => Raise e
  end.

Notation "x <- c ;; k" := (bind c (fun x => k))
  (at level 61, c at next level, right associativity).

(** [try: c  except Exception: h] *)
Definition try_except {A : Type} (c : outcome A) (h : exn -> outcome A) : outcome A :=
  match c with
  | Return a => Return a
  | Raise e => h e
  end.

(** [a % b] on Python ints: the remainder has the sign of the divisor, as
    [Z.modulo]; a zero divisor raises. *)
Definition py_mod (a b : Z) : outcome Z :=
  if (b =? 0)%Z then Raise ZeroDivisionError else Return (a mod b)%Z.

(** [l[i]] for a non-negative index. *)
Definition getitem {A : Type} (l : list A) (i : nat) : outcome A :=
  match nth_error l i with
  | Some a => Return a
  | None => Raise IndexError
  end.

(** [True in l] *)
Definition True_in (l : list bool) : bool := existsb (fun b => b) l.

Definition Qlt_bool (x y : Q) : bool := negb (Qle_bool y x).

(** ** Data model *)

(** A face embedding: a vector of floats. *)
Definition Encoding : Type := list Q.

(** A face location [(top, right, bottom, left)]. *)
Definition Location : Type := (Z * Z * Z * Z)%type.

(** The keys of a student dict that the pipeline reads.  [face_encoding] is
    [None] both when the key is missing and when its value is None. *)
Record Student : Type := mkStudent {
  st_student_id : string;
  st_name : string;
  st_face_encoding : option Encoding
}.

(** One dict of the list returned by [recognize_faces]. *)
Record RecognitionResult : Type := mkResult {
  location : Location;
  name : string;
  student_id : option string;
  confidence : Q;
  is_known : bool
}.

(** The attributes of a FaceRecognitionModule instance. *)
Record FaceRecognitionModule : Type := mkModule {
  tolerance : Q;
  model : string;
  process_every_n_frames : Z;
  frame_count : Z;
  known_face_encodings : list Encoding;
  known_face_names : list string;
  known_face_ids : list string
}.

(** [FaceRecognitionModule.__init__] *)
Definition init (tol : Q) (mdl : string) (n : Z) : FaceRecognitionModule :=
  mkModule tol mdl n 0 [] [] [].

Definition default_module : FaceRecognitionModule := init (6 # 10) "hog" 2.

(** [load_known_faces]: the three caches are emptied, then every student
    with an encoding is appended to each of them. *)
Fixpoint load_loop (students : list Student)
    (encs : list Encoding) (names ids : list string)
    : list Encoding * list string * list string :=
  match students with
  | [] => (encs, names, ids)
  | s :: rest =>
      match st_face_encoding s with
      | Some e => load_loop rest (encs ++ [e]) (names ++ [st_name s]) (ids ++ [st_student_id s])
      | None => load_loop rest encs names ids
      end
  end.

Definition load_known_faces (m : FaceRecognitionModule) (students : list Student)
    : FaceRecognitionModule :=
  let '(encs, names, ids) := load_loop students [] [] [] in
  mkModule (tolerance m) (model m) (process_every_n_frames m) (frame_count m)
           encs names ids.

(** [set_tolerance]: the new module and the returned bool. *)
Definition set_tolerance (m : FaceRecognitionModule) (tol : Q)
    : FaceRecognitionModule * bool :=
  if Qle_bool (3 # 10) tol && Qle_bool tol 1 then
    (mkModule tol (model m) (process_every_n_frames m) (frame_count m)
              (known_face_encodings m) (known_face_names m) (known_face_ids m),
     true)
  else (m, false).

Definition get_tolerance (m : FaceRecognitionModule) : Q := tolerance m.

Definition reset_frame_count (m : FaceRecognitionModule) : FaceRecognitionModule :=
  mkModule (tolerance m) (model m) (process_every_n_frames m) 0
           (known_face_encodings m) (known_face_names m) (known_face_ids m).

(** [np.argmin]: the index of the first occurrence of the minimum; an empty
    array raises ValueError. *)
Fixpoint argmin_from (best_i : nat) (best : Q) (i : nat) (l : list Q) : nat :=
  match l with
  | [] => best_i
  | d :: l' =>
      if Qlt_bool d best then argmin_from i d (S i) l'
      else argmin_from best_i best (S i) l'
  end.

Definition argmin (l : list Q) : outcome nat :=
  match l with
  | [] => Raise ValueError
  | d :: l' => Return (argmin_from 0 d 1 l')
  end.

Definition unknown_match : string * option string * Q := ("Unknown", None, 0%Q).

(** ** Storage: [database/db_manager.py]

    The world the storage operations run in: the two tables, the system
    clock, and the failures of the database file.  Every operation opens
    one connection ([get_connection]); [connections] counts the connections
    opened so far, and the operation on connection number [n] raises inside
    its [try] exactly when [fault_at n] holds.  [datetime.now()] returns the
    next reading of [clock].

    A datetime is a number of microseconds (naive local time).  The string
    [strftime('%Y-%m-%d')] is represented by the day number and
    [strftime('%H:%M:%S')] by the second of the day: two datetimes have the
    same date string exactly when they have the same day number. *)

Definition datetime : Type := Z.

Definition usec_per_second : Z := 1000000.
Definition usec_per_day : Z := 86400 * usec_per_second.

Definition strftime_date (t : datetime) : Z := (t / usec_per_day)%Z.
Definition strftime_time (t : datetime) : Z := ((t mod usec_per_day) / usec_per_second)%Z.

(** A row of the attendance table. *)
Record AttendanceRow : Type := mkRow {
  att_student_id : string;
  att_date : Z;
  att_time : Z;
  att_status : string
}.

Record World : Type := mkWorld {
  students : list Student;
  attendance : list AttendanceRow;
  connections : nat;
  fault_at : nat -> bool;
  clock : nat -> datetime;
  ticks : nat
}.

(** Computations that read and change the world. *)
Definition M (A : Type) : Type := World -> A * World.

Definition ret {A : Type} (a : A) : M A := fun w => (a, w).

Definition sbind {A B : Type} (c : M A) (k : A -> M B) : M B :=
  fun w => let (a, w') := c w in k a w'.

Notation "x <~ c ;; k" := (sbind c (fun x => k))
  (at level 61, c at next level, right associativity).

Definition get_world : M World := fun w => (w, w).

(** [datetime.now()] *)
Definition datetime_now : M datetime :=
  fun w => (clock w (ticks w),
            mkWorld (students w) (attendance w) (connections w) (fault_at w)
                    (clock w) (S (ticks w))).

(** [with self.get_connection() as conn]: opens the next connection and
    tells whether the statements run on it succeed. *)
Definition get_connection : M bool :=
  fun w => (negb (fault_at w (connections w)),
            mkWorld (students w) (attendance w) (S (connections w)) (fault_at w)
                    (clock w) (ticks w)).

Definition insert_attendance (row : AttendanceRow) : M unit :=
  fun w => (tt,
            mkWorld (students w) (attendance w ++ [row]) (connections w) (fault_at w)
                    (clock w) (ticks w)).

(** [SELECT COUNT( * ) FROM students WHERE student_id = ?] *)
Definition count_students (w : World) (sid : string) : nat :=
  List.length (filter (fun s => String.eqb (st_student_id s) sid) (students w)).

(** [SELECT COUNT( * ) FROM attendance WHERE student_id = ? AND date = ?] *)
Definition count_attendance (w : World) (sid : string) (date : Z) : nat :=
  List.length (filter (fun r => String.eqb (att_student_id r) sid && (att_date r =? date)%Z)
                 (attendance w)).

(** [DatabaseManager.student_exists] *)
Definition student_exists (sid : string) : M bool :=
  ok <~ get_connection ;;
  if (ok : bool) then
    w <~ get_world ;;
    ret (0 <? count_students w sid)%nat
  else ret false.

(** [DatabaseManager.get_student] *)
Definition get_student (sid : string) : M (option Student) :=
  ok <~ get_connection ;;
  if (ok : bool) then
    w <~ get_world ;;
    ret (find (fun s => String.eqb (st_student_id s) sid) (students w))
  else ret None.

Fixpoint insert_by {A : Type} (le : A -> A -> bool) (x : A) (l : list A) : list A :=
  match l with
  | [] => [x]
  | y :: l' => if le y x then y :: insert_by le x l' else x :: l
  end.

(** A stable sort: equal keys keep their order. *)
Definition sort_by {A : Type} (le : A -> A -> bool) (l : list A) : list A :=
  fold_left (fun sorted x => insert_by le x sorted) l [].

(** [ORDER BY name]: names are compared byte by byte (the BINARY collation
    of SQLite); the order of rows with equal names is left open by SQL, the
    model keeps them in the order of the table. *)
Definition by_name (x y : Student) : bool := String.leb (st_name x) (st_name y).

(** [DatabaseManager.get_all_students] *)
Definition get_all_students : M (list Student) :=
  ok <~ get_connection ;;
  if (ok : bool) then
    w <~ get_world ;;
    ret (sort_by by_name (students w))
  else ret [].

(** [date = datetime.now().strftime('%Y-%m-%d')] when [date is None] *)
Definition default_date (date : option Z) : M Z :=
  match date with
  | Some d => ret d
  | None => t <~ datetime_now ;; ret (strftime_date t)
  end.

Definition default_time (time : option Z) : M Z :=
  match time with
  | Some t => ret t
  | None => t <~ datetime_now ;; ret (strftime_time t)
  end.

(** Modelled from the spec: the schema file [database/schema.sql] is not
    among the sources; the attendance table holds at most one row per
    (student_id, date), and the insertion of a second one is rejected
    (sqlite3.IntegrityError, which [mark_attendance] turns into False). *)
Definition violates_unique (w : World) (sid : string) (date : Z) : bool :=
  (0 <? count_attendance w sid date)%nat.

(** [DatabaseManager.mark_attendance] *)
Definition db_mark_attendance (sid : string) (date time : option Z) (status : string)
    : M bool :=
  d <~ default_date date ;;
  t <~ default_time time ;;
  ok <~ get_connection ;;
  if (ok : bool) then
    w <~ get_world ;;
    if violates_unique w sid d then ret false
    else
      _ <~ insert_attendance (mkRow sid d t status) ;;
      ret true
  else ret false.

(** [DatabaseManager.is_attendance_marked] *)
Definition is_attendance_marked (sid : string) (date : option Z) : M bool :=
  d <~ default_date date ;;
  ok <~ get_connection ;;
  if (ok : bool) then
    w <~ get_world ;;
    ret (0 <? count_attendance w sid d)%nat
  else ret false.

(** [DatabaseManager.get_attendance_by_date]: the rows of the date (the
    join with the student table and the ordering only serve the display). *)
Definition get_attendance_by_date (date : option Z) : M (list AttendanceRow) :=
  d <~ default_date date ;;
  ok <~ get_connection ;;
  if (ok : bool) then
    w <~ get_world ;;
    ret (filter (fun r => (att_date r =? d)%Z) (attendance w))
  else ret [].

(** ** [AttendanceManager.mark_attendance] *)

Definition mark_attendance (sid : string) (status : string) : M (bool * string) :=
  exists_ <~ student_exists sid ;;
  if negb exists_ then ret (false, "Student not found.")
  else
    marked <~ is_attendance_marked sid None ;;
    if (marked : bool) then ret (false, "Attendance already marked for today.")
    else
      success <~ db_mark_attendance sid None None status ;;
      if (success : bool) then
        student <~ get_student sid ;;
        let student_name :=
          match student with Some s => st_name s | None => sid end in
        ret (true, String.append "Attendance marked for " (String.append student_name "."))
      else ret (false, "Failed to mark attendance.").

(** ** The attendance gate: [gui/attendance_tab.py] *)

(** The attributes of an AttendanceTab that the gate uses.
    [recent_recognitions] is a [deque(maxlen=10)], oldest entry first. *)
Record AttendanceTab : Type := mkTab {
  recent_recognitions : list (string * datetime);
  cooldown_seconds : Z
}.

Definition recent_maxlen : nat := 10.

Definition new_tab : AttendanceTab := mkTab [] 5.

(** [deque.append] on a deque with [maxlen]: the item is added on the right
    and, if the deque is then longer than [maxlen], its leftmost item is
    dropped. *)
Definition deque_append {A : Type} (maxlen : nat) (d : list A) (x : A) : list A :=
  let d' := d ++ [x] in
  if (maxlen <? List.length d')%nat then tl d' else d'.

(** [(current_time - prev_time).total_seconds() < cooldown_seconds]: the
    difference is a whole number of microseconds and the window a whole
    number of seconds. *)
Definition within_cooldown (current_time prev_time : datetime) (cooldown : Z) : bool :=
  (current_time - prev_time <? cooldown * usec_per_second)%Z.

(** The [for prev_id, prev_time in self.recent_recognitions] scan: does it
    reach the [return]? *)
Definition recently_marked (tab : AttendanceTab) (sid : string) (current_time : datetime)
    : bool :=
  existsb (fun e => String.eqb (fst e) sid
                    && within_cooldown current_time (snd e) (cooldown_seconds tab))
          (recent_recognitions tab).

(** [_refresh_attendance_list]: reads today's rows and the students for the
    display (the widgets are not modelled). *)
Definition _refresh_attendance_list : M unit :=
  today <~ datetime_now ;;
  _ <~ get_attendance_by_date (Some (strftime_date today)) ;;
  _ <~ get_all_students ;;
  ret tt.

(** [_mark_attendance_for_student].  The method returns nothing; the model
    also reports which way it went: [None] for the early [return] of the
    cooldown scan, otherwise what [mark_attendance] returned. *)
Definition _mark_attendance_for_student (tab : AttendanceTab) (sid nm : string)
    : M (AttendanceTab * option (bool * string)) :=
  current_time <~ datetime_now ;;
  if recently_marked tab sid current_time then ret (tab, None)
  else
    r <~ mark_attendance sid "Present" ;;
    if fst r then
      _ <~ _refresh_attendance_list ;;
      ret (mkTab (deque_append recent_maxlen (recent_recognitions tab) (sid, current_time))
                 (cooldown_seconds tab),
           Some r)
    else ret (tab, Some r).

(** The outcomes of an offer, as the specification names them. *)
Inductive Outcome : Type :=
| Marked
| SuppressedCooldown
| SuppressedAlreadyMarkedToday
| StudentNotFound
| WriteFailed.

(** Modelled from the spec: the source has no outcome type; the outcome of
    an offer is read off the way the gate went and the message of
    [mark_attendance]. *)
Definition outcome_of (r : option (bool * string)) : Outcome :=
  match r with
  | None => SuppressedCooldown
  | Some (true, _) => Marked
  | Some (false, msg) =>
      if String.eqb msg "Student not found." then StudentNotFound
      else if String.eqb msg "Attendance already marked for today."
           then SuppressedAlreadyMarkedToday
           else WriteFailed
  end.

(** ** Recognition: [modules/face_recognition_module.py] *)

Section Recognition.

(** The image type and the calls on images (cv2, face_recognition). *)
Variable Image : Type.
Variable cvtColor : Image -> outcome Image.
Variable resize_half : Image -> outcome Image.
Variable face_locations : string -> Image -> outcome (list Location).
Variable face_encodings : Image -> list Location -> outcome (list Encoding).

(** The Euclidean distance of two embeddings ([np.linalg.norm] of their
    difference). *)
Variable distance : Encoding -> Encoding -> Q.

(** [face_recognition.face_distance] *)
Definition face_distance (known : list Encoding) (probe : Encoding) : list Q :=
  map (fun k => distance k probe) known.

(** [face_recognition.compare_faces]:
    [list(face_distance(known, probe) <= tolerance)] *)
Definition compare_faces (known : list Encoding) (probe : Encoding) (tol : Q)
    : list bool :=
  map (fun d => Qle_bool d tol) (face_distance known probe).

(** Lines 140-160 of [recognize_faces]: name, student_id and confidence
    for one detected face. *)
Definition match_face (m : FaceRecognitionModule) (face_encoding : Encoding)
    : outcome (string * option string * Q) :=
  let matches := compare_faces (known_face_encodings m) face_encoding (tolerance m) in
  if True_in matches then
    let face_distances := face_distance (known_face_encodings m) face_encoding in
    best_match_index <- argmin face_distances ;;
    matched <- getitem matches best_match_index ;;
    if (matched : bool) then
      nm <- getitem (known_face_names m) best_match_index ;;
      sid <- getitem (known_face_ids m) best_match_index ;;
      d <- getitem face_distances best_match_index ;;
      Return (nm, Some sid, (1 - d)%Q)
    else Return unknown_match
  else Return unknown_match.

Definition scale_up (loc : Location) : Location :=
  let '(top, rgt, bottom, lft) := loc in
  (top * 2, rgt * 2, bottom * 2, lft * 2)%Z.

Definition make_result (loc : Location) (r : string * option string * Q)
    : RecognitionResult :=
  let '(nm, sid, conf) := r in
  mkResult loc nm sid conf (match sid with Some _ => true | None => false end).

(** The [for ... in zip(face_locations, face_encodings)] loop. *)
Fixpoint recognize_loop (m : FaceRecognitionModule)
    (faces : list (Location * Encoding)) (results : list RecognitionResult)
    : outcome (list RecognitionResult) :=
  match faces with
  | [] => Return results
  | (loc, face_encoding) :: rest =>
      r <- match_face m face_encoding ;;
      recognize_loop m rest (results ++ [make_result (scale_up loc) r])
  end.

(** The body of the [try] of [recognize_faces]. *)
Definition recognize_body (m : FaceRecognitionModule) (image : Image)
    : outcome (list RecognitionResult) :=
  rgb_image <- cvtColor image ;;
  small_frame <- resize_half rgb_image ;;
  locs <- face_locations (model m) small_frame ;;
  encs <- face_encodings small_frame locs ;;
  recognize_loop m (combine locs encs) [].

Definition bump_frame_count (m : FaceRecognitionModule) : FaceRecognitionModule :=
  mkModule (tolerance m) (model m) (process_every_n_frames m) (frame_count m + 1)
           (known_face_encodings m) (known_face_names m) (known_face_ids m).

(** The [try ... except Exception: return []] statement of
    [recognize_faces]: what a frame that is not skipped yields. *)
Definition process_frame (m : FaceRecognitionModule) (image : Image)
    : outcome (list RecognitionResult) :=
  try_except (recognize_body m image) (fun _ => Return []).

(** [recognize_faces]: the module after the call and what the call
    returns or raises. *)
Definition recognize_faces (m : FaceRecognitionModule) (image : Image)
    : FaceRecognitionModule * outcome (list RecognitionResult) :=
  let m' := bump_frame_count m in
  (m',
   r <- py_mod (frame_count m') (process_every_n_frames m') ;;
   if negb (r =? 0)%Z then Return []
   else process_frame m' image).

(** [recognize_faces] called on the frames of a sequence, one after the
    other: the module at the end and what each call gave. *)
Fixpoint recognize_frames (m : FaceRecognitionModule) (frames : list Image)
    : FaceRecognitionModule * list (outcome (list RecognitionResult)) :=
  match frames with
  | [] => (m, [])
  | frame :: rest =>
      let (m', r) := recognize_faces m frame in
      let (m'', rs) := recognize_frames m' rest in
      (m'', r :: rs)
  end.

(** ** One round of [_update_camera_feed] *)

(** The calls of the round on the frame it displays and on the widgets;
    each of them may raise, inside the [try] of the loop.
    [copy_frame] is [frame.copy()]; [draw_result] is the drawing of one
    result on the display frame (the two [cv2.rectangle] and the
    [cv2.putText] of lines 318-333); [set_recognition_label] is
    [self.recognition_label.config] with the text given;
    [show_frame] is lines 355-361, from [Image.fromarray] to the update of
    the camera label. *)
Variable copy_frame : Image -> outcome Image.
Variable draw_result : Image -> RecognitionResult -> outcome Image.
Variable set_recognition_label : string -> outcome unit.
Variable show_frame : Image -> outcome unit.

(** A Python string is true when it is not empty. *)
Definition truthy (s : option string) : bool :=
  match s with
  | Some s' => negb (String.eqb s' "")
  | None => false
  end.

(** The [for result in results] loop: every result is drawn on the display
    frame, and every known result is then offered to the gate.  A drawing
    call that raises ends the loop; what the offers before it did to the
    tab and to the tables stays done. *)
Fixpoint draw_and_offer (display_frame : Image) (tab : AttendanceTab)
    (recognized_name : option string) (results : list RecognitionResult)
    : M (AttendanceTab * outcome (Image * option string)) :=
  match results with
  | [] => ret (tab, Return (display_frame, recognized_name))
  | result :: rest =>
      match draw_result display_frame result with
      | Raise e => ret (tab, Raise e)
      | Return drawn =>
          match student_id result with
          | Some sid =>
              if is_known result && truthy (student_id result) then
                r <~ _mark_attendance_for_student tab sid (name result) ;;
                draw_and_offer drawn (fst r) (Some (name result)) rest
              else draw_and_offer drawn tab recognized_name rest
          | None => draw_and_offer drawn tab recognized_name rest
          end
      end
  end.

(** The text of the recognition label, lines 342-351. *)
Definition recognition_text (recognized_name : option string) : string :=
  if truthy recognized_name then
    String.append "Recognized: "
      (match recognized_name with Some nm => nm | None => "" end)
  else "No face recognized".

(** Lines 354-361: the display frame is converted and shown. *)
Definition display (display_frame : Image) : outcome unit :=
  frame_rgb <- cvtColor display_frame ;;
  show_frame frame_rgb.

Definition returns {A : Type} (c : outcome A) : bool :=
  match c with
  | Return _ => true
  | Raise _ => false
  end.

(** One round on a frame that was read, with the value of
    [recognition_active]: the module and the tab after the round, and
    whether the loop goes on ([false] is the [break] of the [except]
    clause, reached when any call of the round raises). *)
Definition camera_round (recognition_active : bool) (m : FaceRecognitionModule)
    (tab : AttendanceTab) (frame : Image)
    : M (FaceRecognitionModule * AttendanceTab * bool) :=
  match copy_frame frame with
  | Raise _ => ret (m, tab, false)
  | Return display_frame =>
      if recognition_active then
        let (m', res) := recognize_faces m frame in
        match res with
        | Raise _ => ret (m', tab, false)
        | Return results =>
            r <~ draw_and_offer display_frame tab None results ;;
            ret (m', fst r,
                 returns (x <- snd r ;;
                          _ <- set_recognition_label (recognition_text (snd x)) ;;
                          display (fst x)))
        end
      else ret (m, tab, returns (display display_frame))
  end.

(** [_update_camera_feed]: the rounds of the loop on what [read_frame]
    returned in each of them ([None] when it returned no frame), each with
    the value of [recognition_active] at that time.  The result tells
    whether the loop left by [break]. *)
Fixpoint _update_camera_feed (m : FaceRecognitionModule) (tab : AttendanceTab)
    (reads : list (bool * option Image))
    : M (FaceRecognitionModule * AttendanceTab * bool) :=
  match reads with
  | [] => ret (m, tab, false)
  | (recognition_active, frame) :: rest =>
      match frame with
      | Some image =>
          r <~ camera_round recognition_active m tab image ;;
          let '(m', tab', goes_on) := r in
          if (goes_on : bool) then _update_camera_feed m' tab' rest
          else ret (m', tab', true)
      | None => _update_camera_feed m tab rest
      end
  end.

End Recognition.

(** ** Views used in the statements *)

(** The caches of a module are parallel lists. *)
Definition parallel (m : FaceRecognitionModule) : Prop :=
  List.length (known_face_names m) = List.length (known_face_encodings m) /\
  List.length (known_face_ids m) = List.length (known_face_encodings m).

(** The (student_id, name, embedding) triples of the records that have an
    embedding, in input order. *)
Fixpoint triples (students : list Student) : list (string * string * Encoding) :=
  match students with
  | [] => []
  | s :: rest =>
      match st_face_encoding s with
      | Some e => (st_student_id s, st_name s, e) :: triples rest
      | None => triples rest
      end
  end.

Definition has_encoding (s : Student) : bool :=
  match st_face_encoding s with
  | Some _ => true
  | None => false
  end.

(** The cache of a module as a list of triples. *)
Definition gallery (m : FaceRecognitionModule) : list (string * string * Encoding) :=
  combine (combine (known_face_ids m) (known_face_names m)) (known_face_encodings m).

(** The result reported for a face that matches nobody. *)
Definition unknown_result (loc : Location) : RecognitionResult :=
  mkResult loc "Unknown" None 0%Q false.

(** A module with its frame counter set to [k]. *)
Definition at_frame (m : FaceRecognitionModule) (k : Z) : FaceRecognitionModule :=
  mkModule (tolerance m) (model m) (process_every_n_frames m) k
           (known_face_encodings m) (known_face_names m) (known_face_ids m).

(** The world after [conns] more connections and [reads] more readings of
    the clock, the tables being as before. *)
Definition advance (w : World) (conns reads : nat) : World :=
  mkWorld (students w) (attendance w) (conns + connections w) (fault_at w)
          (clock w) (reads + ticks w).

(** ** What the detector finds in a frame *)

Section Detection.

Variable Image : Type.
Variable cvtColor : Image -> outcome Image.
Variable resize_half : Image -> outcome Image.
Variable face_locations : string -> Image -> outcome (list Location).
Variable face_encodings : Image -> list Location -> outcome (list Encoding).
Variable distance : Encoding -> Encoding -> Q.

(** The four calls on the image return, and [faces] are the locations
    found in the half-size frame, each with its encoding. *)
Definition finds (m : FaceRecognitionModule) (image : Image)
    (faces : list (Location * Encoding)) : Prop :=
  exists rgb small locs encs,
    cvtColor image = Return rgb /\
    resize_half rgb = Return small /\
    face_locations (model m) small = Return locs /\
    face_encodings small locs = Return encs /\
    faces = combine locs encs.

(** One result per face, in order, at the doubled location of the face,
    with the name, the id and the confidence that the matching gives. *)
Definition results_for (m : FaceRecognitionModule) (faces : list (Location * Encoding))
    (results : list RecognitionResult) : Prop :=
  Forall2 (fun face r =>
             exists x, match_face distance m (snd face) = Return x /\
                       r = make_result (scale_up (fst face)) x)
          faces results.

(** The answer of a call that processed the frame: the results for the
    faces found in it, and the empty list when a call on the image raised. *)
Definition processed (m : FaceRecognitionModule) (image : Image)
    (answer : outcome (list RecognitionResult)) : Prop :=
  (forall faces, finds m image faces ->
     exists results, answer = Return results /\ results_for m faces results) /\
  ((forall faces, ~ finds m image faces) -> answer = Return []).

End Detection.

(** ** Concrete instances, for the examples *)

Module Sample.

(** An image is given by the faces a detector finds in it; [None] is a
    malformed image, on which the colour conversion raises. *)
Definition Image : Type := option (list (Location * Encoding)).

Definition cvtColor (img : Image) : outcome Image :=
  match img with
  | Some _ => Return img
  | None => Raise (LibraryError "cvtColor: empty image")
  end.

Definition resize_half (img : Image) : outcome Image := Return img.

Definition face_locations (_ : string) (img : Image) : outcome (list Location) :=
  match img with
  | Some faces => Return (map fst faces)
  | None => Raise (LibraryError "face_locations: empty image")
  end.

Definition face_encodings (img : Image) (_ : list Location) : outcome (list Encoding) :=
  match img with
  | Some faces => Return (map snd faces)
  | None => Raise (LibraryError "face_encodings: empty image")
  end.

(** The Euclidean distance of embeddings of dimension one. *)
Definition distance (a b : Encoding) : Q := Qabs (hd 0%Q a - hd 0%Q b).

(** The copy of a frame is the same image; drawing, the labels and the
    display never fail. *)
Definition copy_frame (img : Image) : outcome Image := Return img.

Definition draw_result (img : Image) (_ : RecognitionResult) : outcome Image := Return img.

Definition set_recognition_label (_ : string) : outcome unit := Return tt.

Definition show_frame (_ : Image) : outcome unit := Return tt.

Definition alice : Student := mkStudent "S1" "Alice" (Some [0%Q]).
Definition bob : Student := mkStudent "S2" "Bob" (Some [(95 # 100)%Q]).
Definition carol : Student := mkStudent "S3" "Carol" None.

Definition roster : list Student := [alice; carol; bob].

Definition loaded : FaceRecognitionModule := load_known_faces default_module roster.

(** A module built with a tolerance above 1. *)
Definition loose : FaceRecognitionModule :=
  load_known_faces (init (3 # 2) "hog" 1) roster.

(** A module built with stride 0. *)
Definition stride0 : FaceRecognitionModule :=
  load_known_faces (init (6 # 10) "hog" 0) roster.

Definition box : Location := (10, 50, 60, 20)%Z.

(** A frame showing one face at distance 0.4 from Alice. *)
Definition frame_alice : Image := Some [(box, [(4 # 10)%Q])].

Definition malformed : Image := None.

(** The clock gives one reading per second, from noon of day 20000. *)
Definition noon : datetime := (20000 * usec_per_day + 43200 * usec_per_second)%Z.

Definition clock_1s (n : nat) : datetime := (noon + Z.of_nat n * usec_per_second)%Z.

Definition no_fault (_ : nat) : bool := false.

(** The insertion of the third connection fails. *)
Definition fault_third (n : nat) : bool := (n =? 2)%nat.

(** The read on the second connection fails. *)
Definition fault_second (n : nat) : bool := (n =? 1)%nat.

Definition world0 : World := mkWorld roster [] 0 no_fault clock_1s 0.

Definition world_marked : World :=
  mkWorld roster [mkRow "S1" 20000 40000 "Present"] 0 no_fault clock_1s 0.

Definition world_faulty : World := mkWorld roster [] 0 fault_third clock_1s 0.

(** Alice is marked today and the read of today's record fails. *)
Definition world_marked_unread : World :=
  mkWorld roster [mkRow "S1" 20000 40000 "Present"] 0 fault_second clock_1s 0.

(** The same students and tables with a clock read every 100 ms. *)
Definition clock_100ms (n : nat) : datetime := (noon + Z.of_nat n * 100000)%Z.

Definition world_fast : World := mkWorld roster [] 0 no_fault clock_100ms 0.

Definition full_buffer : list (string * datetime) :=
  map (fun n => ("S2", (noon - 100 * usec_per_second + Z.of_nat n)%Z)) (seq 0 10).

End Sample.

(** * The rest of the storage layer, the reports and the registration check *)

(** ** More of [database/db_manager.py] *)

(** The tables replaced by the outcome of a committed statement. *)
Definition set_tables (st : list Student) (att : list AttendanceRow) : M unit :=
  fun w => (tt, mkWorld st att (connections w) (fault_at w) (clock w) (ticks w)).

(** [DatabaseManager.add_student], for the columns of [Student] (the
    columns email, department, batch and photo_path are stored beside them
    and take no part in what follows).

    Modelled from the spec: the schema file [database/schema.sql] is not
    among the sources; [student_id] is unique in the students table, and
    the insertion of a second row with the same id is rejected
    (sqlite3.IntegrityError, "Duplicate student_id" in the source). *)
Definition add_student (sid nm : string) (face_encoding : option Encoding) : M bool :=
  ok <~ get_connection ;;
  if (ok : bool) then
    w <~ get_world ;;
    if (0 <? count_students w sid)%nat then ret false
    else
      _ <~ set_tables (students w ++ [mkStudent sid nm face_encoding]) (attendance w) ;;
      ret true
  else ret false.

(** [DatabaseManager.delete_student]: both DELETE statements run on one
    connection and are committed together. *)
Definition delete_student (sid : string) : M bool :=
  ok <~ get_connection ;;
  if (ok : bool) then
    w <~ get_world ;;
    _ <~ set_tables
           (filter (fun s => negb (String.eqb (st_student_id s) sid)) (students w))
           (filter (fun r => negb (String.eqb (att_student_id r) sid)) (attendance w)) ;;
    ret true
  else ret false.

(** [DatabaseManager.clear_all_data] *)
Definition clear_all_data : M bool :=
  ok <~ get_connection ;;
  if (ok : bool) then
    _ <~ set_tables [] [] ;;
    ret true
  else ret false.

(** [WHERE student_id = ? AND date = ?] *)
Definition row_is (sid : string) (date : Z) (r : AttendanceRow) : bool :=
  String.eqb (att_student_id r) sid && (att_date r =? date)%Z.

(** [DatabaseManager.update_attendance_status] *)
Definition update_attendance_status (sid : string) (date : Z) (status : string) : M bool :=
  ok <~ get_connection ;;
  if (ok : bool) then
    w <~ get_world ;;
    _ <~ set_tables (students w)
           (map (fun r => if row_is sid date r
                          then mkRow (att_student_id r) (att_date r) (att_time r) status
                          else r)
                (attendance w)) ;;
    ret true
  else ret false.

(** [DatabaseManager.delete_attendance_record] *)
Definition delete_attendance_record (sid : string) (date : Z) : M bool :=
  ok <~ get_connection ;;
  if (ok : bool) then
    w <~ get_world ;;
    _ <~ set_tables (students w)
           (filter (fun r => negb (row_is sid date r)) (attendance w)) ;;
    ret true
  else ret false.

(** [DatabaseManager.get_total_students] *)
Definition get_total_students : M Z :=
  ok <~ get_connection ;;
  if (ok : bool) then
    w <~ get_world ;;
    ret (Z.of_nat (List.length (students w)))
  else ret 0%Z.

(** [DatabaseManager.get_present_count] *)
Definition get_present_count (date : option Z) : M Z :=
  d <~ default_date date ;;
  ok <~ get_connection ;;
  if (ok : bool) then
    w <~ get_world ;;
    ret (Z.of_nat (List.length
           (filter (fun r => (att_date r =? d)%Z && String.eqb (att_status r) "Present")
                   (attendance w))))
  else ret 0%Z.

(** [FROM attendance a JOIN students s ON a.student_id = s.student_id]:
    every attendance row with the name of every student row it joins. *)
Definition join_students (att : list AttendanceRow) (st : list Student)
    : list (AttendanceRow * string) :=
  flat_map (fun a =>
              map (fun s => (a, st_name s))
                  (filter (fun s => String.eqb (att_student_id a) (st_student_id s)) st))
           att.

(** [ORDER BY a.date DESC, a.time DESC]: does [x] come no later than [y]? *)
Definition newer_first (x y : AttendanceRow * string) : bool :=
  (att_date (fst y) <? att_date (fst x))%Z
  || ((att_date (fst y) =? att_date (fst x))%Z
      && (att_time (fst y) <=? att_time (fst x))%Z).

(** [if start_date:] -- an absent or empty bound does not filter. *)
Definition from_date (start_date : option Z) (r : AttendanceRow) : bool :=
  match start_date with
  | Some d => (d <=? att_date r)%Z
  | None => true
  end.

Definition to_date (end_date : option Z) (r : AttendanceRow) : bool :=
  match end_date with
  | Some d => (att_date r <=? d)%Z
  | None => true
  end.

(** [DatabaseManager.get_attendance_by_student] *)
Definition get_attendance_by_student (sid : string) (start_date end_date : option Z)
    : M (list (AttendanceRow * string)) :=
  ok <~ get_connection ;;
  if (ok : bool) then
    w <~ get_world ;;
    ret (sort_by newer_first
           (filter (fun x => String.eqb (att_student_id (fst x)) sid
                             && from_date start_date (fst x)
                             && to_date end_date (fst x))
                   (join_students (attendance w) (students w))))
  else ret [].

(** ** More of [modules/attendance_manager.py] *)

(** [AttendanceManager.is_attendance_marked_today] *)
Definition is_attendance_marked_today (sid : string) : M bool :=
  is_attendance_marked sid None.

(** [AttendanceManager.manual_attendance_entry] *)
Definition manual_attendance_entry (sid : string) (date time : Z) (status : string)
    : M (bool * string) :=
  exists_ <~ student_exists sid ;;
  if negb exists_ then ret (false, "Student not found.")
  else
    success <~ db_mark_attendance sid (Some date) (Some time) status ;;
    if (success : bool) then ret (true, "Attendance recorded successfully.")
    else ret (false, "Attendance already exists for this date or failed to record.").

(** The dict returned by [get_attendance_statistics]. *)
Record Statistics : Type := mkStatistics {
  total_students : Z;
  present : Z;
  absent : Z;
  percentage : Q
}.

(** An entry of the list returned by [get_defaulters] (department and
    batch are copied from the student beside the fields below). *)
Record Defaulter : Type := mkDefaulter {
  d_student_id : string;
  d_name : string;
  attendance_percentage : Q
}.

Section Reports.

(** [round(x, 2)] on floats. *)
Variable round2 : Q -> Q.

(** [AttendanceManager.get_attendance_statistics] *)
Definition get_attendance_statistics (date_str : option Z) : M Statistics :=
  total <~ get_total_students ;;
  present_count <~ get_present_count date_str ;;
  let absent_count := (total - present_count)%Z in
  let attendance_percentage :=
    if (0 <? total)%Z
    then ((inject_Z present_count / inject_Z total) * 100)%Q
    else 0%Q in
  ret (mkStatistics total present_count absent_count (round2 attendance_percentage)).

(** [AttendanceManager.calculate_student_attendance_percentage] *)
Definition calculate_student_attendance_percentage (sid : string)
    (start_date end_date : option Z) : M Q :=
  attendance_records <~ get_attendance_by_student sid start_date end_date ;;
  match attendance_records with
  | [] => ret 0%Q
  | _ :: _ =>
      let present_count :=
        List.length (filter (fun x => String.eqb (att_status (fst x)) "Present")
                            attendance_records) in
      let total_days := List.length attendance_records in
      if (total_days =? 0)%nat then ret 0%Q
      else ret (round2 ((inject_Z (Z.of_nat present_count)
                         / inject_Z (Z.of_nat total_days)) * 100)%Q)
  end.

(** The [for student in students] loop of [get_defaulters]. *)
Fixpoint defaulters_loop (threshold : Q) (start_date end_date : option Z)
    (sts : list Student) (defaulters : list Defaulter) : M (list Defaulter) :=
  match sts with
  | [] => ret defaulters
  | student :: rest =>
      pct <~ calculate_student_attendance_percentage (st_student_id student)
               start_date end_date ;;
      if Qlt_bool pct threshold then
        defaulters_loop threshold start_date end_date rest
          (defaulters ++ [mkDefaulter (st_student_id student) (st_name student) pct])
      else defaulters_loop threshold start_date end_date rest defaulters
  end.

(** [AttendanceManager.get_defaulters]; [list.sort] is stable and orders by
    [<] on the key, the percentage. *)
Definition get_defaulters (threshold : Q) (start_date end_date : option Z)
    : M (list Defaulter) :=
  sts <~ get_all_students ;;
  defaulters <~ defaulters_loop threshold start_date end_date sts [] ;;
  ret (sort_by (fun x y => Qle_bool (attendance_percentage x) (attendance_percentage y))
               defaulters).

End Reports.

(** ** More of [gui/attendance_tab.py] *)

(** [_reload_faces] (the message box is not modelled). *)
Definition _reload_faces (m : FaceRecognitionModule) : M FaceRecognitionModule :=
  sts <~ get_all_students ;;
  ret (load_known_faces m sts).

(** ** More of [modules/face_recognition_module.py] *)

(** [str(n)] for a length. *)
Definition str_of_nat (n : nat) : string := NilZero.string_of_uint (Nat.to_uint n).

Section Registration.

Variable Image : Type.
Variable cvtColor : Image -> outcome Image.
Variable resize_half : Image -> outcome Image.
Variable face_locations : string -> Image -> outcome (list Location).
Variable face_encodings : Image -> list Location -> outcome (list Encoding).
Variable distance : Encoding -> Encoding -> Q.

(** [face_recognition.face_encodings(rgb_image)] without locations: the
    library detects the faces itself. *)
Variable face_encodings_all : Image -> outcome (list Encoding).

(** [detect_faces] *)
Definition detect_faces (m : FaceRecognitionModule) (image : Image) : list Location :=
  match (rgb_image <- cvtColor image ;; face_locations (model m) rgb_image) with
  | Return locs => locs
  | Raise _ => []
  end.

(** [encode_face]; a location tuple is true, so [if face_location:] tests
    that one was given. *)
Definition encode_face (m : FaceRecognitionModule) (image : Image)
    (face_location : option Location) : option Encoding :=
  match (rgb_image <- cvtColor image ;;
         encodings <- match face_location with
                      | Some loc => face_encodings rgb_image [loc]
                      | None => face_encodings_all rgb_image
                      end ;;
         Return (match encodings with
                 | e :: _ => Some e
                 | [] => None
                 end)) with
  | Return r => r
  | Raise _ => None
  end.

(** [validate_face_for_registration]; nothing in its [try] can raise, the
    two calls catch their own exceptions. *)
Definition validate_face_for_registration (m : FaceRecognitionModule) (image : Image)
    : bool * string * option Encoding :=
  let locs := detect_faces m image in
  match locs with
  | [] => (false, "No face detected in image. Please try again.", None)
  | loc :: more =>
      if (1 <? List.length locs)%nat then
        (false,
         String.append "Multiple faces detected ("
           (String.append (str_of_nat (List.length locs))
              "). Please ensure only one person is in frame."),
         None)
      else
        match encode_face m image (Some loc) with
        | None => (false, "Failed to generate face encoding. Please try again.", None)
        | Some e => (true, "Face validated successfully.", Some e)
        end
  end.

End Registration.

(** ** Views of the tables used in the statements *)

Definition attendance_key (r : AttendanceRow) : string * Z :=
  (att_student_id r, att_date r).

(** At most one attendance row per (student_id, date). *)
Definition unique_attendance (w : World) : Prop :=
  NoDup (map attendance_key (attendance w)).

(** At most one student row per student_id. *)
Definition unique_students (w : World) : Prop :=
  NoDup (map st_student_id (students w)).

(** Every attendance row belongs to a student of the table. *)
Definition rows_have_students (w : World) : Prop :=
  forall r, In r (attendance w) -> In (att_student_id r) (map st_student_id (students w)).

Definition db_ok (w : World) : Prop :=
  unique_attendance w /\ unique_students w /\ rows_have_students w.

(** From [w] to [w'] the students are the same and the attendance table
    has only grown, by rows with status Present for ids among [ids]. *)
Definition written_for (ids : list string) (w w' : World) : Prop :=
  students w' = students w /\
  exists new,
    attendance w' = attendance w ++ new /\
    Forall (fun row => In (att_student_id row) ids /\ att_status row = "Present") new.

(** No connection fails from now on. *)
Definition reliable (w : World) : Prop :=
  forall n, (connections w <= n)%nat -> fault_at w n = false.

(** ** More concrete instances *)

Module Sample2.

(** The library, run without locations, encodes the faces it finds. *)
Definition face_encodings_all (img : Sample.Image) : outcome (list Encoding) :=
  Sample.face_encodings img [].

(** A frame showing two faces. *)
Definition frame_two : Sample.Image :=
  Some [(Sample.box, [(4 # 10)%Q]); (Sample.box, [(9 # 10)%Q])].

(** Rounding to two decimals, half up, on exact rationals. *)
Definition round2 (x : Q) : Q :=
  inject_Z (Qfloor (x * 100 + (1 # 2))) / 100.

(** Alice and Bob marked on day 20000, Alice late on day 20001. *)
Definition rows : list AttendanceRow :=
  [mkRow "S1" 20000 32400 "Present";
   mkRow "S2" 20000 32460 "Present";
   mkRow "S1" 20001 36000 "Late"].

Definition world_rows : World :=
  mkWorld Sample.roster rows 0 Sample.no_fault Sample.clock_1s 0.

(** The first connection fails. *)
Definition fault_first (n : nat) : bool := (n =? 0)%nat.

Definition world_down : World :=
  mkWorld Sample.roster rows 0 fault_first Sample.clock_1s 0.

End Sample2.

(** * Properties *)

(** ** Sorting *)

Lemma insert_by_perm {A : Type} (le : A -> A -> bool) (x : A) (l : list A) :
  Permutation (insert_by le x l) (x :: l).
Proof.
  induction l as [|y l IH]; cbn; [reflexivity|].
  destruct (le y x); [|reflexivity].
  rewrite IH. apply perm_swap.
Qed.

Lemma sort_by_perm {A : Type} (le : A -> A -> bool) (l : list A) :
  Permutation (sort_by le l) l.
Proof.
  unfold sort_by.
  assert (H : forall acc,
            Permutation (fold_left (fun sorted x => insert_by le x sorted) l acc)
                        (acc ++ l)).
  { induction l as [|x l IH]; intros acc; cbn.
    - now rewrite app_nil_r.
    - rewrite IH, insert_by_perm. cbn. apply Permutation_middle. }
  apply (H []).
Qed.

Lemma insert_by_sorted {A : Type} (le : A -> A -> bool) (x : A) (l : list A) :
  (forall a b, le a b = false -> le b a = true) ->
  Sorted (fun a b => le a b = true) l ->
  Sorted (fun a b => le a b = true) (insert_by le x l).
Proof.
  intros Htotal. induction l as [|y l IH]; intros Hs; cbn.
  - repeat constructor.
  - inversion Hs as [|? ? Hl Hhd]; subst.
    destruct (le y x) eqn:E.
    + constructor; [now apply IH|].
      destruct l as [|z l]; cbn.
      * now constructor.
      * inversion Hhd; subst. destruct (le z x); now constructor.
    + constructor; [exact Hs|]. constructor. now apply Htotal.
Qed.

Lemma sort_by_sorted {A : Type} (le : A -> A -> bool) (l : list A) :
  (forall a b, le a b = false -> le b a = true) ->
  Sorted (fun a b => le a b = true) (sort_by le l).
Proof.
  intros Htotal. unfold sort_by.
  assert (H : forall acc,
            Sorted (fun a b => le a b = true) acc ->
            Sorted (fun a b => le a b = true)
                   (fold_left (fun sorted x => insert_by le x sorted) l acc)).
  { induction l as [|x l IH]; intros acc Hacc; cbn; [exact Hacc|].
    apply IH. now apply insert_by_sorted. }
  apply H. constructor.
Qed.

Lemma filter_length_perm {A : Type} (f : A -> bool) (l l' : list A) :
  Permutation l l' -> List.length (filter f l) = List.length (filter f l').
Proof.
  induction 1 as [|x l l' _ IH|x y l|l l' l'' _ IH1 _ IH2]; cbn.
  - reflexivity.
  - destruct (f x); cbn; now rewrite IH.
  - destruct (f x); destruct (f y); reflexivity.
  - now rewrite IH1.
Qed.

Lemma filter_perm {A : Type} (keep : A -> bool) (xs ys : list A) :
  Permutation xs ys -> Permutation (filter keep xs) (filter keep ys).
Proof.
  intros Hxy. induction Hxy as [|a xs ys _ IH|a b xs|xs ys zs _ IH1 _ IH2]; cbn.
  - constructor.
  - destruct (keep a); [now constructor|exact IH].
  - destruct (keep a), (keep b); try reflexivity. apply perm_swap.
  - now transitivity (filter keep ys).
Qed.

Lemma In_sort_by {A : Type} (le : A -> A -> bool) (l : list A) (x : A) :
  In x (sort_by le l) <-> In x l.
Proof.
  split; apply Permutation_in; [|symmetry]; apply sort_by_perm.
Qed.

(** ** Comparisons on rationals *)

Lemma Qlt_bool_iff (x y : Q) : Qlt_bool x y = true <-> (x < y)%Q.
Proof.
  unfold Qlt_bool. rewrite negb_true_iff. split.
  - intros H. apply Qnot_le_lt. intros Hle.
    apply Qle_bool_iff in Hle. congruence.
  - intros H. destruct (Qle_bool y x) eqn:E; [|reflexivity].
    apply Qle_bool_iff in E. exfalso. exact (Qlt_not_le _ _ H E).
Qed.

Lemma Qlt_bool_false_iff (x y : Q) : Qlt_bool x y = false <-> (y <= x)%Q.
Proof.
  unfold Qlt_bool. rewrite negb_false_iff. apply Qle_bool_iff.
Qed.

Lemma Qle_bool_false_iff (x y : Q) : Qle_bool x y = false <-> ~ (x <= y)%Q.
Proof.
  rewrite <- Qle_bool_iff. destruct (Qle_bool x y); split; congruence.
Qed.

(** ** The caches after [load_known_faces] *)

Lemma load_loop_triples (students : list Student) :
  forall encs names ids,
    load_loop students encs names ids =
    (encs ++ map snd (triples students),
     names ++ map (fun t => snd (fst t)) (triples students),
     ids ++ map (fun t => fst (fst t)) (triples students)).
Proof.
  induction students as [|s rest IH]; intros encs names ids; simpl.
  - now rewrite !app_nil_r.
  - destruct (st_face_encoding s) as [e|]; [|apply IH].
    rewrite IH. simpl. now rewrite <- !app_assoc.
Qed.

Lemma load_known_faces_caches (m : FaceRecognitionModule) (students : list Student) :
  load_known_faces m students =
  mkModule (tolerance m) (model m) (process_every_n_frames m) (frame_count m)
           (map snd (triples students))
           (map (fun t => snd (fst t)) (triples students))
           (map (fun t => fst (fst t)) (triples students)).
Proof.
  unfold load_known_faces. now rewrite load_loop_triples.
Qed.

Lemma combine_map_fst_snd {A B : Type} (l : list (A * B)) :
  combine (map fst l) (map snd l) = l.
Proof.
  induction l as [|[a b] l IH]; simpl; [reflexivity|now rewrite IH].
Qed.

Lemma gallery_load_known_faces (m : FaceRecognitionModule) (students : list Student) :
  gallery (load_known_faces m students) = triples students.
Proof.
  rewrite load_known_faces_caches. unfold gallery. simpl.
  induction (triples students) as [|[[i n] e] l IH]; simpl; [reflexivity|].
  now rewrite IH.
Qed.

Lemma parallel_init (tol : Q) (mdl : string) (n : Z) : parallel (init tol mdl n).
Proof. split; reflexivity. Qed.

Lemma parallel_load_known_faces (m : FaceRecognitionModule) (students : list Student) :
  parallel (load_known_faces m students).
Proof.
  rewrite load_known_faces_caches. unfold parallel. simpl.
  now rewrite !length_map.
Qed.

Lemma parallel_set_tolerance (m : FaceRecognitionModule) (tol : Q) :
  parallel m -> parallel (fst (set_tolerance m tol)).
Proof.
  unfold set_tolerance. now destruct (Qle_bool (3 # 10) tol && Qle_bool tol 1).
Qed.

Lemma triples_filter (students : list Student) :
  triples students = triples (filter has_encoding students).
Proof.
  induction students as [|s rest IH]; [reflexivity|].
  cbn [filter triples].
  destruct (st_face_encoding s) as [e|] eqn:E.
  - assert (Hs : has_encoding s = true) by (unfold has_encoding; now rewrite E).
    rewrite Hs. cbn [triples]. rewrite E. now rewrite IH at 1.
  - assert (Hs : has_encoding s = false) by (unfold has_encoding; now rewrite E).
    now rewrite Hs.
Qed.

Lemma length_triples (students : list Student) :
  List.length (triples students) = List.length (filter has_encoding students).
Proof.
  induction students as [|s rest IH]; [reflexivity|].
  cbn [filter triples]. unfold has_encoding at 1.
  destruct (st_face_encoding s); cbn [List.length]; now rewrite IH.
Qed.

(** C8: [load_known_faces] replaces the whole cache by the triples of the
    records that have an embedding, in input order (whatever the cache held
    before, and leaving the other attributes alone); records without an
    embedding are skipped; loading the same records a second time gives the
    same module, hence the same match on every probe. *)
Theorem C8_load_replaces_cache :
  forall (m : FaceRecognitionModule) (students : list Student),
    let m' := load_known_faces m students in
    gallery m' = triples students /\
    known_face_encodings m' = map snd (triples students) /\
    known_face_names m' = map (fun t => snd (fst t)) (triples students) /\
    known_face_ids m' = map (fun t => fst (fst t)) (triples students) /\
    triples students = triples (filter has_encoding students) /\
    List.length (gallery m') = List.length (filter has_encoding students) /\
    (tolerance m' = tolerance m /\ model m' = model m /\
     process_every_n_frames m' = process_every_n_frames m /\
     frame_count m' = frame_count m) /\
    load_known_faces m' students = m' /\
    (forall distance probe,
        match_face distance (load_known_faces m' students) probe =
        match_face distance m' probe).
Proof.
  intros m students m'. subst m'.
  assert (Hidem : load_known_faces (load_known_faces m students) students =
                  load_known_faces m students).
  { now rewrite !load_known_faces_caches. }
  repeat split; try (rewrite load_known_faces_caches; reflexivity).
  - apply gallery_load_known_faces.
  - apply triples_filter.
  - rewrite gallery_load_known_faces. apply length_triples.
  - exact Hidem.
  - intros distance probe. now rewrite Hidem.
Qed.

(** ** [set_tolerance] *)

(** C6: a value outside [0.3, 1.0] makes [set_tolerance] return False and
    leaves the module as it was, so [get_tolerance] still returns the value
    held before the call; a value inside the range is stored and True is
    returned.  The call always returns. *)
Theorem C6_set_tolerance_range :
  forall (m : FaceRecognitionModule) (tol : Q),
    (~ ((3 # 10) <= tol /\ tol <= 1)%Q ->
       set_tolerance m tol = (m, false) /\
       get_tolerance (fst (set_tolerance m tol)) = get_tolerance m) /\
    (((3 # 10) <= tol /\ tol <= 1)%Q ->
       snd (set_tolerance m tol) = true /\
       get_tolerance (fst (set_tolerance m tol)) = tol /\
       fst (set_tolerance m tol) =
         mkModule tol (model m) (process_every_n_frames m) (frame_count m)
                  (known_face_encodings m) (known_face_names m) (known_face_ids m)).
Proof.
  intros m tol. unfold set_tolerance, get_tolerance.
  destruct (Qle_bool (3 # 10) tol) eqn:E1; destruct (Qle_bool tol 1) eqn:E2; simpl.
  - apply Qle_bool_iff in E1. apply Qle_bool_iff in E2. tauto.
  - apply (proj1 (Qle_bool_false_iff _ _)) in E2. tauto.
  - apply (proj1 (Qle_bool_false_iff _ _)) in E1. tauto.
  - apply (proj1 (Qle_bool_false_iff _ _)) in E1. tauto.
Qed.

(** The scenario of C6: [set_tolerance(1.5)] on the default module is
    rejected and the tolerance stays 0.6; [set_tolerance(0.5)] is accepted. *)
Lemma C6_set_tolerance_range_witness :
  (set_tolerance default_module (3 # 2) = (default_module, false) /\
   get_tolerance (fst (set_tolerance default_module (3 # 2))) = (6 # 10)%Q) /\
  (snd (set_tolerance default_module (1 # 2)) = true /\
   get_tolerance (fst (set_tolerance default_module (1 # 2))) = (1 # 2)%Q).
Proof.
  split.
  - apply (proj1 (C6_set_tolerance_range default_module (3 # 2))).
    intros [_ H]. apply Qle_bool_iff in H. vm_compute in H. discriminate H.
  - assert (Hin : ((3 # 10) <= 1 # 2 /\ 1 # 2 <= 1)%Q).
    { split; apply Qle_bool_iff; reflexivity. }
    destruct (proj2 (C6_set_tolerance_range default_module (1 # 2)) Hin) as (H1 & H2 & _).
    split; assumption.
Defined.

(** ** [np.argmin] *)

Lemma argmin_from_min (l : list Q) :
  forall (pre : list Q) (best_i : nat) (best : Q) (i : nat),
    i = List.length pre ->
    nth_error pre best_i = Some best ->
    (forall d, In d pre -> (best <= d)%Q) ->
    (forall j d, (j < best_i)%nat -> nth_error pre j = Some d -> (best < d)%Q) ->
    exists d,
      nth_error (pre ++ l) (argmin_from best_i best i l) = Some d /\
      (forall d', In d' (pre ++ l) -> (d <= d')%Q) /\
      (forall j d', (j < argmin_from best_i best i l)%nat ->
                    nth_error (pre ++ l) j = Some d' -> (d < d')%Q).
Proof.
  induction l as [|a l IH]; intros pre best_i best i Hi Hbest Hmin Hfirst.
  - simpl. rewrite app_nil_r. exists best. auto.
  - assert (Hlt : (best_i < List.length pre)%nat).
    { apply nth_error_Some. congruence. }
    simpl. replace (pre ++ a :: l) with ((pre ++ [a]) ++ l)
      by (rewrite <- app_assoc; reflexivity).
    destruct (Qlt_bool a best) eqn:E.
    + apply Qlt_bool_iff in E.
      apply IH.
      * rewrite length_app. simpl. lia.
      * rewrite nth_error_app2 by lia. subst i. now rewrite Nat.sub_diag.
      * intros d Hd. apply in_app_or in Hd. destruct Hd as [Hd|[<-|[]]].
        -- apply Qlt_le_weak. eapply Qlt_le_trans; [exact E|]. now apply Hmin.
        -- apply Qle_refl.
      * intros j d Hj Hd. rewrite nth_error_app1 in Hd by lia.
        eapply Qlt_le_trans; [exact E|]. apply Hmin. eapply nth_error_In, Hd.
    + apply Qlt_bool_false_iff in E.
      apply IH.
      * rewrite length_app. simpl. lia.
      * now rewrite nth_error_app1 by lia.
      * intros d Hd. apply in_app_or in Hd. destruct Hd as [Hd|[<-|[]]].
        -- now apply Hmin.
        -- exact E.
      * intros j d Hj Hd. rewrite nth_error_app1 in Hd by lia.
        now apply (Hfirst j).
Qed.

(** On a non-empty list [argmin] returns the first index that holds the
    least value. *)
Lemma argmin_first_min (l : list Q) :
  l <> [] ->
  exists i d,
    argmin l = Return i /\
    nth_error l i = Some d /\
    (forall d', In d' l -> (d <= d')%Q) /\
    (forall j d', (j < i)%nat -> nth_error l j = Some d' -> (d < d')%Q).
Proof.
  destruct l as [|d0 l]; [congruence|intros _].
  destruct (argmin_from_min l [d0] 0 d0 1) as (d & H1 & H2 & H3).
  - reflexivity.
  - reflexivity.
  - intros d [<-|[]]. apply Qle_refl.
  - intros j d Hj. lia.
  - exists (argmin_from 0 d0 1 l), d. simpl in *. auto.
Qed.

(** ** Matching one face *)

Section Matching.

Variable distance : Encoding -> Encoding -> Q.

Lemma True_in_compare_faces (known : list Encoding) (probe : Encoding) (tol : Q) :
  True_in (compare_faces distance known probe tol) = true <->
  exists e, In e known /\ (distance e probe <= tol)%Q.
Proof.
  unfold True_in, compare_faces, face_distance.
  rewrite existsb_exists. split.
  - intros (b & Hin & Hb). subst b.
    apply in_map_iff in Hin. destruct Hin as (d & Hd & Hin).
    apply in_map_iff in Hin. destruct Hin as (e & He & Hin).
    exists e. split; [exact Hin|]. apply Qle_bool_iff. congruence.
  - intros (e & Hin & Hle). exists true. split; [|reflexivity].
    apply in_map_iff. exists (distance e probe). split.
    + now apply Qle_bool_iff.
    + apply in_map_iff. now exists e.
Qed.

(** With parallel caches and a non-empty gallery, [match_face] looks at
    the first entry of least distance and admits it by the tolerance. *)
Lemma match_face_closest (m : FaceRecognitionModule) (probe : Encoding) :
  parallel m ->
  known_face_encodings m <> [] ->
  exists i e nm sid,
    nth_error (known_face_encodings m) i = Some e /\
    nth_error (known_face_names m) i = Some nm /\
    nth_error (known_face_ids m) i = Some sid /\
    (forall e', In e' (known_face_encodings m) ->
                (distance e probe <= distance e' probe)%Q) /\
    (forall j e', (j < i)%nat -> nth_error (known_face_encodings m) j = Some e' ->
                  (distance e probe < distance e' probe)%Q) /\
    match_face distance m probe =
      Return (if Qle_bool (distance e probe) (tolerance m)
              then (nm, Some sid, (1 - distance e probe)%Q)
              else unknown_match).
Proof.
  intros [Hn Hi] Hne.
  destruct (argmin_first_min (face_distance distance (known_face_encodings m) probe))
    as (i & d & Harg & Hd & Hmin & Hfirst).
  { unfold face_distance.
    destruct (known_face_encodings m); [congruence|discriminate]. }
  unfold face_distance in Hd, Hmin, Hfirst.
  rewrite nth_error_map in Hd.
  destruct (nth_error (known_face_encodings m) i) as [e|] eqn:He; [|discriminate].
  simpl in Hd. injection Hd as Hd.
  assert (Hlt : (i < List.length (known_face_encodings m))%nat).
  { apply nth_error_Some. congruence. }
  destruct (nth_error (known_face_names m) i) as [nm|] eqn:Hnm.
  2:{ apply nth_error_None in Hnm. lia. }
  destruct (nth_error (known_face_ids m) i) as [sid|] eqn:Hsid.
  2:{ apply nth_error_None in Hsid. lia. }
  exists i, e, nm, sid.
  do 3 (split; [assumption|]). split; [|split].
  - intros e' He'. rewrite Hd. apply Hmin. apply in_map_iff. now exists e'.
  - intros j e' Hj He'. rewrite Hd. apply (Hfirst j); [exact Hj|].
    rewrite nth_error_map, He'. reflexivity.
  - unfold match_face.
    destruct (True_in _) eqn:Ht.
    + rewrite Harg. cbn [bind]. unfold getitem, compare_faces.
      rewrite nth_error_map. unfold face_distance.
      rewrite nth_error_map, He. cbn [option_map bind].
      rewrite Hd. destruct (Qle_bool d (tolerance m)); [|reflexivity].
      rewrite Hnm, Hsid. reflexivity.
    + destruct (Qle_bool (distance e probe) (tolerance m)) eqn:Hle; [|reflexivity].
      assert (Hex : True_in (compare_faces distance (known_face_encodings m) probe (tolerance m))
                    = true).
      { apply True_in_compare_faces. exists e. split.
        - eapply nth_error_In, He.
        - now apply Qle_bool_iff. }
      congruence.
Qed.

(** What [match_face] can return: the unknown triple, or the name, id and
    [1 - distance] of a gallery entry within tolerance. *)
Lemma match_face_shape (m : FaceRecognitionModule) (probe : Encoding)
    (r : string * option string * Q) :
  match_face distance m probe = Return r ->
  r = unknown_match \/
  exists i e nm sid,
    nth_error (known_face_encodings m) i = Some e /\
    nth_error (known_face_names m) i = Some nm /\
    nth_error (known_face_ids m) i = Some sid /\
    (distance e probe <= tolerance m)%Q /\
    r = (nm, Some sid, (1 - distance e probe)%Q).
Proof.
  unfold match_face.
  destruct (True_in _); [|intros [= <-]; now left].
  destruct (argmin _) as [i|]; [|discriminate]. cbn [bind].
  unfold getitem, compare_faces, face_distance.
  rewrite !nth_error_map.
  destruct (nth_error (known_face_encodings m) i) as [e|] eqn:He; [|discriminate].
  cbn [option_map bind].
  destruct (Qle_bool (distance e probe) (tolerance m)) eqn:Hle;
    [|intros [= <-]; now left].
  destruct (nth_error (known_face_names m) i) as [nm|] eqn:Hnm; [|discriminate].
  destruct (nth_error (known_face_ids m) i) as [sid|] eqn:Hsid; [|discriminate].
  cbn [bind]. intros [= <-]. right. exists i, e, nm, sid.
  do 3 (split; [assumption|]). split; [now apply Qle_bool_iff|reflexivity].
Qed.

Lemma match_face_empty (m : FaceRecognitionModule) (probe : Encoding) :
  known_face_encodings m = [] -> match_face distance m probe = Return unknown_match.
Proof.
  intros H. unfold match_face. now rewrite H.
Qed.

End Matching.

Lemma match_face_parallel_returns (distance : Encoding -> Encoding -> Q)
    (m : FaceRecognitionModule) (probe : Encoding) :
  parallel m -> exists r, match_face distance m probe = Return r.
Proof.
  intros Hpar. destruct (known_face_encodings m) as [|e0 encs] eqn:E.
  - exists unknown_match. now apply match_face_empty.
  - destruct (match_face_closest distance m probe Hpar)
      as (i & e & nm & sid & _ & _ & _ & _ & _ & H); [congruence|eauto].
Qed.

(** C1: on a non-empty gallery (held in parallel caches) the entry looked at
    is one of globally least distance to the probe; it is reported as the
    match when that least distance is at most the tolerance and otherwise
    the face is unknown, so whenever a match is reported it is that entry
    and its distance does not exceed the tolerance. *)
Theorem C1_closest_entry_gated_by_tolerance :
  forall (distance : Encoding -> Encoding -> Q)
         (m : FaceRecognitionModule) (probe : Encoding),
    parallel m ->
    known_face_encodings m <> [] ->
    exists i e nm sid,
      nth_error (known_face_encodings m) i = Some e /\
      nth_error (known_face_names m) i = Some nm /\
      nth_error (known_face_ids m) i = Some sid /\
      (forall e', In e' (known_face_encodings m) ->
                  (distance e probe <= distance e' probe)%Q) /\
      ((distance e probe <= tolerance m)%Q ->
         match_face distance m probe =
         Return (nm, Some sid, (1 - distance e probe)%Q)) /\
      (~ (distance e probe <= tolerance m)%Q ->
         match_face distance m probe = Return unknown_match) /\
      (forall nm' sid' c,
         match_face distance m probe = Return (nm', Some sid', c) ->
         (distance e probe <= tolerance m)%Q /\
         nm' = nm /\ sid' = sid /\ c = (1 - distance e probe)%Q).
Proof.
  intros distance m probe Hpar Hne.
  destruct (match_face_closest distance m probe Hpar Hne)
    as (i & e & nm & sid & He & Hnm & Hsid & Hmin & _ & Hres).
  exists i, e, nm, sid.
  do 3 (split; [assumption|]). split; [exact Hmin|].
  destruct (Qle_bool (distance e probe) (tolerance m)) eqn:Hle.
  - apply Qle_bool_iff in Hle. split; [intros _; exact Hres|].
    split; [intros Hn; contradiction|].
    intros nm' sid' c Hm. rewrite Hres in Hm. injection Hm as <- <- <-. auto.
  - apply (proj1 (Qle_bool_false_iff _ _)) in Hle.
    split; [intros Hn; contradiction|]. split; [intros _; exact Hres|].
    intros nm' sid' c Hm. rewrite Hres in Hm. discriminate Hm.
Qed.

(** C1 on the sample roster: a probe at 0.4 from Alice and 0.55 from Bob. *)
Lemma C1_closest_entry_gated_by_tolerance_witness :
  exists i e nm sid,
    nth_error (known_face_encodings Sample.loaded) i = Some e /\
    nth_error (known_face_names Sample.loaded) i = Some nm /\
    nth_error (known_face_ids Sample.loaded) i = Some sid /\
    (forall e', In e' (known_face_encodings Sample.loaded) ->
                (Sample.distance e [4 # 10] <= Sample.distance e' [4 # 10])%Q) /\
    ((Sample.distance e [4 # 10] <= tolerance Sample.loaded)%Q ->
       match_face Sample.distance Sample.loaded [4 # 10] =
       Return (nm, Some sid, (1 - Sample.distance e [4 # 10])%Q)) /\
    (~ (Sample.distance e [4 # 10] <= tolerance Sample.loaded)%Q ->
       match_face Sample.distance Sample.loaded [4 # 10] = Return unknown_match) /\
    (forall nm' sid' c,
       match_face Sample.distance Sample.loaded [4 # 10] = Return (nm', Some sid', c) ->
       (Sample.distance e [4 # 10] <= tolerance Sample.loaded)%Q /\
       nm' = nm /\ sid' = sid /\ c = (1 - Sample.distance e [4 # 10])%Q).
Proof.
  apply (C1_closest_entry_gated_by_tolerance Sample.distance Sample.loaded [4 # 10]).
  - split; reflexivity.
  - discriminate.
Defined.

(** C7: with an empty gallery every probe is unknown, whatever the
    tolerance: name "Unknown", no student_id, confidence 0; the loop over
    the detected faces yields exactly one such result per face. *)
Theorem C7_empty_gallery_unknown :
  forall (distance : Encoding -> Encoding -> Q)
         (m : FaceRecognitionModule),
    known_face_encodings m = [] ->
    (forall probe, match_face distance m probe = Return ("Unknown", None, 0%Q)) /\
    (forall faces acc,
        recognize_loop distance m faces acc =
        Return (acc ++ map (fun f => unknown_result (scale_up (fst f))) faces)).
Proof.
  intros distance m Hempty.
  assert (Hm : forall probe, match_face distance m probe = Return unknown_match).
  { intros probe. now apply match_face_empty. }
  split; [exact Hm|].
  induction faces as [|[loc enc] faces IH]; intros acc; simpl.
  - now rewrite app_nil_r.
  - rewrite Hm. cbn [bind]. rewrite IH. now rewrite <- app_assoc.
Qed.

Lemma C7_empty_gallery_unknown_witness :
  (forall probe,
      match_face Sample.distance default_module probe = Return ("Unknown", None, 0%Q)) /\
  (forall faces acc,
      recognize_loop Sample.distance default_module faces acc =
      Return (acc ++ map (fun f => unknown_result (scale_up (fst f))) faces)).
Proof.
  apply (C7_empty_gallery_unknown Sample.distance default_module). reflexivity.
Defined.

(** C5 at a failing input: a module built with tolerance 1.5 (the
    constructor takes any tolerance, [set_tolerance] would refuse it) admits
    Alice at distance 1.2 and reports the confidence -0.2, outside the
    "0-1 scale" that the source announces for the confidence. *)
Lemma C5_confidence_below_zero :
  exists nm sid c,
    match_face Sample.distance Sample.loose [(-6 # 5)%Q] = Return (nm, Some sid, c) /\
    ~ (0 <= c /\ c <= 1)%Q.
Proof.
  eexists. eexists. eexists. split.
  - vm_compute. reflexivity.
  - intros [H _]. apply Qle_bool_iff in H. vm_compute in H. discriminate H.
Qed.

(** The confidence within the documented range of the tolerance: the
    confidence of a match is 1 minus the distance of the matched entry, and
    it lies in [0,1] when distances are not negative and the tolerance of
    the module is at most 1; an unmatched face has name
    "Unknown" and confidence 0.  With tolerance 0.6 and two entries at
    distances 0.4 and 0.55, in either order, the entry at 0.4 is returned
    with confidence 0.6. *)
Theorem confidence_of_match :
  forall (distance : Encoding -> Encoding -> Q)
         (m : FaceRecognitionModule) (probe : Encoding),
    (forall a b, (0 <= distance a b)%Q) ->
    (tolerance m <= 1)%Q ->
    (forall nm sid c,
        match_face distance m probe = Return (nm, Some sid, c) ->
        exists i e,
          nth_error (known_face_encodings m) i = Some e /\
          nth_error (known_face_names m) i = Some nm /\
          nth_error (known_face_ids m) i = Some sid /\
          c = (1 - distance e probe)%Q /\
          (0 <= c)%Q /\ (c <= 1)%Q) /\
    (forall nm c,
        match_face distance m probe = Return (nm, None, c) ->
        nm = "Unknown" /\ c = 0%Q) /\
    (forall e1 e2 n1 n2 i1 i2,
        (known_face_encodings m = [e1; e2] /\ known_face_names m = [n1; n2] /\
         known_face_ids m = [i1; i2]) \/
        (known_face_encodings m = [e2; e1] /\ known_face_names m = [n2; n1] /\
         known_face_ids m = [i2; i1]) ->
        (tolerance m == 6 # 10)%Q ->
        (distance e1 probe == 4 # 10)%Q ->
        (distance e2 probe == 55 # 100)%Q ->
        exists c,
          match_face distance m probe = Return (n1, Some i1, c) /\
          (c == 6 # 10)%Q).
Proof.
  intros distance m probe Hpos Htol. split; [|split].
  - intros nm sid c Hm. apply match_face_shape in Hm.
    destruct Hm as [Hm|(i & e & nm' & sid' & He & Hnm & Hsid & Hle & Hr)].
    + discriminate Hm.
    + injection Hr as E1 E2 E3. subst nm sid c. exists i, e.
      do 3 (split; [assumption|]). split; [reflexivity|].
      specialize (Hpos e probe). split; lra.
  - intros nm c Hm. apply match_face_shape in Hm.
    destruct Hm as [Hm|(i & e & nm' & sid' & _ & _ & _ & _ & Hr)].
    + injection Hm as E1 E2. subst nm c. auto.
    + discriminate Hr.
  - intros e1 e2 n1 n2 i1 i2 Hcache Ht H1 H2.
    assert (Hpar : parallel m).
    { unfold parallel. destruct Hcache as [(-> & -> & ->)|(-> & -> & ->)]; auto. }
    assert (Hne : known_face_encodings m <> []).
    { destruct Hcache as [(-> & _)|(-> & _)]; discriminate. }
    destruct (match_face_closest distance m probe Hpar Hne)
      as (i & e & nm & sid & He & Hnm & Hsid & Hmin & _ & Hres).
    assert (Hin1 : In e1 (known_face_encodings m)).
    { destruct Hcache as [(-> & _)|(-> & _)]; simpl; auto. }
    assert (Hd : (distance e probe <= 4 # 10)%Q).
    { rewrite <- H1. now apply Hmin. }
    assert (Hsel : e = e1 /\ nm = n1 /\ sid = i1 \/ e = e2).
    { destruct Hcache as [(Hc1 & Hc2 & Hc3)|(Hc1 & Hc2 & Hc3)];
        rewrite Hc1 in He; rewrite Hc2 in Hnm; rewrite Hc3 in Hsid;
        destruct i as [|[|i]]; simpl in He, Hnm, Hsid;
        try discriminate; try (destruct i; discriminate);
        injection He as E1; injection Hnm as E2; injection Hsid as E3; subst; auto. }
    destruct Hsel as [(-> & -> & ->) | ->].
    + assert (Hle : Qle_bool (distance e1 probe) (tolerance m) = true).
      { apply Qle_bool_iff. lra. }
      rewrite Hle in Hres. eexists. split; [exact Hres|]. lra.
    + exfalso. lra.
Qed.

Lemma confidence_of_match_sample :
  (forall nm sid c,
      match_face Sample.distance Sample.loaded [4 # 10] = Return (nm, Some sid, c) ->
      exists i e,
        nth_error (known_face_encodings Sample.loaded) i = Some e /\
        nth_error (known_face_names Sample.loaded) i = Some nm /\
        nth_error (known_face_ids Sample.loaded) i = Some sid /\
        c = (1 - Sample.distance e [4 # 10])%Q /\
        (0 <= c)%Q /\ (c <= 1)%Q) /\
  (exists c,
      match_face Sample.distance Sample.loaded [4 # 10] = Return ("Alice", Some "S1", c) /\
      (c == 6 # 10)%Q).
Proof.
  assert (Hpos : forall a b, (0 <= Sample.distance a b)%Q).
  { intros a b. apply Qabs_nonneg. }
  assert (Htol : (tolerance Sample.loaded <= 1)%Q).
  { apply Qle_bool_iff. reflexivity. }
  destruct (confidence_of_match Sample.distance Sample.loaded [4 # 10] Hpos Htol)
    as (H1 & _ & H3).
  split; [exact H1|].
  apply (H3 [0%Q] [(95 # 100)%Q] "Alice" "Bob" "S1" "S2").
  - left. repeat split.
  - reflexivity.
  - reflexivity.
  - reflexivity.
Defined.

(** ** The recognition call *)

Section Pipeline.

Variable Image : Type.
Variable cvtColor : Image -> outcome Image.
Variable resize_half : Image -> outcome Image.
Variable face_locations : string -> Image -> outcome (list Location).
Variable face_encodings : Image -> list Location -> outcome (list Encoding).
Variable distance : Encoding -> Encoding -> Q.

Lemma recognize_loop_Forall (P : RecognitionResult -> Prop) (m : FaceRecognitionModule) :
  (forall loc enc r, match_face distance m enc = Return r ->
                     P (make_result (scale_up loc) r)) ->
  forall faces acc results,
    Forall P acc ->
    recognize_loop distance m faces acc = Return results ->
    Forall P results.
Proof.
  intros HP. induction faces as [|[loc enc] faces IH]; intros acc results Hacc; simpl.
  - intros [= <-]. exact Hacc.
  - destruct (match_face distance m enc) as [r|e] eqn:Hm; [|discriminate].
    cbn [bind]. apply IH. apply Forall_app. split; [exact Hacc|].
    constructor; [|constructor]. exact (HP loc enc r Hm).
Qed.

Lemma recognize_body_loop (m : FaceRecognitionModule) (image : Image)
    (results : list RecognitionResult) :
  recognize_body Image cvtColor resize_half face_locations face_encodings distance
                 m image = Return results ->
  exists faces, recognize_loop distance m faces [] = Return results.
Proof.
  unfold recognize_body.
  destruct (cvtColor image) as [rgb|]; [|discriminate]. cbn [bind].
  destruct (resize_half rgb) as [small|]; [|discriminate]. cbn [bind].
  destruct (face_locations (model m) small) as [locs|]; [|discriminate]. cbn [bind].
  destruct (face_encodings small locs) as [encs|]; [|discriminate]. cbn [bind].
  intros H. now exists (combine locs encs).
Qed.

(** What a call of [recognize_faces] gives, by the remainder of the new
    frame count. *)
Lemma recognize_faces_cases (m : FaceRecognitionModule) (image : Image) :
  recognize_faces Image cvtColor resize_half face_locations face_encodings distance
                  m image =
  (bump_frame_count m,
   if (process_every_n_frames m =? 0)%Z then Raise ZeroDivisionError
   else if ((frame_count m + 1) mod process_every_n_frames m =? 0)%Z
        then process_frame Image cvtColor resize_half face_locations face_encodings
                           distance (bump_frame_count m) image
        else Return []).
Proof.
  unfold recognize_faces, py_mod. cbn [bump_frame_count process_every_n_frames frame_count].
  destruct (process_every_n_frames m =? 0)%Z; [reflexivity|]. cbn [bind].
  now destruct ((frame_count m + 1) mod process_every_n_frames m =? 0)%Z.
Qed.

Lemma process_frame_returns (m : FaceRecognitionModule) (image : Image) :
  exists results,
    process_frame Image cvtColor resize_half face_locations face_encodings distance
                  m image = Return results.
Proof.
  unfold process_frame.
  destruct (recognize_body _ _ _ _ _ _ m image) as [results|e]; simpl; eauto.
Qed.

Lemma recognize_faces_results (m : FaceRecognitionModule) (image : Image)
    (results : list RecognitionResult) :
  snd (recognize_faces Image cvtColor resize_half face_locations face_encodings distance
                       m image) = Return results ->
  results = [] \/
  exists faces, recognize_loop distance (bump_frame_count m) faces [] = Return results.
Proof.
  rewrite recognize_faces_cases. cbn [snd].
  destruct (process_every_n_frames m =? 0)%Z; [discriminate|].
  destruct (_ =? 0)%Z; [|intros [= <-]; now left].
  unfold process_frame.
  destruct (recognize_body _ _ _ _ _ _ _ image) as [rs|e] eqn:Hb; simpl.
  - intros [= <-]. right. eapply recognize_body_loop, Hb.
  - intros [= <-]. now left.
Qed.

(** With parallel caches the matching loop returns, with the results for
    the faces after those it was given. *)
Lemma recognize_loop_results (m : FaceRecognitionModule) :
  parallel m ->
  forall faces acc,
    exists more,
      recognize_loop distance m faces acc = Return (acc ++ more) /\
      results_for distance m faces more.
Proof.
  intros Hpar. induction faces as [|[loc enc] faces IH]; intros acc.
  - exists []. cbn. rewrite app_nil_r. split; [reflexivity|constructor].
  - cbn [recognize_loop].
    destruct (match_face_parallel_returns distance m enc Hpar) as [x Hx].
    rewrite Hx. cbn [bind].
    destruct (IH (acc ++ [make_result (scale_up loc) x])) as (more & Hloop & Hmore).
    exists (make_result (scale_up loc) x :: more). split.
    + rewrite Hloop. now rewrite <- app_assoc.
    + constructor; [|exact Hmore]. exists x. auto.
Qed.

(** What the [try] statement gives on a frame, whatever the frame count. *)
Lemma process_frame_processed (m : FaceRecognitionModule) (k : Z) (image : Image) :
  parallel m ->
  processed Image cvtColor resize_half face_locations face_encodings distance m image
            (process_frame Image cvtColor resize_half face_locations face_encodings
                           distance (at_frame m k) image).
Proof.
  intros Hpar. unfold process_frame, recognize_body. cbn [at_frame model]. split.
  - intros faces (rgb & small & locs & encs & H1 & H2 & H3 & H4 & ->).
    rewrite H1. cbn [bind]. rewrite H2. cbn [bind]. rewrite H3. cbn [bind].
    rewrite H4. cbn [bind].
    destruct (recognize_loop_results (at_frame m k) Hpar (combine locs encs) [])
      as (more & Hloop & Hmore).
    rewrite Hloop. exists more. split; [reflexivity|exact Hmore].
  - intros Hnone.
    destruct (cvtColor image) as [rgb|] eqn:H1; [|reflexivity]. cbn [bind].
    destruct (resize_half rgb) as [small|] eqn:H2; [|reflexivity]. cbn [bind].
    destruct (face_locations (model m) small) as [locs|] eqn:H3; [|reflexivity].
    cbn [bind].
    destruct (face_encodings small locs) as [encs|] eqn:H4; [|reflexivity].
    exfalso. apply (Hnone (combine locs encs)).
    exists rgb, small, locs, encs. auto.
Qed.

End Pipeline.

(** C10: in every result of [recognize_faces], [is_known] is true exactly
    when [student_id] is present, and a result without [student_id] has the
    name "Unknown" and the confidence 0.0. *)
Theorem C10_result_fields_coherent :
  forall (Image : Type)
         (cvtColor resize_half : Image -> outcome Image)
         (face_locations : string -> Image -> outcome (list Location))
         (face_encodings : Image -> list Location -> outcome (list Encoding))
         (distance : Encoding -> Encoding -> Q)
         (m : FaceRecognitionModule) (image : Image)
         (results : list RecognitionResult) (r : RecognitionResult),
    snd (recognize_faces Image cvtColor resize_half face_locations face_encodings distance
                         m image) = Return results ->
    In r results ->
    (is_known r = true <-> student_id r <> None) /\
    (student_id r = None -> name r = "Unknown" /\ confidence r = 0%Q).
Proof.
  intros Image cvtColor resize_half face_locations face_encodings distance
         m image results r Hres Hin.
  apply recognize_faces_results in Hres. destruct Hres as [->|[faces Hloop]]; [destruct Hin|].
  revert r Hin. apply Forall_forall.
  eapply recognize_loop_Forall; [|constructor|exact Hloop].
  intros loc enc r Hm. apply match_face_shape in Hm.
  destruct Hm as [->|(i & e & nm & sid & _ & _ & _ & _ & ->)]; simpl.
  - split; [split; [discriminate|congruence]|auto].
  - split; [split; [discriminate|reflexivity]|discriminate].
Qed.

(** C10 on the second frame of the sample module, which shows Alice. *)
Lemma C10_result_fields_coherent_witness :
  exists results r,
    snd (recognize_faces Sample.Image Sample.cvtColor Sample.resize_half
                         Sample.face_locations Sample.face_encodings Sample.distance
                         (at_frame Sample.loaded 1) Sample.frame_alice) = Return results /\
    In r results /\
    student_id r = Some "S1" /\
    (is_known r = true <-> student_id r <> None) /\
    (student_id r = None -> name r = "Unknown" /\ confidence r = 0%Q).
Proof.
  eexists. eexists. split; [vm_compute; reflexivity|].
  split; [left; reflexivity|]. split; [reflexivity|].
  eapply (C10_result_fields_coherent Sample.Image Sample.cvtColor Sample.resize_half
            Sample.face_locations Sample.face_encodings Sample.distance
            (at_frame Sample.loaded 1) Sample.frame_alice).
  - vm_compute. reflexivity.
  - left. reflexivity.
Defined.

(** C4: every call adds one to the frame counter and changes nothing else
    in the module.  When the new count [k] has a non-zero remainder by the
    stride the call returns the empty list, whatever the detector would do
    on the frame, and the round of the camera loop on that frame leaves the
    attendance tab and the world (tables, connections, clock) as they
    were.  When the remainder is zero the frame is processed: the call
    returns the results for the faces the detector finds in it.  From
    count 0 with stride 2, the frames counted 1 and 3 give empty results
    and the frames counted 2 and 4 are processed. *)
Theorem C4_frame_sampling :
  forall (Image : Type)
         (cvtColor resize_half : Image -> outcome Image)
         (face_locations : string -> Image -> outcome (list Location))
         (face_encodings : Image -> list Location -> outcome (list Encoding))
         (distance : Encoding -> Encoding -> Q)
         (copy_frame : Image -> outcome Image)
         (draw_result : Image -> RecognitionResult -> outcome Image)
         (set_recognition_label : string -> outcome unit)
         (show_frame : Image -> outcome unit)
         (m : FaceRecognitionModule) (image : Image),
    let call := recognize_faces Image cvtColor resize_half face_locations face_encodings
                                distance m image in
    let processed_by := processed Image cvtColor resize_half face_locations
                                  face_encodings distance in
    fst call = at_frame m (frame_count m + 1) /\
    (forall r,
        py_mod (frame_count m + 1) (process_every_n_frames m) = Return r ->
        r <> 0%Z ->
        snd call = Return [] /\
        forall tab w,
          let round := camera_round Image cvtColor resize_half face_locations
                                    face_encodings distance copy_frame draw_result
                                    set_recognition_label show_frame true m tab image w in
          snd round = w /\ snd (fst (fst round)) = tab) /\
    (py_mod (frame_count m + 1) (process_every_n_frames m) = Return 0%Z ->
     parallel m ->
     processed_by m image (snd call)) /\
    (forall f1 f2 f3 f4,
        frame_count m = 0%Z ->
        process_every_n_frames m = 2%Z ->
        parallel m ->
        exists r2 r4,
          snd (recognize_frames Image cvtColor resize_half face_locations face_encodings
                                distance m [f1; f2; f3; f4]) =
          [Return []; r2; Return []; r4] /\
          processed_by m f2 r2 /\ processed_by m f4 r4).
Proof.
  intros Image cvtColor resize_half face_locations face_encodings distance
         copy_frame draw_result set_recognition_label show_frame m image
         call processed_by.
  assert (Hcall : call =
            (bump_frame_count m,
             if (process_every_n_frames m =? 0)%Z then Raise ZeroDivisionError
             else if ((frame_count m + 1) mod process_every_n_frames m =? 0)%Z
                  then process_frame Image cvtColor resize_half face_locations
                                     face_encodings distance (bump_frame_count m) image
                  else Return [])).
  { apply recognize_faces_cases. }
  split; [now rewrite Hcall|]. split; [|split].
  - intros r Hmod Hr. unfold py_mod in Hmod.
    assert (Hskip : snd call = Return []).
    { rewrite Hcall. cbn [snd].
      destruct (process_every_n_frames m =? 0)%Z; [discriminate|].
      injection Hmod as Hmod. rewrite Hmod.
      destruct (r =? 0)%Z eqn:E; [apply Z.eqb_eq in E; contradiction|reflexivity]. }
    split; [exact Hskip|]. intros tab w. unfold camera_round.
    destruct (copy_frame image) as [display_frame|e]; [|split; reflexivity].
    fold call. destruct call as [m' res]. cbn [snd] in Hskip. subst res.
    split; reflexivity.
  - intros Hmod Hpar. unfold py_mod in Hmod. rewrite Hcall. cbn [snd].
    destruct (process_every_n_frames m =? 0)%Z; [discriminate|].
    injection Hmod as Hmod. rewrite Hmod. cbn [Z.eqb].
    apply (process_frame_processed Image cvtColor resize_half face_locations
             face_encodings distance m (frame_count m + 1) image Hpar).
  - intros f1 f2 f3 f4 Hcount Hstride Hpar.
    exists (process_frame Image cvtColor resize_half face_locations face_encodings
                          distance (at_frame m 2) f2),
           (process_frame Image cvtColor resize_half face_locations face_encodings
                          distance (at_frame m 4) f4).
    split; [|split].
    + destruct m as [tol mdl n k encs names ids]. cbn in Hcount, Hstride. subst n k.
      reflexivity.
    + now apply process_frame_processed.
    + now apply process_frame_processed.
Qed.

(** C4 on the sample module, from count 0 with stride 2: the first frame
    shows Alice and is skipped, the round of the camera loop on it changes
    nothing; the second frame is processed and Alice is reported; of four
    frames the second and the fourth are processed, the third, which is
    malformed, is skipped like any other. *)
Lemma C4_frame_sampling_witness :
  let recognize := recognize_faces Sample.Image Sample.cvtColor Sample.resize_half
                     Sample.face_locations Sample.face_encodings Sample.distance in
  let found := mkResult (20, 100, 120, 40)%Z "Alice" (Some "S1") (6 # 10)%Q true in
  (snd (recognize Sample.loaded Sample.frame_alice) = Return [] /\
   snd (camera_round Sample.Image Sample.cvtColor Sample.resize_half
          Sample.face_locations Sample.face_encodings Sample.distance
          Sample.copy_frame Sample.draw_result Sample.set_recognition_label
          Sample.show_frame true Sample.loaded new_tab Sample.frame_alice Sample.world0)
   = Sample.world0) /\
  (exists results,
      snd (recognize (at_frame Sample.loaded 1) Sample.frame_alice) = Return results /\
      results_for Sample.distance (at_frame Sample.loaded 1)
                  [(Sample.box, [(4 # 10)%Q])] results) /\
  snd (recognize (at_frame Sample.loaded 1) Sample.frame_alice) = Return [found] /\
  snd (recognize_frames Sample.Image Sample.cvtColor Sample.resize_half
         Sample.face_locations Sample.face_encodings Sample.distance Sample.loaded
         [Sample.frame_alice; Sample.frame_alice; Sample.malformed; Sample.frame_alice])
  = [Return []; Return [found]; Return []; Return [found]].
Proof.
  intros recognize found.
  assert (Hpar : parallel (at_frame Sample.loaded 1)).
  { apply (parallel_load_known_faces default_module Sample.roster). }
  pose proof (C4_frame_sampling Sample.Image Sample.cvtColor Sample.resize_half
                Sample.face_locations Sample.face_encodings Sample.distance
                Sample.copy_frame Sample.draw_result Sample.set_recognition_label
                Sample.show_frame Sample.loaded Sample.frame_alice) as Hskip.
  pose proof (C4_frame_sampling Sample.Image Sample.cvtColor Sample.resize_half
                Sample.face_locations Sample.face_encodings Sample.distance
                Sample.copy_frame Sample.draw_result Sample.set_recognition_label
                Sample.show_frame (at_frame Sample.loaded 1) Sample.frame_alice) as Hdone.
  split; [|split; [|split]].
  - destruct (proj1 (proj2 Hskip) 1%Z eq_refl) as [Hempty Hround]; [discriminate|].
    split; [exact Hempty|]. exact (proj1 (Hround new_tab Sample.world0)).
  - apply (proj1 (proj1 (proj2 (proj2 Hdone)) eq_refl Hpar)).
    exists (Some [(Sample.box, [(4 # 10)%Q])]), (Some [(Sample.box, [(4 # 10)%Q])]),
           [Sample.box], [[(4 # 10)%Q]].
    repeat split.
  - reflexivity.
  - reflexivity.
Defined.

(** C9 as stated fails, in two ways.  A module built with stride 0 (the
    constructor takes any stride) raises ZeroDivisionError on every call,
    before the [try], and the round of the camera loop ends the loop.  And
    with stride 2, on a malformed second frame, the call returns the empty
    list, but the colour conversion of the display copy raises as it did
    inside the call, and the round ends the loop as well. *)
Lemma C9_call_raises_or_loop_aborts :
  let recognize := recognize_faces Sample.Image Sample.cvtColor Sample.resize_half
                     Sample.face_locations Sample.face_encodings Sample.distance in
  let round := camera_round Sample.Image Sample.cvtColor Sample.resize_half
                 Sample.face_locations Sample.face_encodings Sample.distance
                 Sample.copy_frame Sample.draw_result Sample.set_recognition_label
                 Sample.show_frame true in
  (snd (recognize Sample.stride0 Sample.frame_alice) = Raise ZeroDivisionError /\
   snd (fst (round Sample.stride0 new_tab Sample.frame_alice Sample.world0)) = false) /\
  (snd (recognize (at_frame Sample.loaded 1) Sample.malformed) = Return [] /\
   snd (fst (round (at_frame Sample.loaded 1) new_tab Sample.malformed Sample.world0))
   = false).
Proof.
  repeat split.
Qed.

(** C9, amended: when the stride is not zero the call returns a list and
    does not raise; if the conversion, the resizing, the detection, the
    encoding or the matching raises on the frame, the call returns the
    empty list.  The round of the camera loop then offers nothing to the
    gate and changes neither tab nor world; whether the loop goes on is
    decided by the other steps of the round alone: the copy of the frame,
    the label update, the colour conversion of the display copy and its
    display.  In particular a frame on which the colour conversion raises,
    and whose copy is the same image, ends the loop. *)
Theorem C9_failures_give_empty_result :
  forall (Image : Type)
         (cvtColor resize_half : Image -> outcome Image)
         (face_locations : string -> Image -> outcome (list Location))
         (face_encodings : Image -> list Location -> outcome (list Encoding))
         (distance : Encoding -> Encoding -> Q)
         (copy_frame : Image -> outcome Image)
         (draw_result : Image -> RecognitionResult -> outcome Image)
         (set_recognition_label : string -> outcome unit)
         (show_frame : Image -> outcome unit)
         (m : FaceRecognitionModule) (image : Image),
    process_every_n_frames m <> 0%Z ->
    let call := recognize_faces Image cvtColor resize_half face_locations face_encodings
                                distance m image in
    let round := camera_round Image cvtColor resize_half face_locations face_encodings
                              distance copy_frame draw_result set_recognition_label
                              show_frame true m in
    (exists results, snd call = Return results) /\
    (forall e,
        recognize_body Image cvtColor resize_half face_locations face_encodings distance
                       (fst call) image = Raise e ->
        snd call = Return []) /\
    (forall e, cvtColor image = Raise e -> snd call = Return []) /\
    (forall rgb e, cvtColor image = Return rgb -> resize_half rgb = Raise e ->
                   snd call = Return []) /\
    (forall rgb small e,
        cvtColor image = Return rgb -> resize_half rgb = Return small ->
        face_locations (model m) small = Raise e ->
        snd call = Return []) /\
    (forall rgb small locs e,
        cvtColor image = Return rgb -> resize_half rgb = Return small ->
        face_locations (model m) small = Return locs ->
        face_encodings small locs = Raise e ->
        snd call = Return []) /\
    (forall tab w display_frame,
        snd call = Return [] ->
        copy_frame image = Return display_frame ->
        round tab image w =
        ((fst call, tab,
          returns (_ <- set_recognition_label "No face recognized" ;;
                   frame_rgb <- cvtColor display_frame ;;
                   show_frame frame_rgb)),
         w)) /\
    (forall tab w e,
        cvtColor image = Raise e ->
        copy_frame image = Return image ->
        round tab image w = ((fst call, tab, false), w)) /\
    (forall tab w e,
        copy_frame image = Raise e ->
        round tab image w = ((m, tab, false), w)).
Proof.
  intros Image cvtColor resize_half face_locations face_encodings distance
         copy_frame draw_result set_recognition_label show_frame m image
         Hstride call round.
  assert (Hcall : call =
            (bump_frame_count m,
             if ((frame_count m + 1) mod process_every_n_frames m =? 0)%Z
             then process_frame Image cvtColor resize_half face_locations face_encodings
                                distance (bump_frame_count m) image
             else Return [])).
  { unfold call. rewrite recognize_faces_cases.
    apply Z.eqb_neq in Hstride. now rewrite Hstride. }
  assert (Hbody : forall e,
            recognize_body Image cvtColor resize_half face_locations face_encodings
                           distance (bump_frame_count m) image = Raise e ->
            snd call = Return []).
  { intros e He. rewrite Hcall. cbn [snd]. unfold process_frame. rewrite He.
    now destruct (_ =? 0)%Z. }
  assert (Hret : exists results, snd call = Return results).
  { rewrite Hcall. cbn [snd]. destruct (_ =? 0)%Z; [|eauto].
    apply process_frame_returns. }
  assert (Hconv : forall e, cvtColor image = Raise e -> snd call = Return []).
  { intros e He. apply (Hbody e). unfold recognize_body. now rewrite He. }
  assert (Hround : forall tab w display_frame,
            snd call = Return [] ->
            copy_frame image = Return display_frame ->
            round tab image w =
            ((fst call, tab,
              returns (_ <- set_recognition_label "No face recognized" ;;
                       frame_rgb <- cvtColor display_frame ;;
                       show_frame frame_rgb)),
             w)).
  { intros tab w display_frame Hempty Hcopy. unfold round, camera_round.
    rewrite Hcopy. fold call. destruct call as [m' res]. cbn [snd] in Hempty.
    subst res. reflexivity. }
  split; [exact Hret|].
  split; [intros e He; apply (Hbody e); rewrite Hcall in He; exact He|].
  split; [exact Hconv|].
  split; [|split; [|split; [|split; [|split]]]].
  - intros rgb e H1 H2. apply (Hbody e). unfold recognize_body.
    rewrite H1. cbn [bind]. now rewrite H2.
  - intros rgb small e H1 H2 H3. apply (Hbody e). unfold recognize_body.
    rewrite H1. cbn [bind]. rewrite H2. cbn [bind bump_frame_count model].
    now rewrite H3.
  - intros rgb small locs e H1 H2 H3 H4. apply (Hbody e). unfold recognize_body.
    rewrite H1. cbn [bind]. rewrite H2. cbn [bind bump_frame_count model].
    rewrite H3. cbn [bind]. now rewrite H4.
  - exact Hround.
  - intros tab w e He Hcopy.
    rewrite (Hround tab w image (Hconv e He) Hcopy). rewrite He.
    now destruct (set_recognition_label "No face recognized").
  - intros tab w e Hcopy. unfold round, camera_round. now rewrite Hcopy.
Qed.

(** C9 on the sample module: the malformed frame counted 2 gives the empty
    list, nothing is written, and the round ends the loop at the display
    of the frame. *)
Lemma C9_failures_give_empty_result_witness :
  snd (recognize_faces Sample.Image Sample.cvtColor Sample.resize_half
                       Sample.face_locations Sample.face_encodings Sample.distance
                       (at_frame Sample.loaded 1) Sample.malformed) = Return [] /\
  camera_round Sample.Image Sample.cvtColor Sample.resize_half
               Sample.face_locations Sample.face_encodings Sample.distance
               Sample.copy_frame Sample.draw_result Sample.set_recognition_label
               Sample.show_frame true (at_frame Sample.loaded 1) new_tab
               Sample.malformed Sample.world0
  = ((at_frame Sample.loaded 2, new_tab, false), Sample.world0).
Proof.
  assert (Hstride : process_every_n_frames (at_frame Sample.loaded 1) <> 0%Z)
    by discriminate.
  pose proof (C9_failures_give_empty_result Sample.Image Sample.cvtColor
                Sample.resize_half Sample.face_locations Sample.face_encodings
                Sample.distance Sample.copy_frame Sample.draw_result
                Sample.set_recognition_label Sample.show_frame
                (at_frame Sample.loaded 1) Sample.malformed Hstride) as H.
  split.
  - exact (proj1 (proj2 (proj2 H)) (LibraryError "cvtColor: empty image") eq_refl).
  - exact (proj1 (proj2 (proj2 (proj2 (proj2 (proj2 (proj2 (proj2 H)))))))
             new_tab Sample.world0 (LibraryError "cvtColor: empty image")
             eq_refl eq_refl).
Defined.

(** ** The storage operations and [mark_attendance] *)

Lemma student_exists_answer (sid : string) (w : World) :
  student_exists sid w =
  (negb (fault_at w (connections w)) && (0 <? count_students w sid)%nat, advance w 1 0).
Proof.
  unfold student_exists, sbind, get_connection, get_world, ret, advance. cbn.
  now destruct (fault_at w (connections w)).
Qed.

Lemma is_attendance_marked_answer (sid : string) (w : World) :
  is_attendance_marked sid None w =
  (negb (fault_at w (connections w))
   && (0 <? count_attendance w sid (strftime_date (clock w (ticks w))))%nat,
   advance w 1 1).
Proof.
  unfold is_attendance_marked, default_date, sbind, datetime_now, get_connection,
    get_world, ret, advance. cbn.
  now destruct (fault_at w (connections w)).
Qed.

Lemma db_mark_attendance_answer (sid status : string) (w : World) :
  let row := mkRow sid (strftime_date (clock w (ticks w)))
                   (strftime_time (clock w (S (ticks w)))) status in
  db_mark_attendance sid None None status w =
  if negb (fault_at w (connections w))
     && negb (0 <? count_attendance w sid (att_date row))%nat
  then (true,
        mkWorld (students w) (attendance w ++ [row]) (1 + connections w) (fault_at w)
                (clock w) (2 + ticks w))
  else (false, advance w 1 2).
Proof.
  unfold db_mark_attendance, default_date, default_time, sbind, datetime_now,
    get_connection, get_world, insert_attendance, violates_unique, ret, advance.
  cbn.
  destruct (fault_at w (connections w)); [reflexivity|]. cbn.
  unfold count_attendance. cbn.
  now destruct (List.length (filter _ (attendance w))).
Qed.

Lemma count_attendance_advance (w : World) (a b : nat) (sid : string) (date : Z) :
  count_attendance (advance w a b) sid date = count_attendance w sid date.
Proof. reflexivity. Qed.

Lemma get_student_answer (sid : string) (w : World) :
  get_student sid w =
  (if fault_at w (connections w) then None
   else find (fun s => String.eqb (st_student_id s) sid) (students w),
   advance w 1 0).
Proof.
  unfold get_student, sbind, get_connection, get_world, ret, advance. cbn.
  now destruct (fault_at w (connections w)).
Qed.

(** The four ways through [AttendanceManager.mark_attendance]. *)
Lemma mark_attendance_cases (sid status : string) (w : World) :
  let n := connections w in
  let t := ticks w in
  let exists_ := negb (fault_at w n) && (0 <? count_students w sid)%nat in
  let marked := negb (fault_at w (S n))
                && (0 <? count_attendance w sid (strftime_date (clock w t)))%nat in
  let row := mkRow sid (strftime_date (clock w (S t)))
                   (strftime_time (clock w (S (S t)))) status in
  let inserted := negb (fault_at w (S (S n)))
                  && negb (0 <? count_attendance w sid (att_date row))%nat in
  if negb exists_ then
    mark_attendance sid status w = ((false, "Student not found."), advance w 1 0)
  else if marked then
    mark_attendance sid status w =
    ((false, "Attendance already marked for today."), advance w 2 1)
  else if inserted then
    exists msg,
      mark_attendance sid status w =
      ((true, msg),
       mkWorld (students w) (attendance w ++ [row]) (4 + n) (fault_at w) (clock w) (3 + t))
  else
    mark_attendance sid status w = ((false, "Failed to mark attendance."), advance w 3 3).
Proof.
  intros n t exists_ marked row inserted.
  unfold mark_attendance, sbind.
  rewrite student_exists_answer. fold n exists_.
  destruct exists_; cbn [negb]; [|reflexivity].
  rewrite is_attendance_marked_answer.
  cbn [advance connections ticks clock fault_at Nat.add].
  rewrite !count_attendance_advance.
  fold n t marked.
  destruct marked; [reflexivity|].
  rewrite db_mark_attendance_answer.
  cbn [advance connections ticks clock fault_at Nat.add att_date attendance students].
  rewrite !count_attendance_advance.
  fold n t. fold row. subst inserted. cbn [att_date row].
  destruct (negb (fault_at w (S (S n))) && _); [|reflexivity].
  rewrite get_student_answer. eexists. reflexivity.
Qed.

Lemma refresh_attendance_list_answer (w : World) :
  _refresh_attendance_list w = (tt, advance w 2 1).
Proof.
  unfold _refresh_attendance_list, get_attendance_by_date, get_all_students, default_date,
    sbind, datetime_now, get_connection, get_world, ret, advance. cbn.
  destruct (fault_at w (connections w)); cbn;
    destruct (fault_at w (S (connections w))); reflexivity.
Qed.

(** The three ways through [_mark_attendance_for_student]. *)
Lemma mark_attendance_for_student_cases (tab : AttendanceTab) (sid nm : string) (w : World) :
  let current_time := clock w (ticks w) in
  let r := mark_attendance sid "Present" (advance w 0 1) in
  _mark_attendance_for_student tab sid nm w =
  if recently_marked tab sid current_time then ((tab, None), advance w 0 1)
  else if fst (fst r) then
    ((mkTab (deque_append recent_maxlen (recent_recognitions tab) (sid, current_time))
            (cooldown_seconds tab),
      Some (fst r)),
     advance (snd r) 2 1)
  else ((tab, Some (fst r)), snd r).
Proof.
  intros current_time r.
  unfold _mark_attendance_for_student, sbind, datetime_now, ret.
  fold current_time. change (mkWorld _ _ _ _ _ _) with (advance w 0 1).
  destruct (recently_marked tab sid current_time); [reflexivity|].
  fold r. destruct r as [[ok msg] w']. cbn [fst snd].
  destruct ok; [|reflexivity].
  now rewrite refresh_attendance_list_answer.
Qed.

(** The scan of the recency buffer finds nothing exactly when every entry
    of the student is at least [cooldown_seconds] old. *)
Lemma recently_marked_false (tab : AttendanceTab) (sid : string) (current_time : datetime) :
  recently_marked tab sid current_time = false <->
  forall prev_time,
    In (sid, prev_time) (recent_recognitions tab) ->
    (cooldown_seconds tab * usec_per_second <= current_time - prev_time)%Z.
Proof.
  unfold recently_marked.
  induction (recent_recognitions tab) as [|[prev_id prev] entries IH]; cbn [existsb In].
  - split; [intros _ p []|reflexivity].
  - rewrite orb_false_iff, IH. cbn [fst snd]. unfold within_cooldown. split.
    + intros [Hhd Htl] p [Heq|Hin]; [|now apply Htl].
      injection Heq as -> ->. rewrite String.eqb_refl in Hhd. cbn [andb] in Hhd.
      now apply Z.ltb_ge.
    + intros Hall. split; [|intros p Hin; apply Hall; now right].
      destruct (String.eqb_spec prev_id sid) as [->|_]; [|reflexivity].
      cbn [andb]. apply Z.ltb_ge. apply Hall. now left.
Qed.

(** The five ways through an offer to the gate, with the world each of
    them leaves: the connections opened and the clock readings taken. *)
Lemma offer_cases (tab : AttendanceTab) (sid nm : string) (w : World) :
  let n := connections w in
  let t := ticks w in
  let exists_ := negb (fault_at w n) && (0 <? count_students w sid)%nat in
  let marked := negb (fault_at w (S n))
                && (0 <? count_attendance w sid (strftime_date (clock w (S t))))%nat in
  let row := mkRow sid (strftime_date (clock w (S (S t))))
                   (strftime_time (clock w (S (S (S t))))) "Present" in
  let inserted := negb (fault_at w (S (S n)))
                  && negb (0 <? count_attendance w sid (att_date row))%nat in
  let offer := _mark_attendance_for_student tab sid nm w in
  if recently_marked tab sid (clock w t) then offer = ((tab, None), advance w 0 1)
  else if negb exists_ then
    offer = ((tab, Some (false, "Student not found.")), advance w 1 1)
  else if marked then
    offer = ((tab, Some (false, "Attendance already marked for today.")), advance w 2 2)
  else if inserted then
    exists msg,
      offer =
      ((mkTab (deque_append recent_maxlen (recent_recognitions tab) (sid, clock w t))
              (cooldown_seconds tab),
        Some (true, msg)),
       mkWorld (students w) (attendance w ++ [row]) (6 + n) (fault_at w) (clock w) (5 + t))
  else offer = ((tab, Some (false, "Failed to mark attendance.")), advance w 3 4).
Proof.
  cbv zeta. rewrite mark_attendance_for_student_cases.
  destruct (recently_marked tab sid (clock w (ticks w))); [reflexivity|].
  pose proof (mark_attendance_cases sid "Present" (advance w 0 1)) as Hcases.
  cbv zeta in Hcases.
  cbn [advance connections ticks clock fault_at Nat.add att_date] in Hcases |- *.
  rewrite !count_attendance_advance in Hcases.
  change (count_students (advance w 0 1) sid) with (count_students w sid) in Hcases.
  destruct (negb (negb (fault_at w (connections w)) && _)); [now rewrite Hcases|].
  destruct (negb (fault_at w (S (connections w))) && _); [now rewrite Hcases|].
  destruct (negb (fault_at w (S (S (connections w)))) && _); [|now rewrite Hcases].
  destruct Hcases as [msg Hcases]. rewrite Hcases. cbn [fst snd]. now exists msg.
Qed.

(** ** The recency buffer and the cooldown *)

Lemma deque_append_full {A : Type} (maxlen : nat) (d : list A) (x : A) :
  List.length d = maxlen -> (0 < maxlen)%nat ->
  deque_append maxlen d x = tl d ++ [x].
Proof.
  intros Hlen Hpos. unfold deque_append.
  rewrite length_app. cbn [List.length].
  destruct (Nat.ltb_spec maxlen (List.length d + 1)) as [_|H]; [|lia].
  destruct d as [|a d]; [simpl in Hlen; lia|reflexivity].
Qed.

Lemma deque_append_room {A : Type} (maxlen : nat) (d : list A) (x : A) :
  (List.length d < maxlen)%nat ->
  deque_append maxlen d x = d ++ [x].
Proof.
  intros Hlen. unfold deque_append.
  rewrite length_app. cbn [List.length].
  destruct (Nat.ltb_spec maxlen (List.length d + 1)) as [H|_]; [lia|reflexivity].
Qed.

Lemma length_deque_append {A : Type} (maxlen : nat) (d : list A) (x : A) :
  (List.length d <= maxlen)%nat ->
  (List.length (deque_append maxlen d x) <= maxlen)%nat.
Proof.
  intros Hlen. unfold deque_append.
  destruct (Nat.ltb_spec maxlen (List.length (d ++ [x]))) as [H|H]; [|exact H].
  rewrite length_app in H. cbn [List.length] in H.
  destruct d as [|a d]; cbn [app tl List.length] in *; [lia|].
  rewrite length_app. cbn [List.length]. lia.
Qed.

Lemma In_deque_append {A : Type} (maxlen : nat) (d : list A) (x : A) :
  (0 < maxlen)%nat -> In x (deque_append maxlen d x).
Proof.
  intros Hpos. unfold deque_append.
  destruct (Nat.ltb_spec maxlen (List.length (d ++ [x]))) as [H|H].
  - rewrite length_app in H. cbn [List.length] in H.
    destruct d as [|a d]; cbn [app tl List.length] in *; [lia|].
    apply in_or_app. right. now left.
  - apply in_or_app. right. now left.
Qed.

Lemma app_one_neq {A : Type} (l : list A) (x : A) : l ++ [x] <> l.
Proof.
  intros H. apply (f_equal (@List.length A)) in H.
  rewrite length_app in H. cbn in H. lia.
Qed.

(** C2 as stated fails: Alice has a record for today, the read of today's
    record fails (and is answered False by the storage layer), the offer
    goes on to the insertion, which is refused, and the outcome is
    WriteFailed instead of SuppressedAlreadyMarkedToday. *)
Lemma C2_unread_record_gives_write_failed :
  let w := Sample.world_marked_unread in
  let offer := _mark_attendance_for_student new_tab "S1" "Alice" w in
  count_students w "S1" = 1%nat /\
  strftime_date (clock w 1) = 20000%Z /\
  count_attendance w "S1" 20000 = 1%nat /\
  fst (mark_attendance "S1" "Present" w) = (false, "Failed to mark attendance.") /\
  outcome_of (snd (fst offer)) = WriteFailed /\
  attendance (snd offer) = attendance w.
Proof.
  repeat split.
Qed.

(** C2, amended: an offer that the cooldown scan lets through (every entry
    of the student in the recency buffer is at least [cooldown_seconds]
    old; an empty buffer has none) is handed to [mark_attendance], and
    - a student who is not in the table gives StudentNotFound and no row,
      and so does a failed read of the student table;
    - for a student of the table, when both reads succeed and a row for
      (student, today) exists, the outcome is
      SuppressedAlreadyMarkedToday and no row is written;
    - otherwise (no row for today, or the read of today's row failed) the
      row (student, date, time, Present) is inserted, with the date and
      the time of the next two clock readings, and the outcome is Marked;
      when the insertion fails (its connection fails, or a row for that
      student and date exists) the outcome is WriteFailed and no row is
      written. *)
Theorem C2_offer_delegates_to_storage :
  forall (tab : AttendanceTab) (w : World) (sid nm : string),
    let n := connections w in
    let t := ticks w in
    (forall prev_time,
        In (sid, prev_time) (recent_recognitions tab) ->
        (cooldown_seconds tab * usec_per_second <= clock w t - prev_time)%Z) ->
    let today := strftime_date (clock w (S t)) in
    let row := mkRow sid (strftime_date (clock w (S (S t))))
                     (strftime_time (clock w (S (S (S t))))) "Present" in
    let offer := _mark_attendance_for_student tab sid nm w in
    let out := outcome_of (snd (fst offer)) in
    let table := attendance (snd offer) in
    let res := mark_attendance sid "Present" (advance w 0 1) in
    (snd (fst offer) = Some (fst res) /\ table = attendance (snd res)) /\
    students (snd offer) = students w /\
    (count_students w sid = 0%nat -> out = StudentNotFound /\ table = attendance w) /\
    (fault_at w n = true -> out = StudentNotFound /\ table = attendance w) /\
    ((0 < count_students w sid)%nat ->
     fault_at w n = false ->
     fault_at w (S n) = false ->
     (0 < count_attendance w sid today)%nat ->
     out = SuppressedAlreadyMarkedToday /\ table = attendance w) /\
    ((0 < count_students w sid)%nat ->
     fault_at w n = false ->
     fault_at w (S n) = true \/ count_attendance w sid today = 0%nat ->
     (fault_at w (S (S n)) = false ->
      count_attendance w sid (att_date row) = 0%nat ->
      out = Marked /\ table = attendance w ++ [row]) /\
     (fault_at w (S (S n)) = true \/ (0 < count_attendance w sid (att_date row))%nat ->
      out = WriteFailed /\ table = attendance w)).
Proof.
  intros tab w sid nm n t Hscan today row offer out table res.
  apply recently_marked_false in Hscan.
  pose proof (offer_cases tab sid nm w) as Hcases. cbv zeta in Hcases.
  pose proof (mark_attendance_for_student_cases tab sid nm w) as Hgate.
  cbv zeta in Hgate.
  fold n t in Hcases, Hgate. rewrite Hscan in Hcases, Hgate.
  fold today row offer in Hcases. fold offer res in Hgate.
  assert (Hhand : snd (fst offer) = Some (fst res) /\ table = attendance (snd res)).
  { unfold table. rewrite Hgate. destruct (fst (fst res)); split; reflexivity. }
  assert (Hstudents : students (snd offer) = students w).
  { destruct (negb _) in Hcases; [now rewrite Hcases|].
    destruct (negb (fault_at w (S n)) && _) in Hcases; [now rewrite Hcases|].
    destruct (negb (fault_at w (S (S n))) && _) in Hcases; [|now rewrite Hcases].
    destruct Hcases as [msg ->]. reflexivity. }
  split; [exact Hhand|]. split; [exact Hstudents|]. clear Hhand Hstudents Hgate.
  split; [|split; [|split]].
  - intros Hcount. rewrite Hcount, andb_false_r in Hcases. cbn [negb] in Hcases.
    unfold out, table. rewrite Hcases. split; reflexivity.
  - intros Hfault. rewrite Hfault in Hcases. cbn [negb andb] in Hcases.
    unfold out, table. rewrite Hcases. split; reflexivity.
  - intros Hknown Hread1 Hread2 Hrow.
    apply Nat.ltb_lt in Hknown, Hrow.
    rewrite Hread1, Hread2, Hknown, Hrow in Hcases. cbn [negb andb] in Hcases.
    unfold out, table. rewrite Hcases. split; reflexivity.
  - intros Hknown Hread1 Hunseen.
    apply Nat.ltb_lt in Hknown. rewrite Hread1, Hknown in Hcases.
    cbn [negb andb] in Hcases.
    assert (Hmarked : negb (fault_at w (S n)) && (0 <? count_attendance w sid today)%nat
                      = false).
    { destruct Hunseen as [->| ->]; [reflexivity|apply andb_false_r]. }
    rewrite Hmarked in Hcases. split.
    + intros Hconn Hfree. rewrite Hconn, Hfree in Hcases. cbn [negb andb Nat.ltb Nat.leb]
        in Hcases.
      destruct Hcases as [msg Hcases]. unfold out, table. rewrite Hcases.
      split; reflexivity.
    + intros Hfail.
      assert (Hins : negb (fault_at w (S (S n)))
                     && negb (0 <? count_attendance w sid (att_date row))%nat = false).
      { destruct Hfail as [->|Hdup]; [reflexivity|].
        apply Nat.ltb_lt in Hdup. rewrite Hdup. apply andb_false_r. }
      rewrite Hins in Hcases. unfold out, table. rewrite Hcases. split; reflexivity.
Qed.

(** C2 on the sample worlds: an unknown student; a student already marked
    today, offered to a gate with an empty buffer; a first mark, through a
    buffer that holds an old entry of the student and a fresh one of
    another student; a first mark whose insertion fails; the student
    marked today whose record cannot be read; and a student whose row in
    the student table cannot be read. *)
Lemma C2_offer_delegates_to_storage_witness :
  let old := mkTab [("S1", (Sample.noon - 60 * usec_per_second)%Z); ("S2", Sample.noon)] 5 in
  let outcome w tab sid := outcome_of (snd (fst (_mark_attendance_for_student tab sid "" w))) in
  let table w tab sid := attendance (snd (_mark_attendance_for_student tab sid "" w)) in
  (outcome Sample.world0 new_tab "S9" = StudentNotFound /\
   table Sample.world0 new_tab "S9" = []) /\
  (outcome Sample.world_marked new_tab "S1" = SuppressedAlreadyMarkedToday /\
   table Sample.world_marked new_tab "S1" = attendance Sample.world_marked) /\
  (outcome Sample.world0 old "S1" = Marked /\
   table Sample.world0 old "S1" = [mkRow "S1" 20000 43203 "Present"]) /\
  (outcome Sample.world_faulty new_tab "S1" = WriteFailed /\
   table Sample.world_faulty new_tab "S1" = []) /\
  (outcome Sample.world_marked_unread new_tab "S1" = WriteFailed /\
   table Sample.world_marked_unread new_tab "S1" = attendance Sample.world_marked_unread) /\
  (outcome Sample2.world_down new_tab "S1" = StudentNotFound /\
   table Sample2.world_down new_tab "S1" = attendance Sample2.world_down).
Proof.
  intros old outcome table.
  assert (Hnew : forall (w : World) (sid : string) (prev_time : datetime),
             In (sid, prev_time) (recent_recognitions new_tab) ->
             (cooldown_seconds new_tab * usec_per_second
              <= clock w (ticks w) - prev_time)%Z).
  { intros w sid prev_time []. }
  assert (Hold : forall prev_time : datetime,
             In ("S1", prev_time) (recent_recognitions old) ->
             (cooldown_seconds old * usec_per_second
              <= clock Sample.world0 (ticks Sample.world0) - prev_time)%Z).
  { intros prev_time [Heq|[Heq|[]]]; [|discriminate Heq].
    injection Heq as <-. discriminate. }
  split; [|split; [|split; [|split; [|split]]]].
  - exact (proj1 (proj2 (proj2
             (C2_offer_delegates_to_storage new_tab Sample.world0 "S9" ""
                (Hnew Sample.world0 "S9")))) eq_refl).
  - exact (proj1 (proj2 (proj2 (proj2 (proj2
             (C2_offer_delegates_to_storage new_tab Sample.world_marked "S1" ""
                (Hnew Sample.world_marked "S1"))))))
             (Nat.lt_0_succ 0) eq_refl eq_refl (Nat.lt_0_succ 0)).
  - exact (proj1 (proj2 (proj2 (proj2 (proj2 (proj2
             (C2_offer_delegates_to_storage old Sample.world0 "S1" "" Hold)))))
             (Nat.lt_0_succ 0) eq_refl (or_intror eq_refl)) eq_refl eq_refl).
  - exact (proj2 (proj2 (proj2 (proj2 (proj2 (proj2
             (C2_offer_delegates_to_storage new_tab Sample.world_faulty "S1" ""
                (Hnew Sample.world_faulty "S1"))))))
             (Nat.lt_0_succ 0) eq_refl (or_intror eq_refl)) (or_introl eq_refl)).
  - exact (proj2 (proj2 (proj2 (proj2 (proj2 (proj2
             (C2_offer_delegates_to_storage new_tab Sample.world_marked_unread "S1" ""
                (Hnew Sample.world_marked_unread "S1"))))))
             (Nat.lt_0_succ 0) eq_refl (or_introl eq_refl))
             (or_intror (Nat.lt_0_succ 0))).
  - exact (proj1 (proj2 (proj2 (proj2
             (C2_offer_delegates_to_storage new_tab Sample2.world_down "S1" ""
                (Hnew Sample2.world_down "S1"))))) eq_refl).
Defined.

(** C3: an offer pushes (student_id, time) onto the recency buffer exactly
    when it inserted a row for the student into the attendance table;
    every other offer leaves both the table and the tab as they were.
    When an offer at time [t1] has inserted the row, the next offer of the
    same student, at a time [t2] less than 5 seconds later, returns at the
    cooldown scan: it reads the clock and nothing else, opens no
    connection and leaves tables and buffer as they were.  The buffer
    never holds more than 10 entries, and a push onto a full buffer drops
    its oldest entry. *)
Theorem C3_cooldown_and_recency_buffer :
  forall (tab : AttendanceTab) (w : World) (sid nm1 nm2 : string),
    let first := _mark_attendance_for_student tab sid nm1 w in
    let tab1 := fst (fst first) in
    let w1 := snd first in
    let t1 := clock w (ticks w) in
    let t2 := clock w1 (ticks w1) in
    let second := _mark_attendance_for_student tab1 sid nm2 w1 in
    let inserted := exists date time,
                      attendance w1 = attendance w ++ [mkRow sid date time "Present"] in
    let pushed := deque_append recent_maxlen (recent_recognitions tab) (sid, t1) in
    (cooldown_seconds tab = 5%Z -> inserted ->
     (t2 - t1 < 5 * usec_per_second)%Z ->
     second = ((tab1, None), advance w1 0 1) /\
     outcome_of (snd (fst second)) = SuppressedCooldown /\
     connections (snd second) = connections w1 /\
     attendance (snd second) = attendance w1 /\
     students (snd second) = students w1) /\
    ((inserted /\ recent_recognitions tab1 = pushed) \/
     (attendance w1 = attendance w /\ tab1 = tab)) /\
    (inserted <-> outcome_of (snd (fst first)) = Marked) /\
    (inserted <-> attendance w1 <> attendance w) /\
    cooldown_seconds tab1 = cooldown_seconds tab /\
    ((List.length (recent_recognitions tab) <= 10)%nat ->
     (List.length (recent_recognitions tab1) <= 10)%nat) /\
    (inserted -> List.length (recent_recognitions tab) = 10%nat ->
     recent_recognitions tab1 = tl (recent_recognitions tab) ++ [(sid, t1)]) /\
    (inserted -> (List.length (recent_recognitions tab) < 10)%nat ->
     recent_recognitions tab1 = recent_recognitions tab ++ [(sid, t1)]).
Proof.
  intros tab w sid nm1 nm2 first tab1 w1 t1 t2 second inserted pushed.
  assert (Hshape :
            (exists o w',
                first = ((tab, o), w') /\ attendance w' = attendance w /\
                (forall msg, o <> Some (true, msg))) \/
            (exists msg date time w',
                first = ((mkTab pushed (cooldown_seconds tab), Some (true, msg)), w') /\
                attendance w' = attendance w ++ [mkRow sid date time "Present"])).
  { pose proof (offer_cases tab sid nm1 w) as Hcases. cbv zeta in Hcases.
    fold first in Hcases.
    destruct (recently_marked tab sid (clock w (ticks w))).
    { left. exists None, (advance w 0 1). rewrite Hcases.
      split; [reflexivity|]. split; [reflexivity|discriminate]. }
    destruct (negb _).
    { left. do 2 eexists. rewrite Hcases.
      split; [reflexivity|]. split; [reflexivity|discriminate]. }
    destruct (negb (fault_at w (S (connections w))) && _).
    { left. do 2 eexists. rewrite Hcases.
      split; [reflexivity|]. split; [reflexivity|discriminate]. }
    destruct (negb (fault_at w (S (S (connections w)))) && _).
    - right. destruct Hcases as [msg Hcases]. exists msg. do 3 eexists.
      rewrite Hcases. split; reflexivity.
    - left. do 2 eexists. rewrite Hcases.
      split; [reflexivity|]. split; [reflexivity|discriminate]. }
  clearbody first.
  destruct Hshape as [(o & w' & -> & Hsame & Hnot)|(msg & date & time & w' & -> & Hrow)];
    cbn [fst snd] in tab1, w1; subst tab1 w1.
  - assert (Hno : ~ inserted).
    { intros (date & time & Hrow). rewrite Hsame in Hrow. symmetry in Hrow.
      exact (app_one_neq _ _ Hrow). }
    split; [intros _ Hin; contradiction|].
    split; [right; split; [exact Hsame|reflexivity]|].
    split.
    { split; [intros Hin; contradiction|]. cbn [fst snd]. intros Hout. exfalso.
      destruct o as [[[|] msg]|]; cbn in Hout.
      - exact (Hnot msg eq_refl).
      - destruct (String.eqb msg "Student not found."); [discriminate|].
        destruct (String.eqb msg "Attendance already marked for today."); discriminate.
      - discriminate. }
    split; [split; [intros Hin; contradiction|intros Hneq; contradiction]|].
    split; [reflexivity|]. split; [auto|].
    split; intros Hin; contradiction.
  - assert (Hin : inserted) by (exists date, time; exact Hrow).
    split.
    { intros Hcd _ Hlt.
      assert (Hrecent : recently_marked (mkTab pushed (cooldown_seconds tab)) sid t2
                        = true).
      { unfold recently_marked. cbn [recent_recognitions cooldown_seconds].
        apply existsb_exists. exists (sid, t1). split.
        - apply In_deque_append. unfold recent_maxlen. lia.
        - cbn [fst snd]. rewrite String.eqb_refl, Hcd. cbn [andb].
          unfold within_cooldown. now apply Z.ltb_lt. }
      assert (Hsecond : second = ((mkTab pushed (cooldown_seconds tab), None),
                                  advance w' 0 1)).
      { unfold second. rewrite mark_attendance_for_student_cases. fold t2.
        now rewrite Hrecent. }
      rewrite Hsecond. repeat split. }
    cbn [recent_recognitions cooldown_seconds fst snd].
    split; [left; split; [exact Hin|reflexivity]|].
    split; [split; [reflexivity|intros _; exact Hin]|].
    split.
    { split; [|intros _; exact Hin]. intros _. rewrite Hrow. apply app_one_neq. }
    split; [reflexivity|].
    split; [now apply (length_deque_append recent_maxlen)|].
    split.
    + intros _ Hlen. apply deque_append_full; [exact Hlen|unfold recent_maxlen; lia].
    + intros _ Hlen. now apply deque_append_room.
Qed.

(** C3 on the sample world: Alice is marked at noon, the row is in the
    table and the pair in the buffer; the next offer comes 0.5 s later and
    is suppressed; an offer of an unknown student pushes nothing; and a
    mark with a full buffer drops its oldest entry. *)
Lemma C3_cooldown_and_recency_buffer_witness :
  let first := _mark_attendance_for_student new_tab "S1" "Alice" Sample.world_fast in
  let full := mkTab Sample.full_buffer 5 in
  attendance (snd first) = [mkRow "S1" 20000 43200 "Present"] /\
  recent_recognitions (fst (fst first)) = [("S1", Sample.noon)] /\
  (_mark_attendance_for_student (fst (fst first)) "S1" "Alice" (snd first)
   = ((fst (fst first), None), advance (snd first) 0 1) /\
   attendance (snd (_mark_attendance_for_student (fst (fst first)) "S1" "Alice"
                                                 (snd first)))
   = attendance (snd first)) /\
  fst (fst (_mark_attendance_for_student full "S9" "Nobody" Sample.world_fast)) = full /\
  recent_recognitions
    (fst (fst (_mark_attendance_for_student full "S1" "Alice" Sample.world_fast)))
  = tl Sample.full_buffer ++ [("S1", Sample.noon)].
Proof.
  intros first full.
  assert (Hmarked : exists date time,
             attendance (snd first) =
             attendance Sample.world_fast ++ [mkRow "S1" date time "Present"]).
  { exists 20000%Z, 43200%Z. reflexivity. }
  assert (Hfull : exists date time,
             attendance (snd (_mark_attendance_for_student full "S1" "Alice"
                                                           Sample.world_fast)) =
             attendance Sample.world_fast ++ [mkRow "S1" date time "Present"]).
  { exists 20000%Z, 43200%Z. reflexivity. }
  pose proof (C3_cooldown_and_recency_buffer new_tab Sample.world_fast "S1" "Alice" "Alice")
    as Hfirst.
  pose proof (C3_cooldown_and_recency_buffer full Sample.world_fast "S9" "Nobody" "Nobody")
    as Hnobody.
  pose proof (C3_cooldown_and_recency_buffer full Sample.world_fast "S1" "Alice" "Alice")
    as Hlast.
  split; [reflexivity|].
  split.
  { exact (proj2 (proj2 (proj2 (proj2 (proj2 (proj2 (proj2 Hfirst))))))
             Hmarked (Nat.lt_0_succ 9)). }
  split.
  { destruct (proj1 Hfirst eq_refl Hmarked eq_refl) as (Hsecond & _ & _ & Htable & _).
    split; [exact Hsecond|exact Htable]. }
  split.
  { destruct (proj1 (proj2 Hnobody)) as [[Hins _]|[_ Hsame]]; [|exact Hsame].
    exfalso. apply (proj1 (proj1 (proj2 (proj2 (proj2 Hnobody))))) in Hins.
    apply Hins. reflexivity. }
  exact (proj1 (proj2 (proj2 (proj2 (proj2 (proj2 (proj2 Hlast))))))
           Hfull eq_refl).
Defined.

(** * More properties of the code *)

(** ** Frames in sequence *)

Lemma at_frame_at_frame (m : FaceRecognitionModule) (a b : Z) :
  at_frame (at_frame m a) b = at_frame m b.
Proof. reflexivity. Qed.

(** X1: fed any sequence of frames by a module whose stride is not zero,
    [recognize_faces] counts every frame and returns one answer per frame.
    The answer for a frame whose count is a multiple of the stride is that
    of a processed frame: the results for the faces the detector finds in
    it, and the empty list when a call on the image raises.  The answer
    for every other frame is the empty list, whatever the frame shows. *)
Theorem X1_frames_sampled_by_count :
  forall (Image : Type)
         (cvtColor resize_half : Image -> outcome Image)
         (face_locations : string -> Image -> outcome (list Location))
         (face_encodings : Image -> list Location -> outcome (list Encoding))
         (distance : Encoding -> Encoding -> Q)
         (frames : list Image) (m : FaceRecognitionModule),
    process_every_n_frames m <> 0%Z ->
    let run := recognize_frames Image cvtColor resize_half face_locations face_encodings
                                distance m frames in
    fst run = at_frame m (frame_count m + Z.of_nat (List.length frames)) /\
    List.length (snd run) = List.length frames /\
    forall i frame,
      nth_error frames i = Some frame ->
      exists answer,
        nth_error (snd run) i = Some answer /\
        if ((frame_count m + Z.of_nat i + 1) mod process_every_n_frames m =? 0)%Z
        then parallel m ->
             processed Image cvtColor resize_half face_locations face_encodings distance
                       m frame answer
        else answer = Return [].
Proof.
  intros Image cvtColor resize_half face_locations face_encodings distance frames.
  induction frames as [|f rest IH]; intros m Hstride run.
  - subst run. cbn. split; [|split; [reflexivity|]].
    + destruct m. unfold at_frame. cbn. f_equal. lia.
    + intros [|i] frame H; discriminate H.
  - subst run. cbn [recognize_frames].
    rewrite recognize_faces_cases.
    apply Z.eqb_neq in Hstride. rewrite Hstride. apply Z.eqb_neq in Hstride.
    specialize (IH (bump_frame_count m) Hstride). cbv zeta in IH.
    destruct (recognize_frames Image cvtColor resize_half face_locations face_encodings
                               distance (bump_frame_count m) rest) as [m'' rs].
    cbn [fst snd] in IH |- *. destruct IH as (Hm & Hlen & Hnth).
    split; [|split].
    + rewrite Hm. destruct m. unfold at_frame.
      cbn [bump_frame_count frame_count tolerance model process_every_n_frames
           known_face_encodings known_face_names known_face_ids List.length].
      f_equal. lia.
    + cbn. now rewrite Hlen.
    + intros [|i] frame Hf.
      * cbn in Hf. injection Hf as <-. cbn [nth_error].
        replace (frame_count m + Z.of_nat 0 + 1)%Z with (frame_count m + 1)%Z by lia.
        eexists. split; [reflexivity|].
        destruct ((frame_count m + 1) mod process_every_n_frames m =? 0)%Z;
          [|reflexivity].
        intros Hpar.
        apply (process_frame_processed Image cvtColor resize_half face_locations
                 face_encodings distance m (frame_count m + 1) f Hpar).
      * cbn [nth_error] in Hf |- *.
        destruct (Hnth i frame Hf) as (answer & Hanswer & Hkind).
        exists answer. split; [exact Hanswer|].
        cbn [bump_frame_count frame_count process_every_n_frames] in Hkind.
        replace (frame_count m + Z.of_nat (S i) + 1)%Z
          with (frame_count m + 1 + Z.of_nat i + 1)%Z by lia.
        destruct (_ =? 0)%Z; [|exact Hkind].
        intros Hpar. exact (Hkind Hpar).
Qed.

(** X1 on the sample module with stride 2 and five frames: the first
    frame shows Alice and is skipped; the second shows Alice and is
    processed, Alice is reported; the fourth is malformed and processed,
    it gives the empty list. *)
Lemma X1_frames_sampled_by_count_witness :
  let frames := [Sample.frame_alice; Sample.frame_alice; Sample.malformed;
                 Sample.malformed; Sample.frame_alice] in
  let run := recognize_frames Sample.Image Sample.cvtColor Sample.resize_half
               Sample.face_locations Sample.face_encodings Sample.distance
               Sample.loaded frames in
  frame_count (fst run) = 5%Z /\
  nth_error (snd run) 0 = Some (Return []) /\
  (exists results,
      nth_error (snd run) 1 = Some (Return results) /\
      results_for Sample.distance Sample.loaded [(Sample.box, [(4 # 10)%Q])] results) /\
  nth_error (snd run) 1
  = Some (Return [mkResult (20, 100, 120, 40)%Z "Alice" (Some "S1") (6 # 10)%Q true]) /\
  nth_error (snd run) 3 = Some (Return []).
Proof.
  intros frames run.
  assert (Hstride : process_every_n_frames Sample.loaded <> 0%Z) by discriminate.
  assert (Hpar : parallel Sample.loaded).
  { apply (parallel_load_known_faces default_module Sample.roster). }
  destruct (X1_frames_sampled_by_count Sample.Image Sample.cvtColor Sample.resize_half
              Sample.face_locations Sample.face_encodings Sample.distance
              frames Sample.loaded Hstride)
    as (Hcount & _ & Hnth).
  fold run in Hcount, Hnth.
  split; [rewrite Hcount; reflexivity|].
  split.
  { destruct (Hnth 0%nat Sample.frame_alice eq_refl) as (answer & Hanswer & Hkind).
    cbn in Hkind. now rewrite Hanswer, Hkind. }
  split.
  { destruct (Hnth 1%nat Sample.frame_alice eq_refl) as (answer & Hanswer & Hkind).
    cbn in Hkind. destruct (Hkind Hpar) as [Hfound _].
    destruct (Hfound [(Sample.box, [(4 # 10)%Q])]) as (results & -> & Hresults).
    - exists (Some [(Sample.box, [(4 # 10)%Q])]), (Some [(Sample.box, [(4 # 10)%Q])]),
             [Sample.box], [[(4 # 10)%Q]].
      repeat split.
    - exists results. split; [exact Hanswer|exact Hresults]. }
  split; [reflexivity|].
  destruct (Hnth 3%nat Sample.malformed eq_refl) as (answer & Hanswer & Hkind).
  cbn in Hkind. destruct (Hkind Hpar) as [_ Hnone].
  rewrite Hanswer, Hnone; [reflexivity|].
  intros faces (rgb & _ & _ & _ & Hconv & _). discriminate Hconv.
Defined.

(** ** Identity of the reported matches *)

Lemma In_triples (students : list Student) (sid nm : string) (e : Encoding) :
  In (sid, nm, e) (triples students) <->
  exists s, In s students /\ st_student_id s = sid /\ st_name s = nm /\
            st_face_encoding s = Some e.
Proof.
  induction students as [|s rest IH]; cbn [triples].
  - split; [intros []|intros (s & [] & _)].
  - destruct (st_face_encoding s) as [e'|] eqn:E.
    + cbn [In]. rewrite IH. split.
      * intros [H|(s' & Hin & H)].
        -- injection H as <- <- <-. exists s. auto.
        -- exists s'. split; [now right|exact H].
      * intros (s' & [<-|Hin] & H1 & H2 & H3).
        -- left. rewrite E in H3. injection H3 as <-. now subst.
        -- right. exists s'. auto.
    + rewrite IH. split.
      * intros (s' & Hin & H). exists s'. split; [now right|exact H].
      * intros (s' & [<-|Hin] & H1 & H2 & H3); [congruence|]. exists s'. auto.
Qed.



(** ** The registration check *)

(** X3: [validate_face_for_registration] accepts an image exactly when the
    detector finds one face in it and the encoder returns an encoding for
    that face, which is then the encoding handed back; every rejection
    hands back no encoding; an image on which the colour conversion raises
    is rejected as showing no face, and an image with several faces is
    rejected with their number in the message. *)
Theorem X3_registration_needs_one_face :
  forall (Image : Type)
         (cvtColor : Image -> outcome Image)
         (face_locations : string -> Image -> outcome (list Location))
         (face_encodings : Image -> list Location -> outcome (list Encoding))
         (face_encodings_all : Image -> outcome (list Encoding))
         (m : FaceRecognitionModule) (image : Image),
    let r := validate_face_for_registration Image cvtColor face_locations face_encodings
                                            face_encodings_all m image in
    (fst (fst r) = true <->
     exists rgb loc e rest,
       cvtColor image = Return rgb /\
       face_locations (model m) rgb = Return [loc] /\
       face_encodings rgb [loc] = Return (e :: rest) /\
       snd r = Some e) /\
    (fst (fst r) = false -> snd r = None) /\
    (forall e, cvtColor image = Raise e ->
               r = (false, "No face detected in image. Please try again.", None)) /\
    (forall rgb loc1 loc2 locs,
        cvtColor image = Return rgb ->
        face_locations (model m) rgb = Return (loc1 :: loc2 :: locs) ->
        r = (false,
             String.append "Multiple faces detected ("
               (String.append (str_of_nat (2 + List.length locs))
                  "). Please ensure only one person is in frame."),
             None)).
Proof.
  intros Image cvtColor face_locations face_encodings face_encodings_all m image r.
  subst r. unfold validate_face_for_registration, detect_faces, encode_face.
  destruct (cvtColor image) as [rgb|ex] eqn:Hc; cbn [bind].
  { cbn.
    destruct (face_locations (model m) rgb) as [[|loc1 [|loc2 locs]]|ex] eqn:Hl.
    - split; [|split; [|split]].
      + split; [discriminate|].
        intros (rgb' & loc & e & rest & H1 & H2 & _).
        injection H1 as <-. rewrite Hl in H2. discriminate H2.
      + reflexivity.
      + intros e H. discriminate H.
      + intros rgb' l1 l2 ls H1 H2. injection H1 as <-. rewrite Hl in H2. discriminate H2.
    - cbn [List.length Nat.ltb Nat.leb].
      destruct (face_encodings rgb [loc1]) as [[|e rest]|ex] eqn:He; cbn;
        (split; [|split; [|split]]);
        try (intros e' H; discriminate H);
        try (intros rgb' l1 l2 ls H1 H2; injection H1 as <-; rewrite Hl in H2;
             discriminate H2);
        try reflexivity; try discriminate.
      + split; [discriminate|].
        intros (rgb' & loc & e & rest & H1 & H2 & H3 & _).
        injection H1 as <-. rewrite Hl in H2. injection H2 as <-.
        rewrite He in H3. discriminate H3.
      + split; [intros _|reflexivity].
        exists rgb, loc1, e, rest. auto.
      + split; [discriminate|].
        intros (rgb' & loc & e & rest & H1 & H2 & H3 & _).
        injection H1 as <-. rewrite Hl in H2. injection H2 as <-.
        rewrite He in H3. discriminate H3.
    - cbn [List.length Nat.ltb Nat.leb fst snd].
      split; [|split; [|split]].
      + split; [discriminate|].
        intros (rgb' & loc & e & rest & H1 & H2 & _).
        injection H1 as <-. rewrite Hl in H2. discriminate H2.
      + reflexivity.
      + intros e H. discriminate H.
      + intros rgb' l1 l2 ls H1 H2. injection H1 as <-. rewrite Hl in H2.
        injection H2 as <- <- <-. reflexivity.
    - split; [|split; [|split]].
      + split; [discriminate|].
        intros (rgb' & loc & e & rest & H1 & H2 & _).
        injection H1 as <-. rewrite Hl in H2. discriminate H2.
      + reflexivity.
      + intros e H. discriminate H.
      + intros rgb' l1 l2 ls H1 H2. injection H1 as <-. rewrite Hl in H2. discriminate H2. }
  cbn. split; [|split; [|split]].
  - split; [discriminate|].
    intros (rgb & loc & e & rest & H & _). discriminate H.
  - reflexivity.
  - reflexivity.
  - intros rgb l1 l2 ls H. discriminate H.
Qed.

(** X3 on the sample frames: one face is accepted, two faces and a
    malformed image are rejected. *)
Lemma X3_registration_needs_one_face_witness :
  validate_face_for_registration Sample.Image Sample.cvtColor Sample.face_locations
    Sample.face_encodings Sample2.face_encodings_all Sample.loaded Sample.frame_alice
  = (true, "Face validated successfully.", Some [(4 # 10)%Q]) /\
  validate_face_for_registration Sample.Image Sample.cvtColor Sample.face_locations
    Sample.face_encodings Sample2.face_encodings_all Sample.loaded Sample2.frame_two
  = (false, "Multiple faces detected (2). Please ensure only one person is in frame.",
     None) /\
  validate_face_for_registration Sample.Image Sample.cvtColor Sample.face_locations
    Sample.face_encodings Sample2.face_encodings_all Sample.loaded Sample.malformed
  = (false, "No face detected in image. Please try again.", None).
Proof.
  split; [reflexivity|]. split.
  - apply (X3_registration_needs_one_face Sample.Image Sample.cvtColor
             Sample.face_locations Sample.face_encodings Sample2.face_encodings_all
             Sample.loaded Sample2.frame_two)
      with (rgb := Sample2.frame_two) (loc1 := Sample.box) (loc2 := Sample.box)
           (locs := []); reflexivity.
  - apply (X3_registration_needs_one_face Sample.Image Sample.cvtColor
             Sample.face_locations Sample.face_encodings Sample2.face_encodings_all
             Sample.loaded Sample.malformed)
      with (e := LibraryError "cvtColor: empty image"). reflexivity.
Defined.

(** ** The tables under the storage operations *)

Lemma filter_nonempty {A : Type} (f : A -> bool) (l : list A) :
  (0 <? List.length (filter f l))%nat = true <-> exists x, In x l /\ f x = true.
Proof.
  rewrite Nat.ltb_lt. split.
  - intros H. destruct (filter f l) as [|x l'] eqn:E; [simpl in H; lia|].
    exists x. apply filter_In. rewrite E. now left.
  - intros (x & Hin & Hf).
    assert (Hx : In x (filter f l)) by (apply filter_In; auto).
    destruct (filter f l); [destruct Hx|simpl; lia].
Qed.

Lemma count_students_pos (w : World) (sid : string) :
  (0 <? count_students w sid)%nat = true <-> In sid (map st_student_id (students w)).
Proof.
  unfold count_students. rewrite filter_nonempty, in_map_iff. split.
  - intros (s & Hin & H). apply String.eqb_eq in H. eauto.
  - intros (s & H & Hin). exists s. split; [exact Hin|]. now apply String.eqb_eq.
Qed.

Lemma count_attendance_pos (w : World) (sid : string) (date : Z) :
  (0 <? count_attendance w sid date)%nat = true <->
  In (sid, date) (map attendance_key (attendance w)).
Proof.
  unfold count_attendance. rewrite filter_nonempty, in_map_iff. split.
  - intros (r & Hin & H). apply andb_true_iff in H. destruct H as [H1 H2].
    apply String.eqb_eq in H1. apply Z.eqb_eq in H2.
    exists r. unfold attendance_key. split; [congruence|exact Hin].
  - intros (r & H & Hin). unfold attendance_key in H. injection H as H1 H2.
    exists r. split; [exact Hin|]. apply andb_true_iff.
    split; [now apply String.eqb_eq|now apply Z.eqb_eq].
Qed.

Lemma db_ok_tables (w w' : World) :
  students w' = students w -> attendance w' = attendance w -> db_ok w -> db_ok w'.
Proof.
  unfold db_ok, unique_attendance, unique_students, rows_have_students.
  intros -> ->. auto.
Qed.

(** The tables after the insertion of an attendance row for a student of
    the table, on a date on which the student has none. *)
Lemma db_ok_insert (w w' : World) (row : AttendanceRow) :
  students w' = students w ->
  attendance w' = attendance w ++ [row] ->
  (0 <? count_attendance w (att_student_id row) (att_date row))%nat = false ->
  In (att_student_id row) (map st_student_id (students w)) ->
  db_ok w -> db_ok w'.
Proof.
  unfold db_ok, unique_attendance, unique_students, rows_have_students.
  intros Hs Ha Hnew Hst (Hu & Hus & Hr). rewrite Hs, Ha. split; [|split].
  - rewrite map_app. apply NoDup_app; [exact Hu|repeat constructor; intros []|].
    intros k Hk [<-|[]].
    apply (count_attendance_pos w) in Hk. congruence.
  - exact Hus.
  - intros r Hin. apply in_app_or in Hin. destruct Hin as [Hin|[<-|[]]]; auto.
Qed.

Lemma NoDup_map_filter {Row Key : Type} (key : Row -> Key) (keep : Row -> bool)
    (rows : list Row) :
  NoDup (map key rows) -> NoDup (map key (filter keep rows)).
Proof.
  intros Hnodup. induction rows as [|row rows IH]; cbn; [constructor|].
  cbn in Hnodup. apply NoDup_cons_iff in Hnodup. destruct Hnodup as [Hfresh Hrest].
  destruct (keep row); cbn; [|now apply IH].
  apply NoDup_cons_iff. split; [|now apply IH].
  intros Hin. apply Hfresh. apply in_map_iff in Hin.
  destruct Hin as (other & Hkey & Hin). apply filter_In in Hin.
  apply in_map_iff. exists other. tauto.
Qed.

(** What each storage operation does to the tables. *)

Lemma student_exists_tables (sid : string) (w : World) :
  students (snd (student_exists sid w)) = students w /\
  attendance (snd (student_exists sid w)) = attendance w.
Proof. now rewrite student_exists_answer. Qed.

Lemma db_mark_attendance_tables (sid : string) (date time : option Z) (status : string)
    (w : World) :
  let r := db_mark_attendance sid date time status w in
  students (snd r) = students w /\
  (fst r = false -> attendance (snd r) = attendance w) /\
  (fst r = true ->
   exists d t,
     attendance (snd r) = attendance w ++ [mkRow sid d t status] /\
     (0 <? count_attendance w sid d)%nat = false /\
     (forall d0, date = Some d0 -> d = d0) /\
     (forall t0, time = Some t0 -> t = t0)).
Proof.
  unfold db_mark_attendance, default_date, default_time, sbind, datetime_now,
    get_connection, get_world, insert_attendance, violates_unique, ret.
  destruct date as [d0|]; destruct time as [t0|]; cbn;
    match goal with |- context [fault_at w ?n] => destruct (fault_at w n) end; cbn;
    try (split; [reflexivity|split; [reflexivity|discriminate]]);
    unfold count_attendance; cbn;
    match goal with
    | |- context [filter ?f (attendance w)] =>
        destruct (List.length (filter f (attendance w))) eqn:E
    end; cbn;
    try (split; [reflexivity|split; [reflexivity|discriminate]]);
    (split; [reflexivity|split; [discriminate|]]); intros _;
    eexists; eexists; (split; [reflexivity|]);
    (split; [cbn; rewrite E; reflexivity|]);
    split; intros x H; congruence.
Qed.

Lemma add_student_answer (sid nm : string) (enc : option Encoding) (w : World) :
  add_student sid nm enc w =
  if negb (fault_at w (connections w)) && negb (0 <? count_students w sid)%nat
  then (true,
        mkWorld (students w ++ [mkStudent sid nm enc]) (attendance w)
                (S (connections w)) (fault_at w) (clock w) (ticks w))
  else (false, advance w 1 0).
Proof.
  unfold add_student, sbind, get_connection, get_world, set_tables, ret, advance. cbn.
  destruct (fault_at w (connections w)); [reflexivity|]. cbn.
  unfold count_students. cbn.
  now destruct (List.length (filter _ (students w))).
Qed.

Lemma delete_student_answer (sid : string) (w : World) :
  delete_student sid w =
  if fault_at w (connections w) then (false, advance w 1 0)
  else (true,
        mkWorld (filter (fun s => negb (String.eqb (st_student_id s) sid)) (students w))
                (filter (fun r => negb (String.eqb (att_student_id r) sid)) (attendance w))
                (S (connections w)) (fault_at w) (clock w) (ticks w)).
Proof.
  unfold delete_student, sbind, get_connection, get_world, set_tables, ret, advance. cbn.
  now destruct (fault_at w (connections w)).
Qed.

Lemma update_attendance_status_answer (sid : string) (date : Z) (status : string)
    (w : World) :
  update_attendance_status sid date status w =
  if fault_at w (connections w) then (false, advance w 1 0)
  else (true,
        mkWorld (students w)
                (map (fun r => if row_is sid date r
                               then mkRow (att_student_id r) (att_date r) (att_time r) status
                               else r)
                     (attendance w))
                (S (connections w)) (fault_at w) (clock w) (ticks w)).
Proof.
  unfold update_attendance_status, sbind, get_connection, get_world, set_tables, ret,
    advance. cbn.
  now destruct (fault_at w (connections w)).
Qed.

Lemma delete_attendance_record_answer (sid : string) (date : Z) (w : World) :
  delete_attendance_record sid date w =
  if fault_at w (connections w) then (false, advance w 1 0)
  else (true,
        mkWorld (students w)
                (filter (fun r => negb (row_is sid date r)) (attendance w))
                (S (connections w)) (fault_at w) (clock w) (ticks w)).
Proof.
  unfold delete_attendance_record, sbind, get_connection, get_world, set_tables, ret,
    advance. cbn.
  now destruct (fault_at w (connections w)).
Qed.

Lemma clear_all_data_answer (w : World) :
  clear_all_data w =
  if fault_at w (connections w) then (false, advance w 1 0)
  else (true, mkWorld [] [] (S (connections w)) (fault_at w) (clock w) (ticks w)).
Proof.
  unfold clear_all_data, sbind, get_connection, set_tables, ret, advance. cbn.
  now destruct (fault_at w (connections w)).
Qed.

Lemma db_ok_add_student (sid nm : string) (enc : option Encoding) (w : World) :
  db_ok w -> db_ok (snd (add_student sid nm enc w)).
Proof.
  intros Hok. rewrite add_student_answer.
  destruct (negb (fault_at w (connections w))); cbn [andb]; [|exact Hok].
  destruct (0 <? count_students w sid)%nat eqn:E; cbn [negb snd]; [exact Hok|].
  destruct Hok as (Hu & Hus & Hr). split; [exact Hu|split].
  - unfold unique_students in *. cbn [students]. rewrite map_app.
    apply NoDup_app; [exact Hus|repeat constructor; intros []|].
    intros k Hk [<-|[]]. apply (count_students_pos w) in Hk.
    cbn [st_student_id] in Hk. congruence.
  - intros r Hin. cbn [students attendance] in *. rewrite map_app.
    apply in_or_app. left. now apply Hr.
Qed.

Lemma db_ok_delete_student (sid : string) (w : World) :
  db_ok w -> db_ok (snd (delete_student sid w)).
Proof.
  intros Hok. rewrite delete_student_answer.
  destruct (fault_at w (connections w)); [exact Hok|].
  destruct Hok as (Hu & Hus & Hr). cbn [snd]. split; [|split].
  - unfold unique_attendance in *. cbn [attendance]. now apply NoDup_map_filter.
  - unfold unique_students in *. cbn [students]. now apply NoDup_map_filter.
  - intros r Hin. cbn [students attendance] in *.
    apply filter_In in Hin. destruct Hin as [Hin Hneq].
    specialize (Hr r Hin). apply in_map_iff in Hr. destruct Hr as (s & Hs & Hsin).
    apply in_map_iff. exists s. split; [exact Hs|].
    apply filter_In. split; [exact Hsin|]. now rewrite Hs.
Qed.

Lemma db_ok_update_attendance_status (sid : string) (date : Z) (status : string)
    (w : World) :
  db_ok w -> db_ok (snd (update_attendance_status sid date status w)).
Proof.
  intros Hok. rewrite update_attendance_status_answer.
  destruct (fault_at w (connections w)); [exact Hok|].
  destruct Hok as (Hu & Hus & Hr). cbn [snd]. split; [|split].
  - unfold unique_attendance in *. cbn [attendance]. rewrite map_map.
    erewrite map_ext; [exact Hu|]. intros r. now destruct (row_is sid date r).
  - exact Hus.
  - intros r Hin. cbn [students attendance] in *.
    apply in_map_iff in Hin. destruct Hin as (r0 & <- & Hin).
    specialize (Hr r0 Hin). now destruct (row_is sid date r0).
Qed.

Lemma db_ok_delete_attendance_record (sid : string) (date : Z) (w : World) :
  db_ok w -> db_ok (snd (delete_attendance_record sid date w)).
Proof.
  intros Hok. rewrite delete_attendance_record_answer.
  destruct (fault_at w (connections w)); [exact Hok|].
  destruct Hok as (Hu & Hus & Hr). cbn [snd]. split; [|split].
  - unfold unique_attendance in *. cbn [attendance]. now apply NoDup_map_filter.
  - exact Hus.
  - intros r Hin. cbn [students attendance] in *.
    apply filter_In in Hin. now apply Hr.
Qed.

Lemma db_ok_clear_all_data (w : World) : db_ok w -> db_ok (snd (clear_all_data w)).
Proof.
  intros Hok. rewrite clear_all_data_answer.
  destruct (fault_at w (connections w)); [exact Hok|].
  split; [constructor|split; [constructor|intros r []]].
Qed.

Lemma db_ok_advance (w : World) (a b : nat) : db_ok w -> db_ok (advance w a b).
Proof. now apply db_ok_tables. Qed.

Lemma db_ok_mark_attendance (sid status : string) (w : World) :
  db_ok w -> db_ok (snd (mark_attendance sid status w)).
Proof.
  intros Hok. pose proof (mark_attendance_cases sid status w) as H. cbv zeta in H.
  destruct (negb (fault_at w (connections w)) && (0 <? count_students w sid)%nat)
    eqn:Hex; cbn [negb] in H.
  2:{ rewrite H. now apply db_ok_advance. }
  destruct (negb (fault_at w (S (connections w))) && _) eqn:Hm in H.
  { rewrite H. now apply db_ok_advance. }
  destruct (negb (fault_at w (S (S (connections w)))) && _) eqn:Hi in H.
  2:{ rewrite H. now apply db_ok_advance. }
  destruct H as [msg H]. rewrite H. cbn [snd].
  apply andb_true_iff in Hex. destruct Hex as [_ Hex].
  apply andb_true_iff in Hi. destruct Hi as [_ Hi]. apply negb_true_iff in Hi.
  eapply (db_ok_insert w); [reflexivity|reflexivity|exact Hi| |exact Hok].
  now apply count_students_pos.
Qed.

Lemma db_ok_manual_attendance_entry (sid : string) (date time : Z) (status : string)
    (w : World) :
  db_ok w -> db_ok (snd (manual_attendance_entry sid date time status w)).
Proof.
  intros Hok. unfold manual_attendance_entry, sbind.
  rewrite student_exists_answer.
  destruct (negb (fault_at w (connections w)) && (0 <? count_students w sid)%nat)
    eqn:Hex; cbn [negb].
  2:{ now apply db_ok_advance. }
  pose proof (db_mark_attendance_tables sid (Some date) (Some time) status
                                        (advance w 1 0)) as H.
  cbv zeta in H.
  destruct (db_mark_attendance sid (Some date) (Some time) status (advance w 1 0))
    as [[|] w'] eqn:E; cbn [fst snd] in H |- *; destruct H as (Hs & Hf & Ht).
  - destruct (Ht eq_refl) as (d & t & Ha & Hnew & _ & _).
    apply andb_true_iff in Hex. destruct Hex as [_ Hex].
    eapply (db_ok_insert (advance w 1 0)); [exact Hs|exact Ha|exact Hnew| |now apply db_ok_advance].
    now apply count_students_pos.
  - eapply db_ok_tables; [exact Hs|exact (Hf eq_refl)|now apply db_ok_advance].
Qed.

Lemma db_ok_mark_attendance_for_student (tab : AttendanceTab) (sid nm : string)
    (w : World) :
  db_ok w -> db_ok (snd (_mark_attendance_for_student tab sid nm w)).
Proof.
  intros Hok. rewrite mark_attendance_for_student_cases.
  pose proof (db_ok_mark_attendance sid "Present" (advance w 0 1)
                (db_ok_advance w 0 1 Hok)) as H.
  destruct (recently_marked tab sid (clock w (ticks w))); [now apply db_ok_advance|].
  destruct (fst (fst (mark_attendance sid "Present" (advance w 0 1)))); cbn [snd];
    [now apply db_ok_advance|exact H].
Qed.

(** X4: the operations that write to the tables keep them sound: at most
    one attendance row per (student_id, date), at most one student row per
    student_id, and no attendance row without its student.  This holds for
    the operations of the storage layer, for both ways of marking in the
    attendance manager and for the offer of the attendance tab, whether or
    not a connection fails on the way. *)
Theorem X4_tables_stay_sound :
  forall w : World,
    db_ok w ->
    (forall sid nm enc, db_ok (snd (add_student sid nm enc w))) /\
    (forall sid, db_ok (snd (delete_student sid w))) /\
    db_ok (snd (clear_all_data w)) /\
    (forall sid date status, db_ok (snd (update_attendance_status sid date status w))) /\
    (forall sid date, db_ok (snd (delete_attendance_record sid date w))) /\
    (forall sid status, db_ok (snd (mark_attendance sid status w))) /\
    (forall sid date time status,
        db_ok (snd (manual_attendance_entry sid date time status w))) /\
    (forall tab sid nm, db_ok (snd (_mark_attendance_for_student tab sid nm w))).
Proof.
  intros w Hok.
  split; [intros; now apply db_ok_add_student|].
  split; [intros; now apply db_ok_delete_student|].
  split; [now apply db_ok_clear_all_data|].
  split; [intros; now apply db_ok_update_attendance_status|].
  split; [intros; now apply db_ok_delete_attendance_record|].
  split; [intros; now apply db_ok_mark_attendance|].
  split; [intros; now apply db_ok_manual_attendance_entry|].
  intros. now apply db_ok_mark_attendance_for_student.
Qed.

(** The soundness of concrete tables, by evaluation. *)
Ltac tables_sound :=
  split; [|split];
  [ unfold unique_attendance; cbn; repeat constructor; cbn; intuition discriminate
  | unfold unique_students; cbn; repeat constructor; cbn; intuition discriminate
  | let r := fresh "r" in
    let Hin := fresh "Hin" in
    intros r Hin; cbn in Hin |- *;
    repeat (destruct Hin as [<-|Hin]; [cbn; auto 10|]); destruct Hin ].

(** X4 on the sample tables: Bob marked a second time by hand on day
    20000, and Alice deleted. *)
Lemma X4_tables_stay_sound_witness :
  db_ok (snd (manual_attendance_entry "S2" 20000 40000 "Late" Sample2.world_rows)) /\
  db_ok (snd (delete_student "S1" Sample2.world_rows)).
Proof.
  assert (Hok : db_ok Sample2.world_rows) by tables_sound.
  destruct (X4_tables_stay_sound Sample2.world_rows Hok)
    as (_ & Hdel & _ & _ & _ & _ & Hman & _).
  split; [apply Hman|apply Hdel].
Defined.

(** ** Marking twice *)

(** X5: once [mark_attendance] has marked a student, a second call for
    the same student -- even from a fresh process, with no recency buffer
    -- whose two reads succeed and whose clock still shows the day of the
    inserted row answers "Attendance already marked for today." and
    leaves the tables as they are. *)
Theorem X5_second_mark_same_day_refused :
  forall (w : World) (sid : string),
    let first := mark_attendance sid "Present" w in
    let w1 := snd first in
    fst (fst first) = true ->
    fault_at w1 (connections w1) = false ->
    fault_at w1 (S (connections w1)) = false ->
    strftime_date (clock w1 (ticks w1)) = strftime_date (clock w (S (ticks w))) ->
    mark_attendance sid "Present" w1 =
    ((false, "Attendance already marked for today."), advance w1 2 1) /\
    outcome_of (Some (fst (mark_attendance sid "Present" w1)))
    = SuppressedAlreadyMarkedToday /\
    attendance (snd (mark_attendance sid "Present" w1)) = attendance w1.
Proof.
  intros w sid first w1 Hfirst Hf1 Hf2 Hday.
  assert (Hshape :
            In sid (map st_student_id (students w1)) /\
            In (sid, strftime_date (clock w (S (ticks w))))
               (map attendance_key (attendance w1))).
  { subst w1 first.
    pose proof (mark_attendance_cases sid "Present" w) as H. cbv zeta in H.
    destruct (negb (fault_at w (connections w)) && (0 <? count_students w sid)%nat)
      eqn:Hex; cbn [negb] in H.
    2:{ rewrite H in Hfirst. discriminate Hfirst. }
    destruct (negb (fault_at w (S (connections w))) && _) eqn:Hm in H.
    { rewrite H in Hfirst. discriminate Hfirst. }
    destruct (negb (fault_at w (S (S (connections w)))) && _) eqn:Hi in H.
    2:{ rewrite H in Hfirst. discriminate Hfirst. }
    destruct H as [msg H]. rewrite H. cbn [snd students attendance].
    apply andb_true_iff in Hex. destruct Hex as [_ Hex].
    split; [now apply count_students_pos|].
    rewrite map_app. apply in_or_app. right. now left. }
  destruct Hshape as [Hst Hrow].
  clearbody w1. clear first Hfirst.
  pose proof (mark_attendance_cases sid "Present" w1) as H. cbv zeta in H.
  apply count_students_pos in Hst. rewrite <- Hday in Hrow.
  apply count_attendance_pos in Hrow.
  rewrite Hf1, Hst, Hf2, Hrow in H. cbn [negb andb] in H.
  rewrite H. repeat split.
Qed.

(** X5 on the sample world: Alice offered twice at noon. *)
Lemma X5_second_mark_same_day_refused_witness :
  mark_attendance "S1" "Present" (snd (mark_attendance "S1" "Present" Sample.world0)) =
  ((false, "Attendance already marked for today."),
   advance (snd (mark_attendance "S1" "Present" Sample.world0)) 2 1).
Proof.
  apply (X5_second_mark_same_day_refused Sample.world0 "S1"); reflexivity.
Defined.

(** ** Students: registration, lookup, deletion *)

Lemma find_app_last {A : Type} (f : A -> bool) (l : list A) (x : A) :
  (forall y, In y l -> f y = false) -> f x = true -> find f (l ++ [x]) = Some x.
Proof.
  intros Hl Hx. induction l as [|y l IH]; cbn.
  - now rewrite Hx.
  - rewrite (Hl y (or_introl eq_refl)). apply IH. intros z Hz. apply Hl. now right.
Qed.

Lemma get_all_students_answer (w : World) :
  get_all_students w =
  (if fault_at w (connections w) then [] else sort_by by_name (students w),
   advance w 1 0).
Proof.
  unfold get_all_students, sbind, get_connection, get_world, ret, advance. cbn.
  now destruct (fault_at w (connections w)).
Qed.

(** X6: [add_student] stores a new student exactly when the connection
    works and the id is not in the table yet; a refused insertion changes
    no table.  After a stored insertion, and as long as the reads succeed,
    [student_exists] answers True, [get_student] returns the stored record,
    and [_reload_faces] puts the student's face into the gallery. *)
Theorem X6_registered_student_is_found :
  forall (w : World) (sid nm : string) (enc : option Encoding),
    let r := add_student sid nm enc w in
    let w' := snd r in
    (fst r = true <->
     fault_at w (connections w) = false /\ ~ In sid (map st_student_id (students w))) /\
    (fst r = false -> students w' = students w) /\
    attendance w' = attendance w /\
    (fst r = true ->
     fault_at w' (connections w') = false ->
     fst (student_exists sid w') = true /\
     fst (get_student sid w') = Some (mkStudent sid nm enc) /\
     forall m e, enc = Some e -> In (sid, nm, e) (gallery (fst (_reload_faces m w')))).
Proof.
  intros w sid nm enc r w'. subst w' r. rewrite add_student_answer.
  destruct (fault_at w (connections w)) eqn:Hf; cbn [negb andb fst snd].
  { split; [|split; [|split]]; try reflexivity; try discriminate.
    split; [discriminate|intros [H _]; discriminate H]. }
  destruct (0 <? count_students w sid)%nat eqn:Hc; cbn [negb fst snd].
  { split; [|split; [|split]]; try reflexivity; try discriminate.
    split; [discriminate|]. intros [_ H]. exfalso. apply H.
    now apply count_students_pos. }
  assert (Hnew : ~ In sid (map st_student_id (students w))).
  { intros H. apply count_students_pos in H. congruence. }
  split; [|split; [|split]]; try reflexivity; try discriminate.
  { split; auto. }
  intros _ Hf'. cbn [connections fault_at] in Hf'.
  rewrite student_exists_answer, get_student_answer.
  cbn [fst connections fault_at students]. rewrite Hf'. cbn [negb andb].
  split; [|split].
  - apply count_students_pos. cbn [students]. rewrite map_app.
    apply in_or_app. right. now left.
  - apply find_app_last.
    + intros s Hs. apply String.eqb_neq. intros Heq. apply Hnew.
      apply in_map_iff. eauto.
    + apply String.eqb_refl.
  - intros m e ->. unfold _reload_faces, sbind, ret.
    rewrite get_all_students_answer. cbn [fst connections fault_at students].
    rewrite Hf'. rewrite gallery_load_known_faces. apply In_triples.
    exists (mkStudent sid nm (Some e)). split; [|auto].
    apply In_sort_by. apply in_or_app. right. now left.
Qed.

(** X6 on the sample world: Dave is registered and found. *)
Lemma X6_registered_student_is_found_witness :
  fst (get_student "S4" (snd (add_student "S4" "Dave" (Some [(1 # 2)%Q]) Sample.world0)))
  = Some (mkStudent "S4" "Dave" (Some [(1 # 2)%Q])) /\
  In ("S4", "Dave", [(1 # 2)%Q])
     (gallery (fst (_reload_faces default_module
                      (snd (add_student "S4" "Dave" (Some [(1 # 2)%Q]) Sample.world0))))).
Proof.
  destruct (X6_registered_student_is_found Sample.world0 "S4" "Dave" (Some [(1 # 2)%Q]))
    as (_ & _ & _ & H).
  destruct (H eq_refl eq_refl) as (_ & H2 & H3).
  split; [exact H2|]. now apply H3.
Defined.

(** X7: [delete_student] on a working connection removes every student
    row and every attendance row of the id and nothing else, so that the
    student is neither found nor marked on any date afterwards; when the
    connection fails it answers False and removes nothing. *)
Theorem X7_delete_student_removes_all_rows :
  forall (w : World) (sid : string),
    let r := delete_student sid w in
    let w' := snd r in
    (fault_at w (connections w) = true ->
     fst r = false /\ students w' = students w /\ attendance w' = attendance w) /\
    (fault_at w (connections w) = false ->
     fst r = true /\
     count_students w' sid = 0%nat /\
     (forall date, count_attendance w' sid date = 0%nat) /\
     (forall s, In s (students w') <-> In s (students w) /\ st_student_id s <> sid) /\
     (forall row, In row (attendance w') <->
                  In row (attendance w) /\ att_student_id row <> sid)).
Proof.
  intros w sid r w'. subst w' r. rewrite delete_student_answer.
  split; intros Hf; rewrite Hf; cbn [fst snd students attendance]; [auto|].
  assert (Hst : forall s,
            In s (filter (fun s => negb (String.eqb (st_student_id s) sid)) (students w))
            <-> In s (students w) /\ st_student_id s <> sid).
  { intros s. rewrite filter_In, negb_true_iff, String.eqb_neq. reflexivity. }
  assert (Hrow : forall row,
            In row (filter (fun r => negb (String.eqb (att_student_id r) sid))
                           (attendance w))
            <-> In row (attendance w) /\ att_student_id row <> sid).
  { intros row. rewrite filter_In, negb_true_iff, String.eqb_neq. reflexivity. }
  split; [reflexivity|]. split; [|split; [|split; [exact Hst|exact Hrow]]].
  - unfold count_students. cbn [students].
    destruct (filter _ (filter _ (students w))) as [|s l] eqn:E; [reflexivity|].
    assert (Hin : In s (s :: l)) by now left. rewrite <- E in Hin.
    apply filter_In in Hin. destruct Hin as [Hin Heq].
    apply Hst in Hin. apply String.eqb_eq in Heq. tauto.
  - intros date. unfold count_attendance. cbn [attendance].
    destruct (filter _ (filter _ (attendance w))) as [|x l] eqn:E; [reflexivity|].
    assert (Hin : In x (x :: l)) by now left. rewrite <- E in Hin.
    apply filter_In in Hin. destruct Hin as [Hin Heq].
    apply Hrow in Hin. apply andb_true_iff in Heq. destruct Heq as [Heq _].
    apply String.eqb_eq in Heq. tauto.
Qed.

Lemma X7_delete_student_removes_all_rows_witness :
  fst (delete_student "S1" Sample2.world_rows) = true /\
  attendance (snd (delete_student "S1" Sample2.world_rows))
  = [mkRow "S2" 20000 32460 "Present"] /\
  fst (delete_student "S1" Sample2.world_down) = false.
Proof.
  destruct (X7_delete_student_removes_all_rows Sample2.world_rows "S1") as [_ H].
  destruct (X7_delete_student_removes_all_rows Sample2.world_down "S1") as [H' _].
  split; [apply (H eq_refl)|]. split; [reflexivity|apply (H' eq_refl)].
Defined.

(** ** Editing attendance rows *)

(** X8: on a working connection [update_attendance_status] answers True
    whether or not a row exists for the student and the date; it leaves
    the student, the date and the time of every row alone, gives the rows
    of that student and date the new status and keeps the status of all
    others; without such a row the table is unchanged. *)
Theorem X8_update_status_touches_one_key :
  forall (w : World) (sid : string) (date : Z) (status : string),
    fault_at w (connections w) = false ->
    let r := update_attendance_status sid date status w in
    let w' := snd r in
    fst r = true /\
    students w' = students w /\
    map attendance_key (attendance w') = map attendance_key (attendance w) /\
    map att_time (attendance w') = map att_time (attendance w) /\
    (forall i row row',
        nth_error (attendance w) i = Some row ->
        nth_error (attendance w') i = Some row' ->
        att_status row' = if row_is sid date row then status else att_status row) /\
    (~ In (sid, date) (map attendance_key (attendance w)) ->
     attendance w' = attendance w).
Proof.
  intros w sid date status Hf r w'. subst w' r.
  rewrite update_attendance_status_answer, Hf. cbn [fst snd students attendance].
  split; [reflexivity|]. split; [reflexivity|].
  split; [|split; [|split]].
  - rewrite map_map. apply map_ext. intros x. now destruct (row_is sid date x).
  - rewrite map_map. apply map_ext. intros x. now destruct (row_is sid date x).
  - intros i row row' H1 H2. rewrite nth_error_map, H1 in H2. cbn in H2.
    injection H2 as <-. now destruct (row_is sid date row).
  - intros Hnot. rewrite <- (map_id (attendance w)) at 2.
    apply map_ext_in. intros x Hx.
    destruct (row_is sid date x) eqn:E; [|reflexivity].
    exfalso. apply Hnot. apply in_map_iff. exists x. split; [|exact Hx].
    unfold row_is in E. apply andb_true_iff in E. destruct E as [E1 E2].
    apply String.eqb_eq in E1. apply Z.eqb_eq in E2. unfold attendance_key. congruence.
Qed.

Lemma X8_update_status_touches_one_key_witness :
  fst (update_attendance_status "S3" 20000 "Absent" Sample2.world_rows) = true /\
  attendance (snd (update_attendance_status "S3" 20000 "Absent" Sample2.world_rows))
  = attendance Sample2.world_rows /\
  map att_status
      (attendance (snd (update_attendance_status "S1" 20001 "Present" Sample2.world_rows)))
  = ["Present"; "Present"; "Present"].
Proof.
  destruct (X8_update_status_touches_one_key Sample2.world_rows "S3" 20000 "Absent"
              eq_refl) as (H1 & _ & _ & _ & _ & H6).
  split; [exact H1|]. split; [|reflexivity].
  apply H6. cbn. intuition discriminate.
Defined.

Lemma filter_other_key (sid sid' : string) (date date' : Z) (l : list AttendanceRow) :
  (sid', date') <> (sid, date) ->
  filter (fun r => String.eqb (att_student_id r) sid' && (att_date r =? date')%Z)
         (filter (fun r => negb (row_is sid date r)) l) =
  filter (fun r => String.eqb (att_student_id r) sid' && (att_date r =? date')%Z) l.
Proof.
  intros Hne. induction l as [|x l IH]; [reflexivity|]. cbn [filter].
  destruct (row_is sid date x) eqn:E; cbn [negb filter].
  - rewrite IH.
    destruct (String.eqb (att_student_id x) sid' && (att_date x =? date')%Z) eqn:E';
      [|reflexivity].
    exfalso. apply Hne. unfold row_is in E.
    apply andb_true_iff in E. destruct E as [E1 E2].
    apply andb_true_iff in E'. destruct E' as [E3 E4].
    apply String.eqb_eq in E1. apply String.eqb_eq in E3.
    apply Z.eqb_eq in E2. apply Z.eqb_eq in E4. congruence.
  - now rewrite IH.
Qed.

(** X9: on a working connection [delete_attendance_record] answers True
    whether or not there was a row; afterwards the student is not marked
    on that date, while every other (student, date) is marked exactly as
    before, and a manual entry for the student and the date is accepted
    again if the student is in the table and the connections work. *)
Theorem X9_deleted_record_can_be_entered_again :
  forall (w : World) (sid : string) (date : Z),
    fault_at w (connections w) = false ->
    let r := delete_attendance_record sid date w in
    let w' := snd r in
    fst r = true /\
    students w' = students w /\
    count_attendance w' sid date = 0%nat /\
    (forall sid' date', (sid', date') <> (sid, date) ->
                        count_attendance w' sid' date' = count_attendance w sid' date') /\
    (forall time status,
        In sid (map st_student_id (students w)) ->
        fault_at w' (connections w') = false ->
        fault_at w' (S (connections w')) = false ->
        fst (manual_attendance_entry sid date time status w')
        = (true, "Attendance recorded successfully.") /\
        attendance (snd (manual_attendance_entry sid date time status w'))
        = attendance w' ++ [mkRow sid date time status]).
Proof.
  intros w sid date Hf r w'. subst w' r.
  rewrite delete_attendance_record_answer, Hf. cbn [fst snd students].
  set (w' := mkWorld _ _ _ _ _ _).
  assert (Hzero : count_attendance w' sid date = 0%nat).
  { unfold count_attendance, w'. cbn [attendance].
    destruct (filter _ (filter _ (attendance w))) as [|x l] eqn:E; [reflexivity|].
    assert (Hin : In x (x :: l)) by now left. rewrite <- E in Hin.
    apply filter_In in Hin. destruct Hin as [Hin Heq].
    apply filter_In in Hin. destruct Hin as [_ Hneq].
    unfold row_is in Hneq. rewrite Heq in Hneq. discriminate Hneq. }
  split; [reflexivity|]. split; [reflexivity|]. split; [exact Hzero|]. split.
  - intros sid' date' Hne. unfold count_attendance, w'. cbn [attendance].
    f_equal. now apply filter_other_key.
  - intros time status Hst Hf1 Hf2.
    unfold manual_attendance_entry, sbind. rewrite student_exists_answer.
    assert (Hst' : (0 <? count_students w' sid)%nat = true).
    { apply count_students_pos. exact Hst. }
    rewrite Hf1, Hst'. cbn [negb andb].
    unfold db_mark_attendance, default_date, default_time, sbind, get_connection,
      get_world, insert_attendance, violates_unique, ret.
    cbn [advance connections fault_at Nat.add students attendance clock ticks].
    rewrite Hf2. cbn [negb].
    change (count_attendance _ sid date) with (count_attendance w' sid date).
    rewrite Hzero. cbn. split; reflexivity.
Qed.

Lemma X9_deleted_record_can_be_entered_again_witness :
  count_attendance (snd (delete_attendance_record "S1" 20000 Sample2.world_rows))
                   "S1" 20000 = 0%nat /\
  fst (manual_attendance_entry "S1" 20000 50000 "Late"
         (snd (delete_attendance_record "S1" 20000 Sample2.world_rows)))
  = (true, "Attendance recorded successfully.").
Proof.
  destruct (X9_deleted_record_can_be_entered_again Sample2.world_rows "S1" 20000 eq_refl)
    as (_ & _ & H3 & _ & H5).
  split; [exact H3|].
  apply (H5 50000%Z "Late"); [cbn; auto|reflexivity|reflexivity].
Defined.

(** ** The statistics of a day *)

Lemma NoDup_map_coarser {A B C : Type} (f : A -> B) (g : A -> C) (l : list A) :
  (forall x y, In x l -> In y l -> g x = g y -> f x = f y) ->
  NoDup (map f l) -> NoDup (map g l).
Proof.
  induction l as [|x l IH]; cbn; intros Hinj H; [constructor|].
  inversion H as [|? ? Hnotin Hnodup]; subst. constructor.
  - intros Hin. apply Hnotin. apply in_map_iff in Hin.
    destruct Hin as (y & Hy & Hin). apply in_map_iff. exists y. split; [|exact Hin].
    apply Hinj; auto.
  - apply IH; [|exact Hnodup]. intros y z Hy Hz. apply Hinj; auto.
Qed.

(** In sound tables the rows of one date are no more than the students. *)
Lemma rows_of_date_le_students (w : World) (date : Z) (p : AttendanceRow -> bool) :
  db_ok w ->
  (List.length (filter (fun r => (att_date r =? date)%Z && p r) (attendance w))
   <= List.length (students w))%nat.
Proof.
  intros (Hu & _ & Hr).
  set (rows := filter (fun r => (att_date r =? date)%Z && p r) (attendance w)).
  rewrite <- (length_map att_student_id rows), <- (length_map st_student_id (students w)).
  apply NoDup_incl_length.
  - apply (NoDup_map_coarser attendance_key).
    + intros x y Hx Hy Heq. apply filter_In in Hx. apply filter_In in Hy.
      destruct Hx as [_ Hx]. destruct Hy as [_ Hy].
      apply andb_true_iff in Hx. apply andb_true_iff in Hy.
      destruct Hx as [Hx _]. destruct Hy as [Hy _].
      apply Z.eqb_eq in Hx. apply Z.eqb_eq in Hy. unfold attendance_key. congruence.
    + now apply NoDup_map_filter.
  - intros sid Hin. apply in_map_iff in Hin. destruct Hin as (r & <- & Hin).
    apply filter_In in Hin. apply Hr. tauto.
Qed.

Lemma percent_in_range (p t : Z) :
  (0 <= p <= t)%Z -> (0 < t)%Z ->
  (0 <= inject_Z p / inject_Z t * 100 /\ inject_Z p / inject_Z t * 100 <= 100)%Q.
Proof.
  intros Hp Ht.
  assert (Ht' : (0 < inject_Z t)%Q).
  { change 0%Q with (inject_Z 0). rewrite <- Zlt_Qlt. exact Ht. }
  assert (H0 : (0 <= inject_Z p / inject_Z t)%Q).
  { apply Qle_shift_div_l; [exact Ht'|]. rewrite Qmult_0_l.
    change 0%Q with (inject_Z 0). rewrite <- Zle_Qle. lia. }
  assert (H1 : (inject_Z p / inject_Z t <= 1)%Q).
  { apply Qle_shift_div_r; [exact Ht'|]. rewrite Qmult_1_l.
    rewrite <- Zle_Qle. lia. }
  split; lra.
Qed.

Lemma get_total_students_answer (w : World) :
  get_total_students w =
  (if fault_at w (connections w) then 0%Z else Z.of_nat (List.length (students w)),
   advance w 1 0).
Proof.
  unfold get_total_students, sbind, get_connection, get_world, ret, advance. cbn.
  now destruct (fault_at w (connections w)).
Qed.

Lemma get_present_count_answer (date : option Z) (w : World) :
  exists d k,
    (forall d0, date = Some d0 -> d = d0) /\
    (date = None -> d = strftime_date (clock w (ticks w))) /\
    get_present_count date w =
    (if fault_at w (connections w) then 0%Z
     else Z.of_nat (List.length
            (filter (fun r => (att_date r =? d)%Z && String.eqb (att_status r) "Present")
                    (attendance w))),
     advance w 1 k).
Proof.
  destruct date as [d0|].
  - exists d0, 0%nat. split; [congruence|]. split; [discriminate|].
    unfold get_present_count, default_date, sbind, get_connection, get_world, ret,
      advance. cbn.
    now destruct (fault_at w (connections w)).
  - exists (strftime_date (clock w (ticks w))), 1%nat.
    split; [discriminate|]. split; [reflexivity|].
    unfold get_present_count, default_date, sbind, datetime_now, get_connection,
      get_world, ret, advance. cbn.
    now destruct (fault_at w (connections w)).
Qed.

(** X10: on sound tables and with both reads succeeding, the statistics
    of a date (today when none is given) are consistent: the total is the number of students, the
    present are the rows of that date with status Present, no more than
    the total; absent is total minus present and is not negative; and the
    percentage lies between 0 and 100, given that [round] keeps values of
    that range inside it.  No division by zero happens for an empty
    student table. *)
Theorem X10_statistics_are_consistent :
  forall (round2 : Q -> Q) (w : World) (date_str : option Z),
    (forall x, (0 <= x /\ x <= 100)%Q -> (0 <= round2 x /\ round2 x <= 100)%Q) ->
    db_ok w ->
    fault_at w (connections w) = false ->
    fault_at w (S (connections w)) = false ->
    let s := fst (get_attendance_statistics round2 date_str w) in
    let date := match date_str with
                | Some d => d
                | None => strftime_date (clock w (ticks w))
                end in
    total_students s = Z.of_nat (List.length (students w)) /\
    present s = Z.of_nat (List.length
                  (filter (fun r => (att_date r =? date)%Z
                                    && String.eqb (att_status r) "Present")
                          (attendance w))) /\
    (0 <= present s <= total_students s)%Z /\
    absent s = (total_students s - present s)%Z /\
    (0 <= absent s)%Z /\
    (0 <= percentage s /\ percentage s <= 100)%Q.
Proof.
  intros round2 w date_str Hround Hok Hf1 Hf2 s date. subst s.
  unfold get_attendance_statistics, sbind, ret.
  rewrite get_total_students_answer, Hf1.
  destruct (get_present_count_answer date_str (advance w 1 0))
    as (d & k & Hd & Hd' & Hp).
  assert (Hdate : d = date).
  { subst date. destruct date_str as [d0|]; [now apply Hd|now apply Hd']. }
  rewrite Hdate in Hp. rewrite Hp.
  cbn [advance connections fault_at attendance Nat.add fst
       total_students present absent percentage].
  rewrite Hf2.
  pose proof (rows_of_date_le_students w date
                (fun r => String.eqb (att_status r) "Present") Hok) as Hle.
  set (p := List.length _) in *. set (t := List.length (students w)) in *.
  split; [reflexivity|]. split; [reflexivity|].
  split; [lia|]. split; [reflexivity|]. split; [lia|].
  apply Hround. destruct (0 <? Z.of_nat t)%Z eqn:E.
  - apply Z.ltb_lt in E. apply percent_in_range; lia.
  - split; [apply Qle_refl|discriminate].
Qed.

Lemma X10_statistics_are_consistent_witness :
  let s := fst (get_attendance_statistics Sample2.round2 (Some 20000%Z)
                                          Sample2.world_rows) in
  total_students s = 3%Z /\ present s = 2%Z /\ absent s = 1%Z /\
  (0 <= percentage s /\ percentage s <= 100)%Q.
Proof.
  assert (Hround : forall x, (0 <= x /\ x <= 100)%Q ->
                             (0 <= Sample2.round2 x /\ Sample2.round2 x <= 100)%Q).
  { intros x [H0 H1]. unfold Sample2.round2.
    assert (Hlo : (0 <= Qfloor (x * 100 + (1 # 2)))%Z).
    { change 0%Z with (Qfloor 0). apply Qfloor_resp_le. lra. }
    assert (Hhi : (Qfloor (x * 100 + (1 # 2)) <= 10000)%Z).
    { change 10000%Z with (Qfloor (10000 + (1 # 2))). apply Qfloor_resp_le. lra. }
    rewrite Zle_Qle in Hlo, Hhi.
    change (inject_Z 0) with 0%Q in Hlo. change (inject_Z 10000) with 10000%Q in Hhi.
    split.
    - apply Qle_shift_div_l; [reflexivity|]. lra.
    - apply Qle_shift_div_r; [reflexivity|]. lra. }
  assert (Hok : db_ok Sample2.world_rows) by tables_sound.
  destruct (X10_statistics_are_consistent Sample2.round2 Sample2.world_rows
              (Some 20000%Z) Hround Hok eq_refl eq_refl) as (H1 & H2 & _ & H4 & _ & H6).
  intros s. split; [exact H1|]. split; [exact H2|]. split; [|exact H6].
  subst s. rewrite H4, H1, H2. reflexivity.
Defined.

(** ** The attendance percentage of a student *)

(** The attendance rows of a student between two optional dates. *)
Lemma get_attendance_by_student_answer (sid : string) (start_date end_date : option Z)
    (w : World) :
  get_attendance_by_student sid start_date end_date w =
  (if fault_at w (connections w) then []
   else sort_by newer_first
          (filter (fun x => String.eqb (att_student_id (fst x)) sid
                            && from_date start_date (fst x)
                            && to_date end_date (fst x))
                  (join_students (attendance w) (students w))),
   advance w 1 0).
Proof.
  unfold get_attendance_by_student, sbind, get_connection, get_world, ret, advance. cbn.
  now destruct (fault_at w (connections w)).
Qed.

Lemma filter_unique_singleton (sid : string) (st : list Student) :
  NoDup (map st_student_id st) ->
  In sid (map st_student_id st) ->
  exists s, In s st /\ st_student_id s = sid /\
            filter (fun s' => String.eqb sid (st_student_id s')) st = [s].
Proof.
  induction st as [|s0 st IH]; cbn; intros Hnd Hin; [destruct Hin|].
  inversion Hnd as [|? ? Hnotin Hnd']; subst.
  destruct (String.eqb sid (st_student_id s0)) eqn:E.
  - apply String.eqb_eq in E. exists s0. split; [now left|]. split; [auto|].
    f_equal. destruct (filter _ st) as [|s1 l] eqn:F; [reflexivity|].
    exfalso. assert (H1 : In s1 (s1 :: l)) by now left. rewrite <- F in H1.
    apply filter_In in H1. destruct H1 as [H1 H2]. apply String.eqb_eq in H2.
    apply Hnotin. apply in_map_iff. exists s1. split; [congruence|exact H1].
  - apply String.eqb_neq in E. destruct Hin as [Hin|Hin]; [congruence|].
    destruct (IH Hnd' Hin) as (s & Hs & Hid & Hf). exists s. auto.
Qed.

Lemma filter_pairs_of_other_row (sid : string) (p : AttendanceRow -> bool)
    (a : AttendanceRow) (l : list Student) :
  String.eqb (att_student_id a) sid = false ->
  filter (fun x => String.eqb (att_student_id (fst x)) sid && p (fst x))
         (map (fun s => (a, st_name s)) l) = [].
Proof.
  intros E. induction l as [|s l IH]; [reflexivity|].
  cbn [map filter fst]. rewrite E. cbn [andb]. exact IH.
Qed.

(** With one student row for the id, the join keeps each attendance row
    of the student once. *)
Lemma join_rows_of_student (sid : string) (p : AttendanceRow -> bool)
    (att : list AttendanceRow) (st : list Student) :
  NoDup (map st_student_id st) ->
  In sid (map st_student_id st) ->
  exists nm,
    filter (fun x => String.eqb (att_student_id (fst x)) sid && p (fst x))
           (join_students att st) =
    map (fun a => (a, nm))
        (filter (fun a => String.eqb (att_student_id a) sid && p a) att).
Proof.
  intros Hnd Hin.
  destruct (filter_unique_singleton sid st Hnd Hin) as (s & _ & _ & Hs).
  exists (st_name s). unfold join_students.
  induction att as [|a att IH]; [reflexivity|]. cbn [flat_map filter].
  rewrite filter_app, IH.
  destruct (String.eqb (att_student_id a) sid) eqn:E.
  - apply String.eqb_eq in E. rewrite E, Hs. cbn [map filter fst app].
    rewrite E, String.eqb_refl. cbn [andb]. now destruct (p a).
  - cbn [andb map app].
    rewrite (filter_pairs_of_other_row sid p a _ E). reflexivity.
Qed.

Lemma calculate_percentage_answer (round2 : Q -> Q) (sid : string)
    (start_date end_date : option Z) (w : World) :
  calculate_student_attendance_percentage round2 sid start_date end_date w =
  (let records := fst (get_attendance_by_student sid start_date end_date w) in
   match records with
   | [] => 0%Q
   | _ :: _ =>
       round2 (inject_Z (Z.of_nat (List.length
                 (filter (fun x => String.eqb (att_status (fst x)) "Present") records)))
               / inject_Z (Z.of_nat (List.length records)) * 100)%Q
   end,
   advance w 1 0).
Proof.
  unfold calculate_student_attendance_percentage, sbind, ret.
  rewrite get_attendance_by_student_answer. cbn [fst].
  destruct (if fault_at w (connections w) then [] else _); reflexivity.
Qed.

(** X11: the attendance percentage of a student is 0 when the read fails
    or the join gives no row for the id, and lies between 0 and 100
    otherwise; on a working connection and with a single student row for
    the id it is the rounded share, among the student's attendance rows in
    the date range, of those with status Present -- a row with status Late
    or Absent counts as a day not attended. *)
Theorem X11_student_percentage :
  forall (round2 : Q -> Q) (w : World) (sid : string) (start_date end_date : option Z),
    (forall x, (0 <= x /\ x <= 100)%Q -> (0 <= round2 x /\ round2 x <= 100)%Q) ->
    let r := fst (calculate_student_attendance_percentage round2 sid start_date end_date
                                                          w) in
    let rows := filter (fun a => String.eqb (att_student_id a) sid
                                 && (from_date start_date a && to_date end_date a))
                       (attendance w) in
    let attended := filter (fun a => String.eqb (att_status a) "Present") rows in
    (0 <= r /\ r <= 100)%Q /\
    (fault_at w (connections w) = true -> r = 0%Q) /\
    (~ In sid (map st_student_id (students w)) -> r = 0%Q) /\
    (fault_at w (connections w) = false ->
     unique_students w ->
     In sid (map st_student_id (students w)) ->
     r = match rows with
         | [] => 0%Q
         | _ :: _ => round2 (inject_Z (Z.of_nat (List.length attended))
                             / inject_Z (Z.of_nat (List.length rows)) * 100)%Q
         end).
Proof.
  intros round2 w sid start_date end_date Hround r rows attended.
  subst r. rewrite calculate_percentage_answer. cbn [fst].
  rewrite get_attendance_by_student_answer. cbn [fst].
  set (records := if fault_at w (connections w) then [] else sort_by newer_first _).
  split; [|split; [|split]].
  - destruct records as [|x l] eqn:E; [split; [apply Qle_refl|discriminate]|].
    rewrite <- E. apply Hround. apply percent_in_range.
    + split; [lia|]. apply inj_le. apply filter_length_le.
    + rewrite E. cbn [List.length]. lia.
  - intros Hf. subst records. now rewrite Hf.
  - intros Hnot. subst records. destruct (fault_at w (connections w)); [reflexivity|].
    assert (Hnil : filter (fun x => String.eqb (att_student_id (fst x)) sid
                                    && from_date start_date (fst x)
                                    && to_date end_date (fst x))
                          (join_students (attendance w) (students w)) = []).
    { destruct (filter _ (join_students _ _)) as [|x l] eqn:E; [reflexivity|].
      exfalso. assert (Hx : In x (x :: l)) by now left. rewrite <- E in Hx.
      apply filter_In in Hx. destruct Hx as [Hx Hp].
      unfold join_students in Hx. apply in_flat_map in Hx.
      destruct Hx as (a & _ & Hx). apply in_map_iff in Hx.
      destruct Hx as (s & <- & Hs). apply filter_In in Hs. destruct Hs as [Hs Heq].
      cbn [fst] in Hp. apply andb_true_iff in Hp. destruct Hp as [Hp _].
      apply andb_true_iff in Hp. destruct Hp as [Hp _].
      apply String.eqb_eq in Hp. apply String.eqb_eq in Heq.
      apply Hnot. apply in_map_iff. exists s. split; [congruence|exact Hs]. }
    rewrite Hnil. reflexivity.
  - intros Hf Hus Hin. subst records. rewrite Hf.
    destruct (join_rows_of_student sid
                (fun a => from_date start_date a && to_date end_date a)
                (attendance w) (students w) Hus Hin) as [nm Hjoin].
    assert (Hjoin' :
              filter (fun x => String.eqb (att_student_id (fst x)) sid
                               && from_date start_date (fst x)
                               && to_date end_date (fst x))
                     (join_students (attendance w) (students w)) =
              map (fun a => (a, nm)) rows).
    { unfold rows. rewrite <- Hjoin. apply filter_ext. intros x.
      now rewrite andb_assoc. }
    rewrite Hjoin'.
    set (sorted := sort_by newer_first (map (fun a => (a, nm)) rows)).
    assert (Hperm : Permutation sorted (map (fun a => (a, nm)) rows))
      by apply sort_by_perm.
    assert (Hlen : List.length sorted = List.length rows).
    { rewrite (Permutation_length Hperm). apply length_map. }
    assert (Hatt : List.length (filter (fun x => String.eqb (att_status (fst x))
                                                            "Present") sorted)
                   = List.length attended).
    { rewrite (filter_length_perm _ _ _ Hperm).
      subst attended. clear. induction rows as [|a l IH]; [reflexivity|].
      cbn [map filter fst]. destruct (String.eqb (att_status a) "Present");
        cbn [List.length]; now rewrite IH. }
    destruct sorted as [|x l] eqn:Es.
    + destruct rows; [reflexivity|discriminate Hlen].
    + rewrite <- Es in *. rewrite Hatt, Hlen.
      destruct rows; [rewrite Es in Hlen; discriminate Hlen|reflexivity].
Qed.

Lemma round2_keeps_range (x : Q) :
  (0 <= x /\ x <= 100)%Q -> (0 <= Sample2.round2 x /\ Sample2.round2 x <= 100)%Q.
Proof.
  intros [H0 H1]. unfold Sample2.round2.
  assert (Hlo : (0 <= Qfloor (x * 100 + (1 # 2)))%Z).
  { change 0%Z with (Qfloor 0). apply Qfloor_resp_le. lra. }
  assert (Hhi : (Qfloor (x * 100 + (1 # 2)) <= 10000)%Z).
  { change 10000%Z with (Qfloor (10000 + (1 # 2))). apply Qfloor_resp_le. lra. }
  rewrite Zle_Qle in Hlo, Hhi.
  change (inject_Z 0) with 0%Q in Hlo. change (inject_Z 10000) with 10000%Q in Hhi.
  split.
  - apply Qle_shift_div_l; [reflexivity|]. lra.
  - apply Qle_shift_div_r; [reflexivity|]. lra.
Qed.

(** X11 on the sample tables: Alice has one Present and one Late row. *)
Lemma X11_student_percentage_witness :
  (fst (calculate_student_attendance_percentage Sample2.round2 "S1" None None
                                                Sample2.world_rows) == 50)%Q /\
  fst (calculate_student_attendance_percentage Sample2.round2 "S9" None None
                                               Sample2.world_rows) = 0%Q.
Proof.
  destruct (X11_student_percentage Sample2.round2 Sample2.world_rows "S1" None None
              round2_keeps_range) as (_ & _ & _ & H4).
  destruct (X11_student_percentage Sample2.round2 Sample2.world_rows "S9" None None
              round2_keeps_range) as (_ & _ & H3 & _).
  split.
  - rewrite H4.
    + reflexivity.
    + reflexivity.
    + unfold unique_students. cbn. repeat constructor; cbn; intuition discriminate.
    + cbn. auto.
  - apply H3. cbn. intuition discriminate.
Defined.

(** ** The defaulters *)

Lemma reliable_advance (w : World) (a b : nat) : reliable w -> reliable (advance w a b).
Proof.
  intros H n Hn. cbn in Hn |- *. apply H. lia.
Qed.

Lemma calculate_percentage_advance (round2 : Q -> Q) (sid : string)
    (start_date end_date : option Z) (w : World) (a b : nat) :
  reliable w ->
  fst (calculate_student_attendance_percentage round2 sid start_date end_date
         (advance w a b)) =
  fst (calculate_student_attendance_percentage round2 sid start_date end_date w).
Proof.
  intros Hrel. rewrite !calculate_percentage_answer. cbn [fst].
  rewrite !get_attendance_by_student_answer. cbn [fst advance connections fault_at
    students attendance].
  now rewrite (Hrel (a + connections w)%nat), (Hrel (connections w)) by lia.
Qed.

Lemma defaulters_loop_reliable (round2 : Q -> Q) (threshold : Q)
    (start_date end_date : option Z) (sts : list Student) :
  forall (acc : list Defaulter) (w : World),
    reliable w ->
    let value s := fst (calculate_student_attendance_percentage round2 (st_student_id s)
                          start_date end_date w) in
    defaulters_loop round2 threshold start_date end_date sts acc w =
    (acc ++ map (fun s => mkDefaulter (st_student_id s) (st_name s) (value s))
                (filter (fun s => Qlt_bool (value s) threshold) sts),
     advance w (List.length sts) 0).
Proof.
  induction sts as [|s sts IH]; intros acc w Hrel value.
  - cbn. rewrite app_nil_r. unfold advance, ret. now destruct w.
  - cbn [defaulters_loop]. unfold sbind.
    destruct (calculate_student_attendance_percentage round2 (st_student_id s)
                start_date end_date w) as [p w'] eqn:E.
    assert (Hp : p = value s) by (unfold value; now rewrite E).
    assert (Hw : w' = advance w 1 0).
    { rewrite calculate_percentage_answer in E. now injection E as _ <-. }
    subst p w'.
    assert (Hnext : forall acc',
              defaulters_loop round2 threshold start_date end_date sts acc'
                              (advance w 1 0) =
              (acc' ++ map (fun s => mkDefaulter (st_student_id s) (st_name s) (value s))
                           (filter (fun s => Qlt_bool (value s) threshold) sts),
               advance w (S (List.length sts)) 0)).
    { intros acc'. rewrite (IH acc' (advance w 1 0) (reliable_advance w 1 0 Hrel)).
      f_equal.
      - f_equal. transitivity
          (map (fun s0 => mkDefaulter (st_student_id s0) (st_name s0) (value s0))
               (filter (fun s0 =>
                          Qlt_bool (fst (calculate_student_attendance_percentage round2
                                           (st_student_id s0) start_date end_date
                                           (advance w 1 0))) threshold) sts)).
        + apply map_ext. intros s0. unfold value.
          now rewrite calculate_percentage_advance.
        + f_equal. apply filter_ext. intros s0. unfold value.
          now rewrite calculate_percentage_advance.
      - unfold advance. cbn. f_equal; lia. }
    cbn [filter List.length]. destruct (Qlt_bool (value s) threshold).
    + rewrite Hnext. cbn [map]. now rewrite <- app_assoc.
    + apply Hnext.
Qed.

Lemma defaulters_loop_Forall (round2 : Q -> Q) (threshold : Q)
    (start_date end_date : option Z) (P : Defaulter -> Prop) (sts : list Student) :
  (forall s p, In s sts -> Qlt_bool p threshold = true ->
               P (mkDefaulter (st_student_id s) (st_name s) p)) ->
  forall (acc : list Defaulter) (w : World),
    Forall P acc ->
    Forall P (fst (defaulters_loop round2 threshold start_date end_date sts acc w)).
Proof.
  induction sts as [|s sts IH]; intros HP acc w Hacc; [exact Hacc|].
  cbn [defaulters_loop]. unfold sbind.
  destruct (calculate_student_attendance_percentage round2 (st_student_id s)
              start_date end_date w) as [p w'].
  assert (HP' : forall s0 p0, In s0 sts -> Qlt_bool p0 threshold = true ->
                              P (mkDefaulter (st_student_id s0) (st_name s0) p0)).
  { intros s0 p0 Hin. apply HP. now right. }
  destruct (Qlt_bool p threshold) eqn:E; apply IH; auto.
  apply Forall_app. split; [exact Hacc|]. constructor; [|constructor].
  apply HP; [now left|exact E].
Qed.

Lemma Forall_perm {A : Type} (P : A -> Prop) (l l' : list A) :
  Permutation l l' -> Forall P l -> Forall P l'.
Proof.
  intros Hp. rewrite !Forall_forall. intros H x Hx. apply H.
  eapply Permutation_in; [symmetry; exact Hp|exact Hx].
Qed.

Lemma get_defaulters_answer (round2 : Q -> Q) (threshold : Q)
    (start_date end_date : option Z) (w : World) :
  let sts := if fault_at w (connections w) then []
             else sort_by by_name (students w) in
  let loop := defaulters_loop round2 threshold start_date end_date sts []
                              (advance w 1 0) in
  get_defaulters round2 threshold start_date end_date w =
  (sort_by (fun x y => Qle_bool (attendance_percentage x) (attendance_percentage y))
           (fst loop),
   snd loop).
Proof.
  intros sts loop. unfold get_defaulters, sbind, ret.
  rewrite get_all_students_answer. fold sts. fold loop. now destruct loop.
Qed.

(** X12: the list of [get_defaulters] is in ascending order of percentage,
    every entry has a percentage below the threshold and carries the id
    and the name of a student of the table.  When no connection fails, the
    entries are exactly the students of the table whose attendance
    percentage is below the threshold, each with that percentage. *)
Theorem X12_defaulters_sorted_and_below_threshold :
  forall (round2 : Q -> Q) (threshold : Q) (start_date end_date : option Z) (w : World),
    let result := fst (get_defaulters round2 threshold start_date end_date w) in
    let value s := fst (calculate_student_attendance_percentage round2 (st_student_id s)
                          start_date end_date w) in
    Sorted (fun x y => (attendance_percentage x <= attendance_percentage y)%Q) result /\
    Forall (fun d => (attendance_percentage d < threshold)%Q) result /\
    Forall (fun d => exists s, In s (students w) /\ d_student_id d = st_student_id s /\
                               d_name d = st_name s) result /\
    (reliable w ->
     Permutation result
       (map (fun s => mkDefaulter (st_student_id s) (st_name s) (value s))
            (filter (fun s => Qlt_bool (value s) threshold) (students w)))).
Proof.
  intros round2 threshold start_date end_date w result value.
  set (sts := if fault_at w (connections w) then []
              else sort_by by_name (students w)).
  set (loop := defaulters_loop round2 threshold start_date end_date sts []
                               (advance w 1 0)).
  assert (Hresult : result =
                    sort_by (fun x y => Qle_bool (attendance_percentage x)
                                                 (attendance_percentage y)) (fst loop)).
  { subst result. now rewrite get_defaulters_answer. }
  clearbody result.
  assert (Hperm : Permutation result (fst loop)).
  { rewrite Hresult. apply sort_by_perm. }
  assert (Hsts : forall s, In s sts -> In s (students w)).
  { subst sts. destruct (fault_at w (connections w)); [intros s []|].
    intros s. apply In_sort_by. }
  split; [|split; [|split]].
  - rewrite Hresult.
    assert (Hsorted := sort_by_sorted
              (fun x y => Qle_bool (attendance_percentage x) (attendance_percentage y))
              (fst loop)).
    eapply Sorted_ind with (P := fun l => Sorted _ l);
      [constructor| |apply Hsorted].
    + intros a l _ Hl Hhd. constructor; [exact Hl|].
      destruct Hhd; constructor. now apply Qle_bool_iff.
    + intros a b Hab. apply (proj1 (Qle_bool_false_iff _ _)) in Hab.
      apply Qle_bool_iff. apply Qlt_le_weak. now apply Qnot_le_lt.
  - eapply Forall_perm; [symmetry; exact Hperm|].
    apply defaulters_loop_Forall; [|constructor].
    intros s p _ Hp. cbn. now apply Qlt_bool_iff.
  - eapply Forall_perm; [symmetry; exact Hperm|].
    apply defaulters_loop_Forall; [|constructor].
    intros s p Hin _. exists s. cbn. auto.
  - intros Hrel. rewrite Hperm. subst loop sts.
    rewrite (Hrel (connections w)) by lia.
    rewrite (defaulters_loop_reliable round2 threshold start_date end_date
               (sort_by by_name (students w))
               [] (advance w 1 0) (reliable_advance w 1 0 Hrel)).
    cbn [fst app].
    rewrite (filter_perm _ _ _ (sort_by_perm by_name (students w))).
    assert (Hval : forall s,
              fst (calculate_student_attendance_percentage round2 (st_student_id s)
                     start_date end_date (advance w 1 0)) = value s).
    { intros s. unfold value. now apply calculate_percentage_advance. }
    rewrite (map_ext _ (fun s => mkDefaulter (st_student_id s) (st_name s) (value s)))
      by (intros s; now rewrite Hval).
    rewrite (filter_ext _ (fun s => Qlt_bool (value s) threshold))
      by (intros s; now rewrite Hval).
    reflexivity.
Qed.

(** X12 on the sample tables with threshold 75: Carol (no row) and Alice
    (one Present row out of two) are listed, in that order; Bob is not. *)
Lemma X12_defaulters_sorted_and_below_threshold_witness :
  map d_student_id
      (fst (get_defaulters Sample2.round2 75 None None Sample2.world_rows))
  = ["S3"; "S1"] /\
  Permutation
    (fst (get_defaulters Sample2.round2 75 None None Sample2.world_rows))
    (map (fun s => mkDefaulter (st_student_id s) (st_name s)
                     (fst (calculate_student_attendance_percentage Sample2.round2
                             (st_student_id s) None None Sample2.world_rows)))
         (filter (fun s => Qlt_bool
                             (fst (calculate_student_attendance_percentage Sample2.round2
                                     (st_student_id s) None None Sample2.world_rows))
                             75)
                 (students Sample2.world_rows))).
Proof.
  split; [reflexivity|].
  apply (X12_defaulters_sorted_and_below_threshold Sample2.round2 75 None None
           Sample2.world_rows).
  intros n _. reflexivity.
Defined.

(** ** Reloading the gallery *)

(** X13: [_reload_faces] leaves the gallery empty when the read of the
    students fails, whatever the gallery and the table held, so that every
    face is unknown afterwards; when the read succeeds the gallery holds
    exactly the students of the table that have an encoding.  Tolerance,
    stride and frame count are not touched. *)
Theorem X13_reload_follows_the_read :
  forall (m : FaceRecognitionModule) (w : World),
    let m' := fst (_reload_faces m w) in
    (fault_at w (connections w) = true ->
     gallery m' = [] /\ known_face_encodings m' = [] /\
     forall distance probe,
       match_face distance m' probe = Return ("Unknown", None, 0%Q)) /\
    (fault_at w (connections w) = false ->
     forall sid nm e,
       In (sid, nm, e) (gallery m') <->
       exists s, In s (students w) /\ st_student_id s = sid /\ st_name s = nm /\
                 st_face_encoding s = Some e) /\
    parallel m' /\
    tolerance m' = tolerance m /\
    process_every_n_frames m' = process_every_n_frames m /\
    frame_count m' = frame_count m.
Proof.
  intros m w m'. subst m'. unfold _reload_faces, sbind, ret.
  rewrite get_all_students_answer. cbn [fst].
  split; [|split; [|split; [apply parallel_load_known_faces|]]].
  - intros ->. split; [reflexivity|]. split; [reflexivity|].
    intros distance probe. now apply match_face_empty.
  - intros -> sid nm e. rewrite gallery_load_known_faces, In_triples.
    split; intros (s & Hs & H); exists s; (split; [|exact H]);
      now apply (In_sort_by by_name (students w)).
  - rewrite load_known_faces_caches. repeat split.
Qed.

Lemma X13_reload_follows_the_read_witness :
  gallery (fst (_reload_faces Sample.loaded Sample2.world_down)) = [] /\
  In ("S2", "Bob", [(95 # 100)%Q])
     (gallery (fst (_reload_faces default_module Sample2.world_rows))).
Proof.
  destruct (X13_reload_follows_the_read Sample.loaded Sample2.world_down) as (H1 & _).
  destruct (X13_reload_follows_the_read default_module Sample2.world_rows)
    as (_ & H2 & _).
  split; [apply (H1 eq_refl)|].
  apply (H2 eq_refl). exists Sample.bob. cbn. auto.
Defined.

(** ** The camera loop, end to end *)

Lemma written_for_refl (ids : list string) (w : World) : written_for ids w w.
Proof.
  split; [reflexivity|]. exists []. now rewrite app_nil_r.
Qed.

Lemma written_for_trans (ids : list string) (w1 w2 w3 : World) :
  written_for ids w1 w2 -> written_for ids w2 w3 -> written_for ids w1 w3.
Proof.
  intros (Hs1 & new1 & Ha1 & Hn1) (Hs2 & new2 & Ha2 & Hn2).
  split; [congruence|]. exists (new1 ++ new2). split.
  - rewrite Ha2, Ha1. now rewrite app_assoc.
  - now apply Forall_app.
Qed.

Lemma written_for_tables (ids : list string) (w w' w'' : World) :
  students w'' = students w' -> attendance w'' = attendance w' ->
  written_for ids w w' -> written_for ids w w''.
Proof.
  intros Hs Ha (Hs1 & new & Ha1 & Hn). split; [congruence|].
  exists new. split; [congruence|exact Hn].
Qed.

Lemma mark_attendance_written (sid : string) (w : World) :
  written_for [sid] w (snd (mark_attendance sid "Present" w)).
Proof.
  pose proof (mark_attendance_cases sid "Present" w) as H. cbv zeta in H.
  destruct (negb (negb (fault_at w (connections w)) && _)).
  { rewrite H. apply (written_for_tables _ w w); auto using written_for_refl. }
  destruct (negb (fault_at w (S (connections w))) && _).
  { rewrite H. apply (written_for_tables _ w w); auto using written_for_refl. }
  destruct (negb (fault_at w (S (S (connections w)))) && _).
  2:{ rewrite H. apply (written_for_tables _ w w); auto using written_for_refl. }
  destruct H as [msg H]. rewrite H. split; [reflexivity|].
  eexists. split; [reflexivity|]. constructor; [|constructor].
  cbn. auto.
Qed.

Lemma offer_written (tab : AttendanceTab) (sid nm : string) (w : World) :
  let r := _mark_attendance_for_student tab sid nm w in
  written_for [sid] w (snd r) /\
  ((List.length (recent_recognitions tab) <= 10)%nat ->
   (List.length (recent_recognitions (fst (fst r))) <= 10)%nat).
Proof.
  cbv zeta. rewrite mark_attendance_for_student_cases.
  pose proof (mark_attendance_written sid (advance w 0 1)) as H.
  assert (H' : written_for [sid] w (snd (mark_attendance sid "Present" (advance w 0 1)))).
  { destruct H as (Hs & new & Ha & Hn). split; [exact Hs|]. now exists new. }
  destruct (recently_marked tab sid (clock w (ticks w))).
  { split; [|auto]. apply (written_for_tables _ w w); auto using written_for_refl. }
  destruct (fst (fst (mark_attendance sid "Present" (advance w 0 1)))); cbn [fst snd].
  - split.
    + eapply written_for_tables; [| |exact H']; reflexivity.
    + cbn [recent_recognitions]. apply (length_deque_append recent_maxlen).
  - split; [exact H'|auto].
Qed.

Lemma written_for_weaken (ids ids' : list string) (w w' : World) :
  (forall sid, In sid ids -> In sid ids') -> written_for ids w w' -> written_for ids' w w'.
Proof.
  intros Hincl (Hs & new & Ha & Hn). split; [exact Hs|]. exists new. split; [exact Ha|].
  eapply Forall_impl; [|exact Hn]. intros row [H1 H2]. auto.
Qed.

Section Feed.

Variable Image : Type.
Variable cvtColor : Image -> outcome Image.
Variable resize_half : Image -> outcome Image.
Variable face_locations : string -> Image -> outcome (list Location).
Variable face_encodings : Image -> list Location -> outcome (list Encoding).
Variable distance : Encoding -> Encoding -> Q.
Variable copy_frame : Image -> outcome Image.
Variable draw_result : Image -> RecognitionResult -> outcome Image.
Variable set_recognition_label : string -> outcome unit.
Variable show_frame : Image -> outcome unit.

Lemma recognized_ids_are_known (m : FaceRecognitionModule) (image : Image)
    (results : list RecognitionResult) :
  snd (recognize_faces Image cvtColor resize_half face_locations face_encodings distance
                       m image) = Return results ->
  Forall (fun r => forall sid, student_id r = Some sid -> In sid (known_face_ids m))
         results.
Proof.
  intros H. apply recognize_faces_results in H.
  destruct H as [->|[faces Hloop]]; [constructor|].
  eapply recognize_loop_Forall; [|constructor|exact Hloop].
  intros loc enc r Hm sid Hsid. apply match_face_shape in Hm.
  destruct Hm as [->|(i & e & nm & sid' & _ & _ & Hi & _ & ->)]; cbn in Hsid;
    [discriminate|].
  injection Hsid as <-. cbn [bump_frame_count known_face_ids] in Hi.
  eapply nth_error_In, Hi.
Qed.

(** The loop over the results, whether or not a drawing call ends it. *)
Lemma draw_and_offer_written (ids : list string) (results : list RecognitionResult) :
  Forall (fun r => forall sid, student_id r = Some sid -> In sid ids) results ->
  forall (display_frame : Image) (tab : AttendanceTab) (recognized_name : option string)
         (w : World),
    let r := draw_and_offer Image draw_result display_frame tab recognized_name
                            results w in
    written_for ids w (snd r) /\
    (db_ok w -> db_ok (snd r)) /\
    ((List.length (recent_recognitions tab) <= 10)%nat ->
     (List.length (recent_recognitions (fst (fst r))) <= 10)%nat).
Proof.
  induction 1 as [|result results Hres _ IH]; intros display_frame tab recognized_name w;
    cbn [draw_and_offer].
  - cbn. split; [apply written_for_refl|auto].
  - destruct (draw_result display_frame result) as [drawn|e].
    2:{ cbn. split; [apply written_for_refl|auto]. }
    destruct (student_id result) as [sid|] eqn:Hsid; [|apply IH].
    destruct (is_known result && truthy (Some sid)); [|apply IH].
    unfold sbind.
    pose proof (offer_written tab sid (name result) w) as Hoffer.
    pose proof (db_ok_mark_attendance_for_student tab sid (name result) w) as Hok.
    destruct (_mark_attendance_for_student tab sid (name result) w) as [[tab' o] w'].
    cbn [fst snd] in *. destruct Hoffer as [Hw Hlen].
    destruct (IH drawn tab' (Some (name result)) w') as (Hw' & Hok' & Hlen').
    split; [|split; auto].
    eapply written_for_trans; [|exact Hw'].
    eapply written_for_weaken; [|exact Hw].
    intros s [<-|[]]. now apply Hres.
Qed.

Lemma camera_round_written (active : bool) (m : FaceRecognitionModule)
    (tab : AttendanceTab) (frame : Image) (w : World) :
  let r := camera_round Image cvtColor resize_half face_locations face_encodings distance
                        copy_frame draw_result set_recognition_label show_frame
                        active m tab frame w in
  known_face_ids (fst (fst (fst r))) = known_face_ids m /\
  written_for (known_face_ids m) w (snd r) /\
  (db_ok w -> db_ok (snd r)) /\
  ((List.length (recent_recognitions tab) <= 10)%nat ->
   (List.length (recent_recognitions (snd (fst (fst r)))) <= 10)%nat).
Proof.
  cbv zeta. unfold camera_round.
  destruct (copy_frame frame) as [display_frame|e].
  2:{ cbn. split; [reflexivity|]. split; [apply written_for_refl|auto]. }
  destruct active.
  2:{ cbn. split; [reflexivity|]. split; [apply written_for_refl|auto]. }
  pose proof (recognized_ids_are_known m frame) as Hids.
  pose proof (recognize_faces_cases Image cvtColor resize_half face_locations
                face_encodings distance m frame) as Hcases.
  destruct (recognize_faces Image cvtColor resize_half face_locations face_encodings
                            distance m frame) as [m' [results|e]].
  - injection Hcases as -> _. cbn [snd] in Hids. unfold sbind, ret.
    destruct (draw_and_offer_written (known_face_ids m) results (Hids results eq_refl)
                display_frame tab None w) as (Hw & Hok & Hlen).
    destruct (draw_and_offer Image draw_result display_frame tab None results w)
      as [[tab' drawn] w'].
    cbn [fst snd] in *. auto.
  - injection Hcases as -> _. cbn.
    split; [reflexivity|]. split; [apply written_for_refl|auto].
Qed.

Lemma update_camera_feed_written (reads : list (bool * option Image)) :
  forall (m : FaceRecognitionModule) (tab : AttendanceTab) (w : World),
    let r := _update_camera_feed Image cvtColor resize_half face_locations face_encodings
                                 distance copy_frame draw_result set_recognition_label
                                 show_frame m tab reads w in
    known_face_ids (fst (fst (fst r))) = known_face_ids m /\
    written_for (known_face_ids m) w (snd r) /\
    (db_ok w -> db_ok (snd r)) /\
    ((List.length (recent_recognitions tab) <= 10)%nat ->
     (List.length (recent_recognitions (snd (fst (fst r)))) <= 10)%nat).
Proof.
  induction reads as [|[active [frame|]] reads IH]; intros m tab w;
    cbn [_update_camera_feed]; [| |apply IH].
  - cbn. split; [reflexivity|]. split; [apply written_for_refl|auto].
  - unfold sbind.
    pose proof (camera_round_written active m tab frame w) as Hround.
    cbv zeta in Hround.
    destruct (camera_round Image cvtColor resize_half face_locations face_encodings
                           distance copy_frame draw_result set_recognition_label
                           show_frame active m tab frame w)
      as [[[m' tab'] goes_on] w'].
    cbn [fst snd] in Hround. destruct Hround as (Hm & Hw & Hok & Hlen).
    destruct goes_on.
    + specialize (IH m' tab' w'). cbv zeta in IH.
      destruct (_update_camera_feed Image cvtColor resize_half face_locations
                  face_encodings distance copy_frame draw_result set_recognition_label
                  show_frame m' tab' reads w') as [[[m'' tab''] broke] w''].
      cbn [fst snd] in IH |- *.
      destruct IH as (Hids & Hw' & Hok' & Hlen').
      rewrite Hm in Hids, Hw'.
      split; [exact Hids|].
      split; [eapply written_for_trans; eassumption|].
      split; auto.
    + unfold ret. cbn [fst snd]. auto.
Qed.

End Feed.

(** X14: whatever the camera delivers, whichever calls of the display
    raise and whichever connections fail, a run of the camera loop never
    changes the student table, never removes or alters an attendance row,
    and adds only rows with status Present for ids of the gallery -- none
    at all when the gallery is empty.  It keeps sound tables sound and the
    recency buffer within 10 entries. *)
Theorem X14_camera_loop_writes_only_known_ids :
  forall (Image : Type)
         (cvtColor resize_half : Image -> outcome Image)
         (face_locations : string -> Image -> outcome (list Location))
         (face_encodings : Image -> list Location -> outcome (list Encoding))
         (distance : Encoding -> Encoding -> Q)
         (copy_frame : Image -> outcome Image)
         (draw_result : Image -> RecognitionResult -> outcome Image)
         (set_recognition_label : string -> outcome unit)
         (show_frame : Image -> outcome unit)
         (reads : list (bool * option Image))
         (m : FaceRecognitionModule) (tab : AttendanceTab) (w : World),
    let r := _update_camera_feed Image cvtColor resize_half face_locations face_encodings
                                 distance copy_frame draw_result set_recognition_label
                                 show_frame m tab reads w in
    let w' := snd r in
    let tab' := snd (fst (fst r)) in
    students w' = students w /\
    (exists new,
        attendance w' = attendance w ++ new /\
        Forall (fun row => In (att_student_id row) (known_face_ids m) /\
                           att_status row = "Present") new) /\
    (known_face_ids m = [] -> attendance w' = attendance w) /\
    (db_ok w -> db_ok w') /\
    ((List.length (recent_recognitions tab) <= 10)%nat ->
     (List.length (recent_recognitions tab') <= 10)%nat).
Proof.
  intros Image cvtColor resize_half face_locations face_encodings distance
         copy_frame draw_result set_recognition_label show_frame
         reads m tab w r w' tab'.
  destruct (update_camera_feed_written Image cvtColor resize_half face_locations
              face_encodings distance copy_frame draw_result set_recognition_label
              show_frame reads m tab w)
    as (_ & (Hs & new & Ha & Hn) & Hok & Hlen).
  fold r in Hs, Ha, Hok, Hlen. fold w' in Hs, Ha, Hok. fold tab' in Hlen.
  split; [exact Hs|]. split; [now exists new|].
  split; [|auto].
  intros Hempty. rewrite Ha. rewrite Hempty in Hn.
  destruct new as [|row new]; [now rewrite app_nil_r|].
  inversion Hn as [|? ? [[] _] _].
Qed.

(** X14 on the sample world: two frames showing Alice, stride 2. *)
Lemma X14_camera_loop_writes_only_known_ids_witness :
  let r := _update_camera_feed Sample.Image Sample.cvtColor Sample.resize_half
             Sample.face_locations Sample.face_encodings Sample.distance
             Sample.copy_frame Sample.draw_result Sample.set_recognition_label
             Sample.show_frame Sample.loaded new_tab
             [(true, Some Sample.frame_alice); (true, Some Sample.frame_alice)]
             Sample.world0 in
  db_ok (snd r) /\
  (List.length (recent_recognitions (snd (fst (fst r)))) <= 10)%nat /\
  map att_student_id (attendance (snd r)) = ["S1"].
Proof.
  assert (Hsound : db_ok Sample.world0) by tables_sound.
  assert (Hroom : (List.length (recent_recognitions new_tab) <= 10)%nat) by (cbn; lia).
  pose proof (X14_camera_loop_writes_only_known_ids Sample.Image Sample.cvtColor
                Sample.resize_half Sample.face_locations Sample.face_encodings
                Sample.distance Sample.copy_frame Sample.draw_result
                Sample.set_recognition_label Sample.show_frame
                [(true, Some Sample.frame_alice); (true, Some Sample.frame_alice)]
                Sample.loaded new_tab Sample.world0) as H.
  intros r. fold r in H.
  split; [exact (proj1 (proj2 (proj2 (proj2 H))) Hsound)|].
  split; [exact (proj2 (proj2 (proj2 (proj2 H))) Hroom)|].
  vm_compute. reflexivity.
Defined.

(** ** Manual entries and failed reads *)

(** X15: a manual entry never overwrites: when the student already has a
    row for the date, or is not in the student table, the entry is refused
    and the attendance table stays as it is; an accepted entry appends
    exactly the row (student, date, time, status), for a student of the
    table who had no row on that date.  The student table is never
    touched. *)
Theorem X15_manual_entry_never_overwrites :
  forall (w : World) (sid : string) (date time : Z) (status : string),
    let r := manual_attendance_entry sid date time status w in
    students (snd r) = students w /\
    (In (sid, date) (map attendance_key (attendance w)) ->
     fst (fst r) = false /\ attendance (snd r) = attendance w) /\
    (~ In sid (map st_student_id (students w)) ->
     fst r = (false, "Student not found.") /\ attendance (snd r) = attendance w) /\
    (fst (fst r) = false -> attendance (snd r) = attendance w) /\
    (fst (fst r) = true ->
     attendance (snd r) = attendance w ++ [mkRow sid date time status] /\
     In sid (map st_student_id (students w)) /\
     ~ In (sid, date) (map attendance_key (attendance w))).
Proof.
  intros w sid date time status r. subst r.
  unfold manual_attendance_entry, sbind. rewrite student_exists_answer.
  destruct (negb (fault_at w (connections w)) && (0 <? count_students w sid)%nat)
    eqn:Hex; cbn [negb].
  2:{ cbn. split; [reflexivity|]. split; [auto|]. split; [auto|].
      split; [auto|discriminate]. }
  apply andb_true_iff in Hex. destruct Hex as [_ Hex]. apply count_students_pos in Hex.
  pose proof (db_mark_attendance_tables sid (Some date) (Some time) status
                                        (advance w 1 0)) as H.
  cbv zeta in H.
  destruct (db_mark_attendance sid (Some date) (Some time) status (advance w 1 0))
    as [[|] w'] eqn:E; cbn [fst snd] in H |- *; destruct H as (Hs & Hf & Ht).
  - destruct (Ht eq_refl) as (d & t & Ha & Hnew & Hd & Htime).
    rewrite (Hd date eq_refl) in *. rewrite (Htime time eq_refl) in *.
    rewrite count_attendance_advance in Hnew.
    assert (Hnot : ~ In (sid, date) (map attendance_key (attendance w))).
    { intros Hin. apply count_attendance_pos in Hin. congruence. }
    split; [exact Hs|]. split; [intros Hin; contradiction|].
    split; [intros Hno; contradiction|]. split; [discriminate|]. auto.
  - specialize (Hf eq_refl). split; [exact Hs|]. split; [auto|].
    split; [intros Hno; contradiction|]. split; [auto|discriminate].
Qed.

Lemma X15_manual_entry_never_overwrites_witness :
  fst (fst (manual_attendance_entry "S1" 20000 50000 "Late" Sample2.world_rows)) = false /\
  attendance (snd (manual_attendance_entry "S1" 20000 50000 "Late" Sample2.world_rows))
  = Sample2.rows /\
  fst (manual_attendance_entry "S9" 20000 50000 "Late" Sample2.world_rows)
  = (false, "Student not found.").
Proof.
  destruct (X15_manual_entry_never_overwrites Sample2.world_rows "S1" 20000 50000 "Late")
    as (_ & H2 & _).
  destruct (X15_manual_entry_never_overwrites Sample2.world_rows "S9" 20000 50000 "Late")
    as (_ & _ & H3 & _).
  assert (Hin : In ("S1", 20000%Z) (map attendance_key (attendance Sample2.world_rows)))
    by (cbn; auto).
  assert (Hno : ~ In "S9" (map st_student_id (students Sample2.world_rows)))
    by (cbn; intuition discriminate).
  split; [exact (proj1 (H2 Hin))|]. split; [exact (proj2 (H2 Hin))|].
  exact (proj1 (H3 Hno)).
Defined.

(** X16: when the count of the students fails and the count of the
    present succeeds, the statistics report a total of 0 and an absent
    count that is the negated present count, below zero as soon as someone
    is present; the percentage is the rounding of 0. *)
Theorem X16_statistics_after_a_failed_count :
  forall (round2 : Q -> Q) (w : World) (date_str : option Z),
    fault_at w (connections w) = true ->
    fault_at w (S (connections w)) = false ->
    let s := fst (get_attendance_statistics round2 date_str w) in
    let date := match date_str with
                | Some d => d
                | None => strftime_date (clock w (ticks w))
                end in
    total_students s = 0%Z /\
    present s = Z.of_nat (List.length
                  (filter (fun r => (att_date r =? date)%Z
                                    && String.eqb (att_status r) "Present")
                          (attendance w))) /\
    absent s = (- present s)%Z /\
    percentage s = round2 0.
Proof.
  intros round2 w date_str Hf1 Hf2 s date. subst s.
  unfold get_attendance_statistics, sbind, ret.
  rewrite get_total_students_answer, Hf1.
  destruct (get_present_count_answer date_str (advance w 1 0))
    as (d & k & Hd & Hd' & Hp).
  assert (Hdate : d = date).
  { subst date. destruct date_str as [d0|]; [now apply Hd|now apply Hd']. }
  rewrite Hdate in Hp. rewrite Hp.
  cbn [advance connections fault_at attendance Nat.add fst
       total_students present absent percentage].
  rewrite Hf2. repeat split.
Qed.

Lemma X16_statistics_after_a_failed_count_witness :
  let s := fst (get_attendance_statistics Sample2.round2 (Some 20000%Z)
                                          Sample2.world_down) in
  total_students s = 0%Z /\ present s = 2%Z /\ absent s = (-2)%Z.
Proof.
  pose proof (X16_statistics_after_a_failed_count Sample2.round2 Sample2.world_down
                (Some 20000%Z) eq_refl eq_refl) as H.
  intros s. fold s in H. destruct H as (H1 & H2 & H3 & _).
  split; [exact H1|]. split; [exact H2|]. rewrite H3, H2. reflexivity.
Defined.
